(** * Sales-Force (Ambivare ERP): a shallow embedding of the model layer
      and of the request middleware, with the properties of the
      specification stated over it.

    Conventions of the embedding.
    - A Django model class is a Rocq [Module] holding a record [t] whose
      fields carry the names of the model's columns, and one function per
      method of the class, under the method's name.
    - [DecimalField] values are Python [Decimal]s.  They are embedded as
      rationals: sums, differences and products of the column widths used
      here are exact within the 28 significant digits of the default
      decimal context, and so is a division by [100].  Where the code
      divides an attribute that may still hold the int of its declared
      default, the attribute is a [number]: an int or a [Decimal].
    - The size of an upload in megabytes is a Python [float]; it is
      embedded as a rational as well.
    - A Python exception is a value [Raise e] of the [result] type.
    - The clock, [uuid.uuid4] and the database are explicit arguments. *)

From Stdlib Require Import ZArith QArith Qround Qabs String Ascii List Lia Lqa Bool.
From Stdlib Require Import DecimalString DecimalPos.
From stdpp Require Import base strings gmap sorting.
Import ListNotations.

Local Open Scope Q_scope.
Local Open Scope string_scope.

(* ------------------------------------------------------------------ *)
(** ** Python values shared by every module *)

Abbreviation PyDecimal := Q (only parsing).

(** [bool(d)] of a [Decimal]: false exactly for a zero. *)
Definition Decimal_truthy (d : PyDecimal) : bool := negb (Qeq_bool d 0).

(** [bool(x)] of a nullable column: [None] is false. *)
Definition opt_truthy {A} (truthy : A -> bool) (x : option A) : bool :=
  match x with
  | Some a => truthy a
  | None => false
  end.

Definition Qlt_bool (x y : Q) : bool := negb (Qle_bool y x).

(** [sum(...)] starts from the integer [0] and adds from the left. *)
Definition py_sum (xs : list PyDecimal) : PyDecimal :=
  fold_left Qplus xs 0.

(** [min(a, b)]: the first argument unless the second is strictly smaller. *)
Definition py_min (a b : PyDecimal) : PyDecimal :=
  if Qlt_bool b a then b else a.

(** [bool(s)] of a string: false exactly for the empty string. *)
Definition str_truthy (s : string) : bool :=
  match s with
  | EmptyString => false
  | String _ _ => true
  end.

Definition str_in (s : string) (l : list string) : bool :=
  existsb (String.eqb s) l.

(** [d.get(key, default)] on a dict given by its items. *)
Fixpoint dict_get {V} (d : list (string * V)) (key : string) (default : V) : V :=
  match d with
  | [] => default
  | (k, v) :: rest => if String.eqb k key then v else dict_get rest key default
  end.

Definition dict_has {V} (d : list (string * V)) (key : string) : bool :=
  existsb (fun kv => String.eqb (fst kv) key) d.

(** What a numeric attribute holds in memory.  A [DecimalField] read from
    the database holds a [Decimal]; one left to its declared [default=0]
    holds that int until the instance is read back.  The two behave alike
    where the code adds, subtracts, compares or stores them, and
    differently where it divides by [100]: an int gives a float there. *)
Inductive number : Type :=
| Int (z : Z)
| Decimal (d : PyDecimal).

Definition number_value (n : number) : PyDecimal :=
  match n with
  | Int z => inject_Z z
  | Decimal d => d
  end.

Inductive exn : Type :=
| ValueError (msg : string)
| TypeError (msg : string)
| AttributeError (msg : string)
| IntegrityError (msg : string).

Inductive result (A : Type) : Type :=
| Ok (a : A)
| Raise (e : exn).
Arguments Ok {A} a.
Arguments Raise {A} e.

(** The exception monad, with stdpp's [x ← r; k] notation. *)
#[global] Instance result_ret : MRet result := fun A a => Ok a.
#[global] Instance result_bind : MBind result := fun A B k r =>
  match r with
  | Ok a => k a
  | Raise e => Raise e
  end.

Definition UUID := N.
Definition date := Z.          (* [date.toordinal()] *)
Definition datetime := Q.      (* seconds since the epoch *)

(* ------------------------------------------------------------------ *)
(** ** products/models.py *)

Module Product.
Record t := {
  sku : string;
  name : string;
  base_price : PyDecimal;
  tax_rate : PyDecimal
}.

(** [selling_price]. *)
Definition selling_price (self : t) : PyDecimal :=
  base_price self * (1 + tax_rate self / 100).

(** The "Ensure unique slug" loop of [save]: [base] is
    [slugify(self.name)], [slugs] the slugs of the stored products,
    [slug] and [counter] the loop variables.  The loop is cut after
    [fuel] turns; [None] stands for a loop that is still running then. *)
Fixpoint unique_slug (fuel : nat) (base : string) (slugs : list string)
    (slug : string) (counter : Z) : option string :=
  if negb (str_in slug slugs) then Some slug
  else match fuel with
       | O => None
       | S fuel =>
         unique_slug fuel base slugs (base ++ "-" ++ NilZero.string_of_int (Z.to_int counter))
                     (counter + 1)
       end.

(** The slug block of [save], for an instance whose slug is [slug]. *)
Definition save_slug (fuel : nat) (slug base : string) (slugs : list string)
  : option string :=
  if negb (str_truthy slug) then unique_slug fuel base slugs base 1
  else Some slug.
End Product.

Module PriceListItem.
Record t := {
  product : Product.t;
  fixed_price : option PyDecimal;
  discount_percentage : option PyDecimal;
  min_quantity : PyDecimal
}.

(** [get_price(self, quantity=1)]; the Python [None] is Rocq's [None]. *)
Definition get_price (self : t) (quantity : PyDecimal) : option PyDecimal :=
  if Qlt_bool quantity (min_quantity self) then None
  else if opt_truthy Decimal_truthy (fixed_price self) then
    fixed_price self
  else if opt_truthy Decimal_truthy (discount_percentage self) then
    match discount_percentage self with
    | Some d => Some (Product.base_price (product self) * (1 - d / 100))
    | None => None
    end
  else Some (Product.base_price (product self)).
End PriceListItem.

(* ------------------------------------------------------------------ *)
(** ** accounts/models.py *)

Module User.
Record t := {
  id : Z;
  email : string;
  role : string;
  is_active : bool;
  is_superuser : bool
}.

Definition perms := list (string * list string).

(** The literal [permissions] dictionary of [get_permissions], in source
    order (a Python dict keeps insertion order). *)
Definition permissions : list (string * perms) :=
  [ ("super_admin",
     [ ("users", ["create"; "read"; "update"; "delete"]);
       ("leads", ["create"; "read"; "update"; "delete"; "assign"]);
       ("customers", ["create"; "read"; "update"; "delete"]);
       ("deals", ["create"; "read"; "update"; "delete"]);
       ("products", ["create"; "read"; "update"; "delete"]);
       ("invoices", ["create"; "read"; "update"; "delete"; "send"]);
       ("reports", ["view"; "export"]);
       ("settings", ["view"; "update"]);
       ("billing", ["view"; "update"]) ]);
    ("admin",
     [ ("users", ["create"; "read"; "update"; "delete"]);
       ("leads", ["create"; "read"; "update"; "delete"; "assign"]);
       ("customers", ["create"; "read"; "update"; "delete"]);
       ("deals", ["create"; "read"; "update"; "delete"]);
       ("products", ["create"; "read"; "update"; "delete"]);
       ("invoices", ["create"; "read"; "update"; "delete"; "send"]);
       ("reports", ["view"; "export"]);
       ("settings", ["view"; "update"]);
       ("billing", ["view"; "update"]) ]);
    ("manager",
     [ ("users", ["read"]);
       ("leads", ["create"; "read"; "update"; "delete"; "assign"]);
       ("customers", ["create"; "read"; "update"; "delete"]);
       ("deals", ["create"; "read"; "update"; "delete"]);
       ("products", ["read"]);
       ("invoices", ["create"; "read"; "update"; "send"]);
       ("reports", ["view"; "export"]);
       ("settings", ["view"]) ]);
    ("executive",
     [ ("users", []);
       ("leads", ["create"; "read"; "update"]);
       ("customers", ["create"; "read"; "update"]);
       ("deals", ["create"; "read"; "update"]);
       ("products", ["read"]);
       ("invoices", ["create"; "read"]);
       ("reports", ["view"]);
       ("settings", []) ]);
    ("viewer",
     [ ("users", []);
       ("leads", ["read"]);
       ("customers", ["read"]);
       ("deals", ["read"]);
       ("products", ["read"]);
       ("invoices", ["read"]);
       ("reports", ["view"]);
       ("settings", []) ]) ].

Definition get_permissions (self : t) : perms :=
  dict_get permissions (role self) [].

(** What a caller asks of the returned dict: may this role perform
    [action] on [object]? *)
Definition allows (p : perms) (object action : string) : bool :=
  str_in action (dict_get p object []).

(** The role properties and [has_module_perms]. *)
Definition is_tenant_admin (self : t) : bool :=
  str_in (role self) ["super_admin"; "admin"].

Definition is_manager (self : t) : bool :=
  str_in (role self) ["super_admin"; "admin"; "manager"].

Definition can_manage_users (self : t) : bool :=
  str_in (role self) ["super_admin"; "admin"].

Definition can_manage_billing (self : t) : bool :=
  str_in (role self) ["super_admin"; "admin"].

Definition can_export_data (self : t) : bool :=
  str_in (role self) ["super_admin"; "admin"; "manager"].

Definition module_permissions : list (string * list string) :=
  [ ("admin", ["tenants"; "accounts"; "sales"; "products"; "billing"; "tasks";
               "analytics"; "integrations"]);
    ("manager", ["accounts"; "sales"; "products"; "tasks"; "analytics"]);
    ("executive", ["sales"; "products"; "tasks"]);
    ("viewer", ["sales"; "products"; "analytics"]) ].

Definition has_module_perms (self : t) (app_label : string) : bool :=
  if is_superuser self then true
  else str_in app_label (dict_get module_permissions (role self) []).
End User.

(* ------------------------------------------------------------------ *)
(** ** tenants/models.py *)

Inductive json : Type :=
| JNull
| JBool (b : bool)
| JInt (z : Z)
| JStr (s : string).

Module Tenant.
(** Columns the modelled methods never read are omitted. *)
Record t := {
  schema_name : string;
  name : string;
  subscription_status : string;
  subscription_plan : string;
  trial_end_date : option datetime;       (* null=True *)
  max_users : Z;
  max_leads : Z;
  max_storage_mb : Z;
  current_users : Z;
  current_leads : Z;
  current_storage_mb : PyDecimal;
  enabled_features : gmap string json
}.

(** [column > now] and [column <= now] on a nullable [DateTimeField]:
    Python refuses to order [None] against a [datetime]. *)
Definition datetime_gt (d : option datetime) (now : datetime) : result bool :=
  match d with
  | Some d => Ok (Qlt_bool now d)
  | None => Raise (TypeError
      "'>' not supported between instances of 'NoneType' and 'datetime.datetime'")
  end.

Definition datetime_le (d : option datetime) (now : datetime) : result bool :=
  match d with
  | Some d => Ok (Qle_bool d now)
  | None => Raise (TypeError
      "'<=' not supported between instances of 'NoneType' and 'datetime.datetime'")
  end.

(** [a and b] evaluates [b] only when [a] is true. *)
Definition is_on_trial (now : datetime) (self : t) : result bool :=
  if String.eqb (subscription_status self) "trial"
  then datetime_gt (trial_end_date self) now
  else Ok false.

Definition is_trial_expired (now : datetime) (self : t) : result bool :=
  if String.eqb (subscription_status self) "trial"
  then datetime_le (trial_end_date self) now
  else Ok false.

Definition can_add_users (self : t) : bool :=
  (max_users self =? -1)%Z || (current_users self <? max_users self)%Z.

Definition can_add_leads (self : t) : bool :=
  (max_leads self =? -1)%Z || (current_leads self <? max_leads self)%Z.

Definition has_feature (self : t) (feature_name : string) : json :=
  default (JBool false) (enabled_features self !! feature_name).
End Tenant.

(* ------------------------------------------------------------------ *)
(** ** The request and response objects the middleware sees *)

Record META_t := {
  HTTP_X_FORWARDED_FOR : option string;
  REMOTE_ADDR : option string
}.

Record HttpRequest := {
  path : string;
  method : string;
  user : option User.t;                   (* [None]: the anonymous user *)
  META : META_t;
  FILES : list (string * Z);              (* field name, [f.size] *)
  tenant : option Tenant.t                (* [hasattr(request, 'tenant')] *)
}.

Inductive HttpResponse : Type :=
| JsonResponse (data : list (string * json)) (status : Z)
| HttpResponseRedirect (to : string)
| HttpResponseForbidden (content : string).

(** A flash message queued by [messages.error] or [messages.warning]. *)
Inductive flash : Type :=
| msg_error (text : string)
| msg_warning (text : string).

(** [str(n)] of an integer. *)
Definition str_of_Z (z : Z) : string := NilZero.string_of_int (Z.to_int z).

Definition startswith (s p : string) : bool := String.prefix p s.

(* ------------------------------------------------------------------ *)
(** ** ambivare_erp/middleware/subscription.py *)

Module SubscriptionMiddleware.

Definition EXEMPT_URLS : list string :=
  [ "/admin/"; "/api/auth/login/"; "/api/auth/logout/";
    "/billing/subscription/"; "/billing/upgrade/"; "/static/"; "/media/" ].

(** What a handler leaves behind: the flash messages it queued and the
    response it returned ([None]: the request goes on). *)
Definition outcome : Type := list flash * option HttpResponse.

(** [request.is_ajax()].  The method left [HttpRequest] with Django 4.0,
    and settings.py needs Django 4.0 or later (its cache backend,
    [django.core.cache.backends.redis.RedisCache], came with that
    release): the attribute lookup raises.  The class named in the
    message is the one of the WSGI handler. *)
Definition is_ajax (request : HttpRequest) : result bool :=
  Raise (AttributeError "'WSGIRequest' object has no attribute 'is_ajax'").

(** [request.is_ajax() or request.path.startswith('/api/')]: the left
    operand is evaluated first. *)
Definition api_caller (request : HttpRequest) : result bool :=
  ajax ← is_ajax request;
  Ok (ajax || startswith (path request) "/api/").

Definition _handle_cancelled_subscription (request : HttpRequest) : result outcome :=
  api ← api_caller request;
  if api : bool then
    Ok ([], Some (JsonResponse
      [ ("error", JStr "Your subscription has been cancelled. Please contact support.");
        ("code", JStr "SUBSCRIPTION_CANCELLED") ] 403))
  else
    Ok ([msg_error "Your subscription has been cancelled. Please contact support."],
        Some (HttpResponseRedirect "billing:subscription")).

Definition _handle_past_due_subscription (request : HttpRequest) : result outcome :=
  api ← api_caller request;
  if api : bool then
    Ok ([], Some (JsonResponse
      [ ("error", JStr "Your subscription payment is past due. Please update your payment method.");
        ("code", JStr "SUBSCRIPTION_PAST_DUE") ] 403))
  else
    let m := [msg_warning
      "Your subscription payment is past due. Please update your payment method."] in
    if negb (String.eqb (method request) "GET")
    then Ok (m, Some (HttpResponseRedirect "billing:subscription"))
    else Ok (m, None).

Definition _handle_expired_trial (request : HttpRequest) : result outcome :=
  api ← api_caller request;
  if api : bool then
    Ok ([], Some (JsonResponse
      [ ("error", JStr "Your trial has expired. Please upgrade to continue.");
        ("code", JStr "TRIAL_EXPIRED") ] 403))
  else
    Ok ([msg_warning "Your trial has expired. Please upgrade to continue using our services."],
        Some (HttpResponseRedirect "billing:upgrade")).

(** [limit] is passed both as the JSON value and as its [str()]. *)
Definition limit_str (limit : json) : string :=
  match limit with
  | JStr s => s
  | JInt z => str_of_Z z
  | JBool true => "True"
  | JBool false => "False"
  | JNull => "None"
  end.

Definition _handle_limit_exceeded
    (request : HttpRequest) (resource_type : string) (limit : json) : result outcome :=
  api ← api_caller request;
  if api : bool then
    Ok ([], Some (JsonResponse
      [ ("error", JStr ("You have reached your " ++ resource_type ++ " limit ("
                        ++ limit_str limit ++ "). Please upgrade your plan."));
        ("code", JStr "LIMIT_EXCEEDED");
        ("resource", JStr resource_type);
        ("limit", limit) ] 403))
  else
    Ok ([msg_error ("You have reached your " ++ resource_type ++ " limit ("
                    ++ limit_str limit ++ "). Please upgrade your plan to continue.")],
        Some (HttpResponseRedirect "billing:upgrade")).

(** The three blocks of [_check_resource_limits], each with its own early
    return ([None]: the block returns nothing and the next one runs). *)
Definition user_limit_block (request : HttpRequest) (tenant : Tenant.t)
  : option (result outcome) :=
  if startswith (path request) "/accounts/users/create/"
     || startswith (path request) "/api/users/"
  then
    if negb (Tenant.can_add_users tenant)
    then Some (_handle_limit_exceeded request "users" (JInt (Tenant.max_users tenant)))
    else None
  else None.

Definition lead_limit_block (request : HttpRequest) (tenant : Tenant.t)
  : option (result outcome) :=
  if startswith (path request) "/sales/leads/create/"
     || startswith (path request) "/api/leads/"
  then
    if negb (Tenant.can_add_leads tenant)
    then Some (_handle_limit_exceeded request "leads" (JInt (Tenant.max_leads tenant)))
    else None
  else None.

Definition storage_limit_block (request : HttpRequest) (tenant : Tenant.t)
  : option (result outcome) :=
  if dict_has (FILES request) "file" || dict_has (FILES request) "attachment"
  then
    let file_size := fold_left Z.add (map snd (FILES request)) 0%Z in
    let file_size_mb := inject_Z file_size / inject_Z (1024 * 1024) in
    if Qlt_bool (inject_Z (Tenant.max_storage_mb tenant))
                (Tenant.current_storage_mb tenant + file_size_mb)
    then Some (_handle_limit_exceeded request "storage"
                 (JStr (str_of_Z (Tenant.max_storage_mb tenant) ++ "MB")))
    else None
  else None.

Definition _check_resource_limits (request : HttpRequest) (tenant : Tenant.t)
  : result outcome :=
  match user_limit_block request tenant with
  | Some r => r
  | None =>
    match lead_limit_block request tenant with
    | Some r => r
    | None =>
      match storage_limit_block request tenant with
      | Some r => r
      | None => Ok ([], None)
      end
    end
  end.

(** [process_request]; [public_schema] is [get_public_schema_name()]. *)
Definition process_request
    (public_schema : string) (now : datetime) (request : HttpRequest)
  : result outcome :=
  if match tenant request with
     | Some t => String.eqb (Tenant.schema_name t) public_schema
     | None => false
     end
  then Ok ([], None)
  else if existsb (startswith (path request)) EXEMPT_URLS then Ok ([], None)
  else
    match tenant request with
    | None => Ok ([], None)
    | Some tenant =>
      if String.eqb (Tenant.subscription_status tenant) "cancelled"
      then _handle_cancelled_subscription request
      else if String.eqb (Tenant.subscription_status tenant) "past_due"
      then _handle_past_due_subscription request
      else
        expired ← Tenant.is_trial_expired now tenant;
        if expired : bool then _handle_expired_trial request
        else if String.eqb (method request) "POST"
        then _check_resource_limits request tenant
        else Ok ([], None)
    end.

End SubscriptionMiddleware.

(* ------------------------------------------------------------------ *)
(** ** ambivare_erp/middleware/security.py *)

Module RateLimitMiddleware.

(** [self.rates], in insertion order: (pattern, (max_requests, window)). *)
Definition rates : list (string * (Z * Q)) :=
  [ ("api/auth/login", (5%Z, 300));
    ("api/auth/register", (3%Z, 3600));
    ("api/auth/password-reset", (3%Z, 3600));
    ("api/", (1000%Z, 3600)) ].

Fixpoint lstrip (c : ascii) (s : string) : string :=
  match s with
  | String a rest => if Ascii.eqb a c then lstrip c rest else s
  | EmptyString => EmptyString
  end.

Definition str_rev (s : string) : string :=
  string_of_list_ascii (rev (list_ascii_of_string s)).

(** [s.strip(c)] for a one-character [c]. *)
Definition strip (c : ascii) (s : string) : string :=
  str_rev (lstrip c (str_rev (lstrip c s))).

(** [s.split(c)[0]]. *)
Fixpoint split_head (c : ascii) (s : string) : string :=
  match s with
  | String a rest => if Ascii.eqb a c then EmptyString else String a (split_head c rest)
  | EmptyString => EmptyString
  end.

(** [f"{x}"] of a value that may be [None]. *)
Definition fmt_opt (x : option string) : string :=
  match x with
  | Some s => s
  | None => "None"
  end.

Definition get_client_id (request : HttpRequest) : string :=
  match user request with
  | Some u => "user:" ++ str_of_Z (User.id u)
  | None =>
    let x_forwarded_for := HTTP_X_FORWARDED_FOR (META request) in
    let ip :=
      if opt_truthy str_truthy x_forwarded_for
      then option_map (split_head ",") x_forwarded_for
      else REMOTE_ADDR (META request) in
    "ip:" ++ fmt_opt ip
  end.

(** The rule of the first pattern the path starts with. *)
Definition find_rate (p : string) : option (Z * Q) :=
  option_map snd (List.find (fun r => startswith p (fst r)) rates).

Definition process_request
    (current_time : Q) (request : HttpRequest) (cache : gmap string (list Q))
  : option HttpResponse * gmap string (list Q) :=
  let p := strip "/" (path request) in
  match find_rate p with
  | None => (None, cache)
  | Some (max_requests, window) =>
    let client_id := get_client_id request in
    let cache_key := p ++ ":" ++ client_id in
    let cache0 :=
      match cache !! cache_key with
      | Some _ => cache
      | None => <[cache_key := []]> cache
      end in
    let kept :=
      List.filter (fun timestamp => Qlt_bool (current_time - timestamp) window)
                  (default [] (cache0 !! cache_key)) in
    let cache1 := <[cache_key := kept]> cache0 in
    if (max_requests <=? Z.of_nat (length kept))%Z
    then (Some (HttpResponseForbidden "Rate limit exceeded. Please try again later."),
          cache1)
    else (None, <[cache_key := (kept ++ [current_time])%list]> cache1)
  end.

End RateLimitMiddleware.

(** Reading the middleware's cache: the key of a request, the timestamps
    recorded under a key, those still inside the window, and the answers
    of one middleware instance to the same request arriving at the given
    times. *)
Definition cache_key (request : HttpRequest) : string :=
  RateLimitMiddleware.strip "/" (path request) ++ ":"
  ++ RateLimitMiddleware.get_client_id request.

Definition entries (cache : gmap string (list Q)) (key : string) : list Q :=
  default [] (cache !! key).

Definition in_window (now window : Q) (l : list Q) : list Q :=
  List.filter (fun timestamp => Qlt_bool (now - timestamp) window) l.

Definition Forbidden : HttpResponse :=
  HttpResponseForbidden "Rate limit exceeded. Please try again later.".

Fixpoint serve (request : HttpRequest) (times : list Q) (cache : gmap string (list Q))
  : list (option HttpResponse) * gmap string (list Q) :=
  match times with
  | [] => ([], cache)
  | t :: rest =>
    let '(r, cache1) := RateLimitMiddleware.process_request t request cache in
    let '(rs, cache2) := serve request rest cache1 in
    (r :: rs, cache2)
  end.

(* ------------------------------------------------------------------ *)
(** ** Strings and tables used by the document-numbering code *)

(** [s.split(c)] for a one-character separator: never empty. *)
Fixpoint split (c : ascii) (s : string) : list string :=
  match s with
  | EmptyString => [EmptyString]
  | String a rest =>
    if Ascii.eqb a c then EmptyString :: split c rest
    else match split c rest with
         | w :: ws => String a w :: ws
         | [] => [String a EmptyString]
         end
  end.

Definition is_digit (a : ascii) : bool :=
  (48 <=? nat_of_ascii a)%nat && (nat_of_ascii a <=? 57)%nat.

Fixpoint all_digits (s : string) : bool :=
  match s with
  | EmptyString => true
  | String a rest => is_digit a && all_digits rest
  end.

(** [int(s)] on an optional sign followed by ASCII digits; [None] stands
    for [ValueError].  (Python also accepts surrounding blanks and single
    underscores between digits; no number generated below contains any.) *)
Definition py_int (s : string) : option Z :=
  let '(sign, body) :=
    match s with
    | String "-" rest => ((-1)%Z, rest)
    | String "+" rest => (1%Z, rest)
    | _ => (1%Z, s)
    end in
  if str_truthy body && all_digits body
  then option_map (fun u => (sign * Z.of_uint u)%Z) (NilZero.uint_of_string body)
  else None.

Fixpoint zeros (n : nat) : string :=
  match n with
  | O => EmptyString
  | S n => String "0" (zeros n)
  end.

(** [f"{n:0Wd}"]: sign first, then zeros up to the width [W]. *)
Definition fmt_0d (width : nat) (n : Z) : string :=
  let digits := str_of_Z (Z.abs n) in
  let sign := if (n <? 0)%Z then "-" else "" in
  sign ++ zeros (width - String.length sign - String.length digits) ++ digits.

(** [order_by('-created_at').first()]: the row with the greatest key; among
    equal keys the one met first in the table. *)
Fixpoint latest {A} (key : A -> Q) (rows : list A) : option A :=
  match rows with
  | [] => None
  | r :: rest =>
    match latest key rest with
    | Some r' => if Qlt_bool (key r) (key r') then Some r' else Some r
    | None => Some r
    end
  end.

(** [Model.save()] on a table keyed by [pk]: the row with that key is
    replaced where it stands, a row with a new key is added at the end. *)
Fixpoint upsert {A K} (eqb : K -> K -> bool) (pk : A -> K) (row : A) (rows : list A)
  : list A :=
  match rows with
  | [] => [row]
  | r :: rest =>
    if eqb (pk r) (pk row) then row :: rest
    else r :: upsert eqb pk row rest
  end.

Definition has_pk {A K} (eqb : K -> K -> bool) (pk : A -> K) (k : K) (rows : list A)
  : bool :=
  existsb (fun r => eqb (pk r) k) rows.

(* ------------------------------------------------------------------ *)
(** ** sales/models/customer.py *)

Module Customer.
Record t := {
  id : UUID;
  customer_code : string;
  customer_type : string;
  first_name : string;
  last_name : string;
  email : string;
  phone : string;
  secondary_phone : string;
  company_name : string;
  job_title : string;
  industry : string;
  billing_address : string;
  billing_city : string;
  billing_state : string;
  billing_country : string;
  billing_postal_code : string;
  assigned_to : option Z;
  payment_terms : Z;
  lead_source : string;
  created_by : option Z;
  created_at : datetime
}.

Definition set_customer_code (c : string) (self : t) : t :=
  {| id := id self; customer_code := c; customer_type := customer_type self;
     first_name := first_name self; last_name := last_name self;
     email := email self; phone := phone self;
     secondary_phone := secondary_phone self;
     company_name := company_name self; job_title := job_title self;
     industry := industry self; billing_address := billing_address self;
     billing_city := billing_city self; billing_state := billing_state self;
     billing_country := billing_country self;
     billing_postal_code := billing_postal_code self;
     assigned_to := assigned_to self; payment_terms := payment_terms self;
     lead_source := lead_source self; created_by := created_by self;
     created_at := created_at self |}.

Definition set_created_at (d : datetime) (self : t) : t :=
  {| id := id self; customer_code := customer_code self;
     customer_type := customer_type self;
     first_name := first_name self; last_name := last_name self;
     email := email self; phone := phone self;
     secondary_phone := secondary_phone self;
     company_name := company_name self; job_title := job_title self;
     industry := industry self; billing_address := billing_address self;
     billing_city := billing_city self; billing_state := billing_state self;
     billing_country := billing_country self;
     billing_postal_code := billing_postal_code self;
     assigned_to := assigned_to self; payment_terms := payment_terms self;
     lead_source := lead_source self; created_by := created_by self;
     created_at := d |}.

(** The code a save generates when [customer_code] is empty. *)
Definition next_customer_code (customers : list t) : string :=
  match latest created_at customers with
  | Some last_customer =>
    if str_truthy (customer_code last_customer) then
      match nth_error (split "-" (customer_code last_customer)) 1 with
      | Some part =>
        match py_int part with
        | Some last_num => "CUST-" ++ fmt_0d 5 (last_num + 1)
        | None => "CUST-00001"                       (* ValueError *)
        end
      | None => "CUST-00001"                         (* IndexError *)
      end
    else "CUST-00001"
  | None => "CUST-00001"
  end.

(** [save], called on an instance that is not yet in the table (this is
    how [objects.create] calls it): the row is inserted and
    [auto_now_add] stamps [created_at]. *)
Definition save_new (now : datetime) (self : t) (customers : list t)
  : t * list t :=
  let self1 :=
    if negb (str_truthy (customer_code self))
    then set_customer_code (next_customer_code customers) self
    else self in
  let self2 := set_created_at now self1 in
  (self2, (customers ++ [self2])%list).
End Customer.

(* ------------------------------------------------------------------ *)
(** ** sales/models/lead.py *)

Module Lead.
Record t := {
  id : UUID;
  first_name : string;
  last_name : string;
  email : string;
  phone : string;
  secondary_phone : string;
  company_name : string;
  job_title : string;
  industry : string;
  company_size : string;
  status : string;
  source : string;
  assigned_to : option Z;
  address : string;
  city : string;
  state : string;
  country : string;
  postal_code : string;
  converted_to_customer : option UUID;    (* the foreign key column *)
  converted_date : option datetime
}.

(** The three assignments at the end of [convert_to_customer]. *)
Definition mark_converted (customer : UUID) (now : datetime) (self : t) : t :=
  {| id := id self; first_name := first_name self; last_name := last_name self;
     email := email self; phone := phone self;
     secondary_phone := secondary_phone self;
     company_name := company_name self; job_title := job_title self;
     industry := industry self; company_size := company_size self;
     status := "converted";
     source := source self; assigned_to := assigned_to self;
     address := address self; city := city self; state := state self;
     country := country self; postal_code := postal_code self;
     converted_to_customer := Some customer;
     converted_date := Some now |}.

(** The lead has no [save] of its own: the inherited one writes the row. *)
Definition save (self : t) (leads : list t) : list t :=
  upsert N.eqb id self leads.

(** The database as this module sees it. *)
Record db := {
  customers : list Customer.t;
  leads : list t
}.

(** [convert_to_customer(self, user)].  [uuid4] is the identifier drawn for
    the new customer, [now] the clock.  The result carries the instance
    and the database as the call leaves them, also when it raises. *)
Definition convert_to_customer
    (uuid4 : UUID) (now : datetime) (user : option Z) (self : t) (d : db)
  : result Customer.t * (t * db) :=
  if String.eqb (status self) "converted"
  then (Raise (ValueError "Lead is already converted"), (self, d))
  else
    let '(customer, customers') :=
      Customer.save_new now
        {| Customer.id := uuid4;
           Customer.customer_code := "";
           Customer.customer_type := "company";
           Customer.first_name := first_name self;
           Customer.last_name := last_name self;
           Customer.email := email self;
           Customer.phone := phone self;
           Customer.secondary_phone := secondary_phone self;
           Customer.company_name := company_name self;
           Customer.job_title := job_title self;
           Customer.industry := industry self;
           Customer.billing_address := address self;
           Customer.billing_city := city self;
           Customer.billing_state := state self;
           Customer.billing_country := country self;
           Customer.billing_postal_code := postal_code self;
           Customer.assigned_to := assigned_to self;
           Customer.payment_terms := 30;
           Customer.lead_source := source self;
           Customer.created_by := user;
           Customer.created_at := now |}
        (customers d) in
    let self' := mark_converted (Customer.id customer) now self in
    (Ok customer,
     (self', {| customers := customers'; leads := save self' (leads d) |})).
End Lead.

(* ------------------------------------------------------------------ *)
(** ** billing/models/invoice.py

    The totals of an invoice and of a quotation are computed from lines
    read back from their table, so the line tables hold what the columns
    keep: a line row is written with each [DecimalField] rounded to its
    two decimal places, while the instance that was saved keeps the
    amounts as computed.  No method here reads the amounts of an invoice,
    a quotation or a payment back from its row; those rows are written as
    the instance holds them. *)

(** Rounding to the nearest integer, ties away from zero. *)
Definition round_half_away (x : Q) : Z :=
  if Qle_bool 0 x then Qfloor (x + (1 # 2)) else Qceiling (x - (1 # 2)).

(** The value a [DecimalField(decimal_places=2)] column holds after a
    [Decimal] is written to it.  settings.py names the PostgreSQL engine
    ([django_tenants.postgresql_backend]), to which Django hands the
    [Decimal] as it is, and PostgreSQL rounds a [numeric] to the scale of
    its column, ties away from zero. *)
Definition decimal_places_2 (x : PyDecimal) : PyDecimal :=
  Qmake (round_half_away (x * 100)) 100.

(** [x] fits a [DecimalField(max_digits, decimal_places=2)]: rounded, it
    has at most [max_digits - 2] digits before the point.  PostgreSQL
    refuses any other value, and the [save] functions below are the
    writes of values that fit. *)
Definition fits (max_digits : Z) (x : PyDecimal) : Prop :=
  Qabs (decimal_places_2 x) < inject_Z (10 ^ (max_digits - 2)).

(** The line-item arithmetic shared by [InvoiceItem.save] and
    [QuotationItem.save]: (discount_amount, tax_amount, total). *)
Definition line_amounts (quantity unit_price discount_percentage tax_rate : PyDecimal)
  : PyDecimal * PyDecimal * PyDecimal :=
  let subtotal := quantity * unit_price in
  let discount_amount := subtotal * (discount_percentage / 100) in
  let taxable_amount := subtotal - discount_amount in
  let tax_amount := taxable_amount * (tax_rate / 100) in
  let total := taxable_amount + tax_amount in
  (discount_amount, tax_amount, total).

(** [Meta.ordering = ['order', 'id']]. *)
Definition by_order_id (a b : Z * Z) : Prop :=
  (fst a < fst b)%Z \/ (fst a = fst b /\ (snd a <= snd b)%Z).

#[global] Instance by_order_id_dec a b : Decision (by_order_id a b).
Proof. unfold by_order_id. apply _. Defined.

(** The next value of an [AutoField] sequence. *)
Definition next_auto_id (ids : list (option Z)) : Z :=
  fold_left (fun m i => Z.max m (default 0%Z i)) ids 0%Z + 1.

(** An instance of a line holds a [Decimal] in each numeric attribute: it
    was read from the table, or built with a [Decimal] for the quantity,
    the unit price, the discount percentage and the tax rate.  ([create]
    below covers a line built without the last two.) *)
Module InvoiceItem.
Record t := {
  id : option Z;                          (* [None] until first saved *)
  invoice : UUID;
  product : option UUID;
  description : string;
  quantity : PyDecimal;
  unit_price : PyDecimal;
  discount_percentage : PyDecimal;
  discount_amount : PyDecimal;
  tax_rate : PyDecimal;
  tax_amount : PyDecimal;
  total : PyDecimal;
  order : Z
}.

Definition with_amounts (amounts : PyDecimal * PyDecimal * PyDecimal) (self : t) : t :=
  let '(d, x, tot) := amounts in
  {| id := id self; invoice := invoice self; product := product self;
     description := description self; quantity := quantity self;
     unit_price := unit_price self;
     discount_percentage := discount_percentage self;
     discount_amount := d; tax_rate := tax_rate self; tax_amount := x;
     total := tot; order := order self |}.

Definition with_id (k : Z) (self : t) : t :=
  {| id := Some k; invoice := invoice self; product := product self;
     description := description self; quantity := quantity self;
     unit_price := unit_price self;
     discount_percentage := discount_percentage self;
     discount_amount := discount_amount self; tax_rate := tax_rate self;
     tax_amount := tax_amount self; total := total self; order := order self |}.

(** The "Calculate amounts" block of [save]. *)
Definition calculate_amounts (self : t) : t :=
  with_amounts
    (line_amounts (quantity self) (unit_price self)
                  (discount_percentage self) (tax_rate self))
    self.

Definition same_id (a b : option Z) : bool :=
  match a, b with
  | Some x, Some y => (x =? y)%Z
  | _, _ => false
  end.

(** The row that the inherited [save] writes for an instance. *)
Definition row_of (self : t) : t :=
  {| id := id self; invoice := invoice self; product := product self;
     description := description self;
     quantity := decimal_places_2 (quantity self);
     unit_price := decimal_places_2 (unit_price self);
     discount_percentage := decimal_places_2 (discount_percentage self);
     discount_amount := decimal_places_2 (discount_amount self);
     tax_rate := decimal_places_2 (tax_rate self);
     tax_amount := decimal_places_2 (tax_amount self);
     total := decimal_places_2 (total self); order := order self |}.

(** [save]: the instance that is returned and the table. *)
Definition save (self : t) (rows : list t) : t * list t :=
  let self1 := calculate_amounts self in
  match id self1 with
  | None =>
    let self2 := with_id (next_auto_id (map id rows)) self1 in
    (self2, (rows ++ [row_of self2])%list)
  | Some _ => (self1, upsert same_id id (row_of self1) rows)
  end.

(** [InvoiceItem.objects.create(...)] with a [Decimal] quantity and unit
    price.  The discount percentage and the tax rate are optional: a
    column the caller leaves out takes its declared default, the int [0]
    or [18], and [save] then multiplies a [Decimal] with the float
    [0 / 100] or [18 / 100], which raises before anything is written. *)
Definition create
    (invoice_id : UUID) (product_id : option UUID) (text : string)
    (qty price : PyDecimal) (discount tax : option PyDecimal) (position : Z)
    (rows : list t) : result (t * list t) :=
  match discount, tax with
  | Some discount, Some tax =>
    Ok (save {| id := None; invoice := invoice_id; product := product_id;
                description := text; quantity := qty; unit_price := price;
                discount_percentage := discount; discount_amount := 0;
                tax_rate := tax; tax_amount := 0; total := 0;
                order := position |} rows)
  | _, _ =>
    Raise (TypeError "unsupported operand type(s) for *: 'decimal.Decimal' and 'float'")
  end.

Definition sort_key (i : t) : Z * Z := (order i, default 0%Z (id i)).
End InvoiceItem.

Module Invoice.
Record t := {
  id : UUID;
  invoice_number : string;
  customer : UUID;
  deal : option UUID;
  quotation : option UUID;
  invoice_date : date;
  due_date : date;
  status : string;
  subtotal : PyDecimal;
  discount_type : string;
  discount_value : PyDecimal;
  discount_amount : PyDecimal;
  tax_amount : PyDecimal;
  total_amount : PyDecimal;
  amount_paid : PyDecimal;
  amount_due : PyDecimal;
  currency : string;
  payment_terms : string;
  notes : string;
  billing_address : string;
  billing_city : string;
  billing_state : string;
  billing_country : string;
  billing_postal_code : string;
  created_by : option Z;
  created_at : datetime
}.

(** Everything a method of this file assigns, at once. *)
Definition update
    (number st : string) (sub disc tax tot paid due : PyDecimal) (created : datetime)
    (self : t) : t :=
  {| id := id self; invoice_number := number; customer := customer self;
     deal := deal self; quotation := quotation self;
     invoice_date := invoice_date self; due_date := due_date self;
     status := st; subtotal := sub; discount_type := discount_type self;
     discount_value := discount_value self; discount_amount := disc;
     tax_amount := tax; total_amount := tot; amount_paid := paid;
     amount_due := due; currency := currency self;
     payment_terms := payment_terms self; notes := notes self;
     billing_address := billing_address self;
     billing_city := billing_city self; billing_state := billing_state self;
     billing_country := billing_country self;
     billing_postal_code := billing_postal_code self;
     created_by := created_by self; created_at := created |}.

Definition set_invoice_number (n : string) (self : t) : t :=
  update n (status self) (subtotal self) (discount_amount self) (tax_amount self)
         (total_amount self) (amount_paid self) (amount_due self) (created_at self) self.

Definition set_created_at (d : datetime) (self : t) : t :=
  update (invoice_number self) (status self) (subtotal self) (discount_amount self)
         (tax_amount self) (total_amount self) (amount_paid self) (amount_due self)
         d self.

Definition set_amount_paid (p : PyDecimal) (self : t) : t :=
  update (invoice_number self) (status self) (subtotal self) (discount_amount self)
         (tax_amount self) (total_amount self) p (amount_due self)
         (created_at self) self.

(** [self.items.all()]: the rows of this invoice, in [Meta.ordering]. *)
Definition items (self : t) (rows : list InvoiceItem.t) : list InvoiceItem.t :=
  merge_sort (fun a b => by_order_id (InvoiceItem.sort_key a) (InvoiceItem.sort_key b))
    (List.filter (fun i => N.eqb (InvoiceItem.invoice i) (id self)) rows).

Definition is_overdue (today : date) (self : t) : bool :=
  negb (str_in (status self) ["paid"; "cancelled"; "refunded"])
  && (due_date self <? today)%Z.

Definition calculate_totals (today : date) (self : t) (rows : list InvoiceItem.t) : t :=
  let subtotal := py_sum (map InvoiceItem.total (items self rows)) in
  let discount_amount :=
    if String.eqb (discount_type self) "fixed"
    then py_min (discount_value self) subtotal
    else subtotal * (discount_value self / 100) in
  let taxable_amount := subtotal - discount_amount in
  let tax_amount := py_sum (map InvoiceItem.tax_amount (items self rows)) in
  let total_amount := taxable_amount + tax_amount in
  let amount_due := total_amount - amount_paid self in
  let status' :=
    if Qle_bool total_amount (amount_paid self) then "paid"
    else if Qlt_bool 0 (amount_paid self) then "partial"
    else if is_overdue today self && negb (str_in (status self) ["draft"; "cancelled"])
    then "overdue"
    else status self in
  update (invoice_number self) status' subtotal discount_amount tax_amount
         total_amount (amount_paid self) amount_due (created_at self) self.

(** The number [save] generates when [invoice_number] is empty. *)
Definition next_invoice_number (invoices : list t) : string :=
  let prefix := "INV" in
  let last_invoice :=
    latest created_at
      (List.filter (fun i => startswith (invoice_number i) prefix) invoices) in
  let new_num :=
    match last_invoice with
    | Some last_invoice =>
      match py_int (List.last (split "-" (invoice_number last_invoice)) "") with
      | Some last_num => (last_num + 1)%Z
      | None => 1001%Z
      end
    | None => 1001%Z
    end in
  prefix ++ "-" ++ fmt_0d 6 new_num.

(** [save]: the inherited save updates the row of this [id] or, when there
    is none, inserts it, and then [auto_now_add] stamps [created_at]. *)
Definition save (now : datetime) (self : t) (invoices : list t) : t * list t :=
  let self1 :=
    if negb (str_truthy (invoice_number self))
    then set_invoice_number (next_invoice_number invoices) self
    else self in
  let self2 :=
    if has_pk N.eqb id (id self1) invoices then self1
    else set_created_at now self1 in
  (self2, upsert N.eqb id self2 invoices).

(** [Invoice.objects.create(...)]: the instance is built and saved with an
    insert.  A key or a number that a stored row already carries violates
    the primary key or the [unique=True] of [invoice_number].  (The
    message of the database goes on to name the constraint and the key.) *)
Definition create (now : datetime) (self : t) (invoices : list t)
  : result (t * list t) :=
  let '(saved, rows) := save now self invoices in
  if has_pk N.eqb id (id saved) invoices
     || existsb (fun i => String.eqb (invoice_number i) (invoice_number saved)) invoices
  then Raise (IntegrityError "duplicate key value violates unique constraint")
  else Ok (saved, rows).

(** [calculate_totals] on an instance whose attribute [discount_value]
    holds [v]; the record carries the value of [v].  The percentage
    branch divides [v] by [100]: for an int that is a float, and the
    subtotal of at least one line is a [Decimal], which does not multiply
    with a float.  The sum of no line is the int [0], which does. *)
Definition calculate_totals_holding
    (v : number) (today : date) (self : t) (rows : list InvoiceItem.t) : result t :=
  match v, String.eqb (discount_type self) "fixed", items self rows with
  | Int _, false, _ :: _ =>
    Raise (TypeError "unsupported operand type(s) for *: 'decimal.Decimal' and 'float'")
  | _, _, _ => Ok (calculate_totals today self rows)
  end.
End Invoice.

(* ------------------------------------------------------------------ *)
(** ** billing/models/quotation.py *)

Module QuotationItem.
Record t := {
  id : option Z;
  quotation : UUID;
  product : option UUID;
  description : string;
  quantity : PyDecimal;
  unit_price : PyDecimal;
  discount_percentage : PyDecimal;
  discount_amount : PyDecimal;
  tax_rate : PyDecimal;
  tax_amount : PyDecimal;
  total : PyDecimal;
  order : Z
}.

(** The "Calculate amounts" block of [save]. *)
Definition calculate_amounts (self : t) : t :=
  let '(d, x, tot) :=
    line_amounts (quantity self) (unit_price self)
                 (discount_percentage self) (tax_rate self) in
  {| id := id self; quotation := quotation self; product := product self;
     description := description self; quantity := quantity self;
     unit_price := unit_price self;
     discount_percentage := discount_percentage self;
     discount_amount := d; tax_rate := tax_rate self; tax_amount := x;
     total := tot; order := order self |}.

Definition with_id (k : Z) (self : t) : t :=
  {| id := Some k; quotation := quotation self; product := product self;
     description := description self; quantity := quantity self;
     unit_price := unit_price self;
     discount_percentage := discount_percentage self;
     discount_amount := discount_amount self; tax_rate := tax_rate self;
     tax_amount := tax_amount self; total := total self; order := order self |}.

(** The row that the inherited [save] writes for an instance. *)
Definition row_of (self : t) : t :=
  {| id := id self; quotation := quotation self; product := product self;
     description := description self;
     quantity := decimal_places_2 (quantity self);
     unit_price := decimal_places_2 (unit_price self);
     discount_percentage := decimal_places_2 (discount_percentage self);
     discount_amount := decimal_places_2 (discount_amount self);
     tax_rate := decimal_places_2 (tax_rate self);
     tax_amount := decimal_places_2 (tax_amount self);
     total := decimal_places_2 (total self); order := order self |}.

Definition save (self : t) (rows : list t) : t * list t :=
  let self1 := calculate_amounts self in
  match id self1 with
  | None =>
    let self2 := with_id (next_auto_id (map id rows)) self1 in
    (self2, (rows ++ [row_of self2])%list)
  | Some _ => (self1, upsert InvoiceItem.same_id id (row_of self1) rows)
  end.

Definition sort_key (i : t) : Z * Z := (order i, default 0%Z (id i)).
End QuotationItem.

Module Quotation.
Record t := {
  id : UUID;
  quote_number : string;
  customer : Customer.t;                  (* the related instance *)
  deal : option UUID;
  valid_until : date;
  status : string;
  subtotal : PyDecimal;
  discount_type : string;
  discount_value : number;                (* divided by [100] below *)
  discount_amount : PyDecimal;
  tax_amount : PyDecimal;
  total_amount : PyDecimal;
  currency : string;
  terms_conditions : string;
  notes : string;
  billing_address : string;
  billing_city : string;
  billing_state : string;
  billing_country : string;
  billing_postal_code : string;
  created_by : option Z
}.

Definition items (self : t) (rows : list QuotationItem.t) : list QuotationItem.t :=
  merge_sort
    (fun a b => by_order_id (QuotationItem.sort_key a) (QuotationItem.sort_key b))
    (List.filter (fun i => N.eqb (QuotationItem.quotation i) (id self)) rows).

(** [calculate_totals].  [self.discount_value / 100] is a float when the
    attribute holds an int, and the subtotal of at least one line is a
    [Decimal], which does not multiply with a float; the sum of no line
    is the int [0], which does. *)
Definition calculate_totals (self : t) (rows : list QuotationItem.t) : result t :=
  let subtotal := py_sum (map QuotationItem.total (items self rows)) in
  discount_amount ←
    (if String.eqb (discount_type self) "fixed"
     then Ok (py_min (number_value (discount_value self)) subtotal)
     else
       match discount_value self, items self rows with
       | Int _, _ :: _ =>
         Raise (TypeError
           "unsupported operand type(s) for *: 'decimal.Decimal' and 'float'")
       | v, _ => Ok (subtotal * (number_value v / 100))
       end);
  let taxable_amount := subtotal - discount_amount in
  let tax_amount := py_sum (map QuotationItem.tax_amount (items self rows)) in
  let total_amount := taxable_amount + tax_amount in
  Ok {| id := id self; quote_number := quote_number self; customer := customer self;
        deal := deal self; valid_until := valid_until self; status := status self;
        subtotal := subtotal; discount_type := discount_type self;
        discount_value := discount_value self; discount_amount := discount_amount;
        tax_amount := tax_amount; total_amount := total_amount;
        currency := currency self; terms_conditions := terms_conditions self;
        notes := notes self; billing_address := billing_address self;
        billing_city := billing_city self; billing_state := billing_state self;
        billing_country := billing_country self;
        billing_postal_code := billing_postal_code self;
        created_by := created_by self |}.

(** The database as [convert_to_invoice] sees it. *)
Record db := {
  quotation_items : list QuotationItem.t;
  invoices : list Invoice.t;
  invoice_items : list InvoiceItem.t
}.

(** [x or 30] on an integer. *)
Definition or_30 (x : Z) : Z := if (x =? 0)%Z then 30%Z else x.

(** One turn of the "Copy items" loop: [InvoiceItem.objects.create(...)]
    with every column given, each a [Decimal] read from the quotation
    line. *)
Definition copy_item (invoice : Invoice.t) (rows : list InvoiceItem.t)
    (item : QuotationItem.t) : list InvoiceItem.t :=
  snd (InvoiceItem.save
    {| InvoiceItem.id := None;
       InvoiceItem.invoice := Invoice.id invoice;
       InvoiceItem.product := QuotationItem.product item;
       InvoiceItem.description := QuotationItem.description item;
       InvoiceItem.quantity := QuotationItem.quantity item;
       InvoiceItem.unit_price := QuotationItem.unit_price item;
       InvoiceItem.discount_percentage := QuotationItem.discount_percentage item;
       InvoiceItem.discount_amount := 0;
       InvoiceItem.tax_rate := QuotationItem.tax_rate item;
       InvoiceItem.tax_amount := 0;
       InvoiceItem.total := 0;
       InvoiceItem.order := QuotationItem.order item |}
    rows).

(** [convert_to_invoice(self)].  [uuid4] is the identifier drawn for the
    invoice, [now] and [today] the clock.  The database is returned as the
    call leaves it, also when it raises: the method opens no transaction,
    so what was written before an exception stays written.  The invoice
    instance holds the quotation's [discount_value] as the quotation
    holds it. *)
Definition convert_to_invoice
    (uuid4 : UUID) (now : datetime) (today : date) (self : t) (d : db)
  : result Invoice.t * db :=
  if negb (String.eqb (status self) "accepted")
  then (Raise (ValueError "Only accepted quotations can be converted to invoices"), d)
  else
    match
      Invoice.create now
        {| Invoice.id := uuid4;
           Invoice.invoice_number := "";
           Invoice.customer := Customer.id (customer self);
           Invoice.deal := deal self;
           Invoice.quotation := Some (id self);
           Invoice.invoice_date := today;
           Invoice.due_date := (today + or_30 (Customer.payment_terms (customer self)))%Z;
           Invoice.status := "draft";
           Invoice.subtotal := subtotal self;
           Invoice.discount_type := discount_type self;
           Invoice.discount_value := number_value (discount_value self);
           Invoice.discount_amount := discount_amount self;
           Invoice.tax_amount := tax_amount self;
           Invoice.total_amount := total_amount self;
           Invoice.amount_paid := 0;
           Invoice.amount_due := 0;
           Invoice.currency := currency self;
           Invoice.payment_terms := terms_conditions self;
           Invoice.notes := notes self;
           Invoice.billing_address := billing_address self;
           Invoice.billing_city := billing_city self;
           Invoice.billing_state := billing_state self;
           Invoice.billing_country := billing_country self;
           Invoice.billing_postal_code := billing_postal_code self;
           Invoice.created_by := created_by self;
           Invoice.created_at := now |}
        (invoices d)
    with
    | Raise e => (Raise e, d)
    | Ok (invoice, invoices1) =>
      let invoice_items1 :=
        fold_left (copy_item invoice) (items self (quotation_items d)) (invoice_items d) in
      match
        Invoice.calculate_totals_holding (discount_value self) today invoice invoice_items1
      with
      | Raise e =>
        (Raise e,
         {| quotation_items := quotation_items d;
            invoices := invoices1;
            invoice_items := invoice_items1 |})
      | Ok invoice2 =>
        let '(invoice3, invoices2) := Invoice.save now invoice2 invoices1 in
        (Ok invoice3,
         {| quotation_items := quotation_items d;
            invoices := invoices2;
            invoice_items := invoice_items1 |})
      end
    end.

(** [is_expired], and [save].  A stored quotation is its row and the
    [created_at] stamp that [auto_now_add] gave it. *)
Definition is_expired (today : date) (self : t) : bool :=
  (valid_until self <? today)%Z && negb (str_in (status self) ["accepted"; "rejected"]).

Definition set_number_status (number st : string) (self : t) : t :=
  {| id := id self; quote_number := number; customer := customer self;
     deal := deal self; valid_until := valid_until self; status := st;
     subtotal := subtotal self; discount_type := discount_type self;
     discount_value := discount_value self; discount_amount := discount_amount self;
     tax_amount := tax_amount self; total_amount := total_amount self;
     currency := currency self; terms_conditions := terms_conditions self;
     notes := notes self; billing_address := billing_address self;
     billing_city := billing_city self; billing_state := billing_state self;
     billing_country := billing_country self;
     billing_postal_code := billing_postal_code self;
     created_by := created_by self |}.

Record stored := {
  row : t;
  created_at : datetime
}.

(** The number [save] generates when [quote_number] is empty. *)
Definition next_quote_number (quotations : list stored) : string :=
  let prefix := "QT" in
  let last_quote :=
    latest created_at
      (List.filter (fun q => startswith (quote_number (row q)) prefix) quotations) in
  let new_num :=
    match last_quote with
    | Some last_quote =>
      match py_int (List.last (split "-" (quote_number (row last_quote))) "") with
      | Some last_num => (last_num + 1)%Z
      | None => 1001%Z
      end
    | None => 1001%Z
    end in
  prefix ++ "-" ++ fmt_0d 6 new_num.

(** [save]: the inherited save updates the row of this [id], which keeps
    its stamp, or inserts it with the stamp [now]. *)
Definition save (now : datetime) (today : date) (self : t) (quotations : list stored)
  : t * list stored :=
  let self1 :=
    if negb (str_truthy (quote_number self))
    then set_number_status (next_quote_number quotations) (status self) self
    else self in
  let self2 :=
    if is_expired today self1
       && negb (str_in (status self1) ["accepted"; "rejected"; "expired"])
    then set_number_status (quote_number self1) "expired" self1
    else self1 in
  let stamp :=
    match List.find (fun q => N.eqb (id (row q)) (id self2)) quotations with
    | Some q => created_at q
    | None => now
    end in
  (self2,
   upsert N.eqb (fun q => id (row q)) {| row := self2; created_at := stamp |} quotations).
End Quotation.

(* ------------------------------------------------------------------ *)
(** ** billing/models/payment.py *)

Module Payment.
Record t := {
  id : option UUID;
  payment_number : string;
  invoice : Invoice.t;                    (* the related instance *)
  amount : PyDecimal;
  payment_date : date;
  payment_method : string;
  transaction_id : string;
  notes : string;
  created_by : option Z
}.

Definition pk (self : t) : option UUID := id self.

Definition update (k : option UUID) (number : string) (inv : Invoice.t) (self : t) : t :=
  {| id := k; payment_number := number; invoice := inv; amount := amount self;
     payment_date := payment_date self; payment_method := payment_method self;
     transaction_id := transaction_id self; notes := notes self;
     created_by := created_by self |}.

(** What the surroundings supply to one call of [save]. *)
Record env := {
  now : datetime;
  today : date;
  today_stamp : string;        (* [timezone.now().strftime('%Y%m%d')] *)
  hex6 : string;               (* [uuid.uuid4().hex[:6].upper()] *)
  uuid4 : UUID                 (* the next [uuid.uuid4()] for a key *)
}.

(** [Payment(invoice=..., amount=..., ...)]: a column the caller does not
    pass takes its declared default, and [id] is declared
    [UUIDField(primary_key=True, default=uuid.uuid4)], so the instance
    holds a key from the moment it is built. *)
Definition init (e : env) (inv : Invoice.t) (amt : PyDecimal) (on : date)
    (method : string) : t :=
  {| id := Some (uuid4 e); payment_number := ""; invoice := inv; amount := amt;
     payment_date := on; payment_method := method; transaction_id := "";
     notes := ""; created_by := None |}.

(** The same call with an explicit [id=None]. *)
Definition init_without_id (inv : Invoice.t) (amt : PyDecimal) (on : date)
    (method : string) : t :=
  {| id := None; payment_number := ""; invoice := inv; amount := amt;
     payment_date := on; payment_method := method; transaction_id := "";
     notes := ""; created_by := None |}.

Record db := {
  payments : list t;
  invoices : list Invoice.t;
  invoice_items : list InvoiceItem.t
}.

Definition same_pk (a b : option UUID) : bool :=
  match a, b with
  | Some x, Some y => N.eqb x y
  | _, _ => false
  end.

(** [bool(self.pk)]: a [UUID] object is always true, [None] is false. *)
Definition pk_truthy (k : option UUID) : bool :=
  opt_truthy (fun _ => true) k.

(** The inherited [save]: a missing key is drawn from the column default,
    then the row of that key is updated or inserted. *)
Definition super_save (e : env) (self : t) (rows : list t) : t * list t :=
  let self1 :=
    match id self with
    | Some _ => self
    | None => update (Some (uuid4 e)) (payment_number self) (invoice self) self
    end in
  (self1, upsert same_pk id self1 rows).

Definition save (e : env) (self : t) (d : db) : t * db :=
  let self1 :=
    if negb (str_truthy (payment_number self))
    then update (id self) ("PAY-" ++ today_stamp e ++ "-" ++ hex6 e) (invoice self) self
    else self in
  let is_new := negb (pk_truthy (pk self1)) in
  let '(self2, payments1) := super_save e self1 (payments d) in
  if is_new then
    let invoice1 :=
      Invoice.set_amount_paid
        (Invoice.amount_paid (invoice self2) + amount self2) (invoice self2) in
    let invoice2 := Invoice.calculate_totals (today e) invoice1 (invoice_items d) in
    let '(invoice3, invoices1) := Invoice.save (now e) invoice2 (invoices d) in
    (update (id self2) (payment_number self2) invoice3 self2,
     {| payments := payments1; invoices := invoices1;
        invoice_items := invoice_items d |})
  else
    (self2,
     {| payments := payments1; invoices := invoices d;
        invoice_items := invoice_items d |}).

(** [Payment.objects.create(...)]: build, then save. *)
Definition create (e : env) (inv : Invoice.t) (amt : PyDecimal) (on : date)
    (method : string) (d : db) : t * db :=
  save e (init e inv amt on method) d.
End Payment.

(* ------------------------------------------------------------------ *)
(** ** integrations/models.py

    [generate_signature] calls [str.encode], [hmac.new] and
    [hashlib.sha256] of the Python library; they are embedded from their
    standards (UTF-8, RFC 2104, FIPS 180-4). *)

(** A Python [str] is a sequence of code points, [bytes] a sequence of
    octets. *)
Definition pystr := list Z.
Definition bytes := list Z.

Definition str_lit (s : string) : pystr :=
  map (fun a => Z.of_nat (nat_of_ascii a)) (list_ascii_of_string s).

Module utf8.
(** [None] stands for [UnicodeEncodeError] (a lone surrogate). *)
Definition encode_point (c : Z) : option bytes :=
  if (c <? 0x80)%Z then Some [c]
  else if (c <? 0x800)%Z then
    Some [Z.lor 0xC0 (Z.shiftr c 6); Z.lor 0x80 (Z.land c 0x3F)]
  else if (c <? 0x10000)%Z then
    if (0xD800 <=? c)%Z && (c <=? 0xDFFF)%Z then None
    else Some [Z.lor 0xE0 (Z.shiftr c 12);
               Z.lor 0x80 (Z.land (Z.shiftr c 6) 0x3F);
               Z.lor 0x80 (Z.land c 0x3F)]
  else
    Some [Z.lor 0xF0 (Z.shiftr c 18);
          Z.lor 0x80 (Z.land (Z.shiftr c 12) 0x3F);
          Z.lor 0x80 (Z.land (Z.shiftr c 6) 0x3F);
          Z.lor 0x80 (Z.land c 0x3F)].

Fixpoint encode (s : pystr) : option bytes :=
  match s with
  | [] => Some []
  | c :: rest =>
    match encode_point c, encode rest with
    | Some b, Some bs => Some (b ++ bs)%list
    | _, _ => None
    end
  end.
End utf8.

Module sha256.
Local Open Scope Z_scope.

Definition mask32 : Z := 0xFFFFFFFF.
Definition add32 (x y : Z) : Z := Z.land (x + y) mask32.
Definition rotr (n x : Z) : Z :=
  Z.lor (Z.shiftr x n) (Z.land (Z.shiftl x (32 - n)) mask32).
Definition not32 (x : Z) : Z := Z.lxor x mask32.

Definition Ch (x y z : Z) : Z := Z.lxor (Z.land x y) (Z.land (not32 x) z).
Definition Maj (x y z : Z) : Z :=
  Z.lxor (Z.lxor (Z.land x y) (Z.land x z)) (Z.land y z).
Definition bsig0 (x : Z) : Z := Z.lxor (Z.lxor (rotr 2 x) (rotr 13 x)) (rotr 22 x).
Definition bsig1 (x : Z) : Z := Z.lxor (Z.lxor (rotr 6 x) (rotr 11 x)) (rotr 25 x).
Definition ssig0 (x : Z) : Z := Z.lxor (Z.lxor (rotr 7 x) (rotr 18 x)) (Z.shiftr x 3).
Definition ssig1 (x : Z) : Z := Z.lxor (Z.lxor (rotr 17 x) (rotr 19 x)) (Z.shiftr x 10).

(** FIPS 180-4, 4.2.2 and 5.3.3: the round constants are the first 32
    bits of the fractional parts of the cube roots of the first 64 primes,
    the initial hash value those of the square roots of the first 8. *)
Definition is_prime (n : nat) : bool :=
  forallb (fun d => negb (n mod d =? 0)%nat) (seq 2 (n - 2)).

Definition primes : list Z :=
  map Z.of_nat (List.filter is_prime (seq 2 310)).

(** The integer cube root, one bit at a time from bit [bits - 1] down. *)
Fixpoint cube_root (bits : nat) (n r : Z) : Z :=
  match bits with
  | O => r
  | S bits =>
    let r' := r + Z.shiftl 1 (Z.of_nat bits) in
    cube_root bits n (if r' * r' * r' <=? n then r' else r)
  end.

Definition round_constants : list Z :=
  Eval vm_compute in
    map (fun p => Z.land (cube_root 36 (Z.shiftl p 96) 0) mask32) (firstn 64 primes).

Definition initial_hash : list Z :=
  Eval vm_compute in
    map (fun p => Z.land (Z.sqrt (Z.shiftl p 64)) mask32) (firstn 8 primes).

(** Big-endian octets of a number, [n] of them. *)
Fixpoint be_bytes (n : nat) (x : Z) : bytes :=
  match n with
  | O => []
  | S n => (be_bytes n (Z.shiftr x 8) ++ [Z.land x 0xFF])%list
  end.

Definition be_word (b : bytes) : Z :=
  fold_left (fun acc o => Z.lor (Z.shiftl acc 8) o) b 0.

(** Padding: a one bit, zeros up to 56 modulo 64 octets, the bit length. *)
Definition pad (msg : bytes) : bytes :=
  let len := Z.of_nat (length msg) in
  let k := Z.to_nat ((55 - len) mod 64) in
  (msg ++ [0x80] ++ repeat 0 k ++ be_bytes 8 (8 * len))%list.

Fixpoint chunks (fuel size : nat) (b : bytes) : list bytes :=
  match fuel with
  | O => []
  | S fuel =>
    match b with
    | [] => []
    | _ => firstn size b :: chunks fuel size (skipn size b)
    end
  end.

Definition words_of_block (block : bytes) : list Z :=
  map be_word (chunks 16 4 block).

(** The message schedule, kept newest word first. *)
Fixpoint extend (n : nat) (rev_w : list Z) : list Z :=
  match n with
  | O => rev_w
  | S n =>
    let w := add32 (add32 (ssig1 (nth 1 rev_w 0)) (nth 6 rev_w 0))
                   (add32 (ssig0 (nth 14 rev_w 0)) (nth 15 rev_w 0)) in
    extend n (w :: rev_w)
  end.

Definition schedule (block : bytes) : list Z :=
  rev (extend 48 (rev (words_of_block block))).

Definition round (s : list Z) (kw : Z * Z) : list Z :=
  match s with
  | [a; b; c; d; e; f; g; h] =>
    let t1 := add32 (add32 (add32 h (bsig1 e)) (add32 (Ch e f g) (fst kw))) (snd kw) in
    let t2 := add32 (bsig0 a) (Maj a b c) in
    [add32 t1 t2; a; b; c; add32 d t1; e; f; g]
  | _ => s
  end.

Definition zip_with {A B C} (f : A -> B -> C) : list A -> list B -> list C :=
  fix go l1 l2 :=
    match l1, l2 with
    | x :: l1, y :: l2 => f x y :: go l1 l2
    | _, _ => []
    end.

Definition compress (h : list Z) (block : bytes) : list Z :=
  zip_with add32 h
    (fold_left round (zip_with pair round_constants (schedule block)) h).

(** [hashlib.sha256(msg).digest()]. *)
Definition digest (msg : bytes) : bytes :=
  let padded := pad msg in
  let blocks := chunks (length padded) 64 padded in
  flat_map (be_bytes 4) (fold_left compress blocks initial_hash).

Definition block_size : nat := 64.
End sha256.

Definition hex_digit (n : Z) : ascii :=
  ascii_of_nat (Z.to_nat (if (n <? 10)%Z then 48 + n else 87 + n)%Z).

(** [bytes.hex()]: two lower-case digits per octet. *)
Fixpoint hex (b : bytes) : string :=
  match b with
  | [] => EmptyString
  | o :: rest =>
    String (hex_digit (Z.shiftr o 4)) (String (hex_digit (Z.land o 0xF)) (hex rest))
  end.

Module hmac.
(** The object [hmac.new(key, msg, hashlib.sha256)] builds: what has been
    fed to its inner and to its outer hash. *)
Record t := {
  inner : bytes;
  outer : bytes
}.

(** [bytes.translate] with the tables [trans_36] and [trans_5C]. *)
Definition translate (x : Z) (b : bytes) : bytes := map (Z.lxor x) b.

(** [key.ljust(n, b'\0')]. *)
Definition ljust (n : nat) (b : bytes) : bytes :=
  (b ++ repeat 0%Z (n - length b))%list.

Definition new (key msg : bytes) : t :=
  let key1 :=
    if (sha256.block_size <? length key)%nat then sha256.digest key else key in
  let key2 := ljust sha256.block_size key1 in
  {| inner := (translate 0x36 key2 ++ msg)%list;
     outer := translate 0x5C key2 |}.

Definition digest (h : t) : bytes :=
  sha256.digest (outer h ++ sha256.digest (inner h))%list.

Definition hexdigest (h : t) : string := hex (digest h).
End hmac.

(** The reference, in the words of RFC 2104:
    H(K xor opad, H(K xor ipad, text)), with K the key brought to the
    block size B = 64 (hashed first when longer, then zero-filled),
    ipad = the octet 0x36 and opad = the octet 0x5C repeated B times. *)
Definition HMAC_SHA256 (K text : bytes) : bytes :=
  let B := 64%nat in
  let K0 := if (B <? length K)%nat then sha256.digest K else K in
  let K0 := (K0 ++ repeat 0%Z (B - length K0))%list in
  let ipad := repeat 0x36%Z B in
  let opad := repeat 0x5C%Z B in
  let xor := sha256.zip_with Z.lxor in
  sha256.digest (xor K0 opad ++ sha256.digest (xor K0 ipad ++ text))%list.

Module WebhookEndpoint.
Record t := {
  name : string;
  url : string;
  events : list string;
  secret_key : pystr;
  is_active : bool;
  max_retries : Z;
  retry_delay : Z
}.

(** [None] stands for the [UnicodeEncodeError] of [str.encode]. *)
Definition generate_signature (self : t) (payload : pystr) : option string :=
  key ← utf8.encode (secret_key self);
  msg ← utf8.encode payload;
  Some (hmac.hexdigest (hmac.new key msg)).
End WebhookEndpoint.

(* ================================================================== *)
(** * Further code of the same files *)

(** ** ambivare_erp/middleware/security.py: the admin allow-list *)

Module IPWhitelistMiddleware.

(** settings.py: [ADMIN_IP_WHITELIST = config(...).split(',')], as a
    function of the configured string. *)
Definition ADMIN_IP_WHITELIST (configured : string) : list string :=
  split "," configured.

(** What [__init__] reads from the settings. *)
Record t := {
  whitelist : list string;
  whitelist_enabled : bool
}.

(** The "Get client IP" block; [None] is Python's [None]. *)
Definition client_ip (request : HttpRequest) : option string :=
  let x_forwarded_for := HTTP_X_FORWARDED_FOR (META request) in
  if opt_truthy str_truthy x_forwarded_for
  then option_map (RateLimitMiddleware.split_head ",") x_forwarded_for
  else REMOTE_ADDR (META request).

(** [ip in self.whitelist]; [None] is in no list of strings. *)
Definition ip_in (ip : option string) (l : list string) : bool :=
  match ip with
  | Some s => str_in s l
  | None => false
  end.

Definition list_truthy {A} (l : list A) : bool :=
  match l with
  | [] => false
  | _ :: _ => true
  end.

Definition process_request (self : t) (request : HttpRequest) : option HttpResponse :=
  if negb (startswith (path request) "/admin/") then None
  else if negb (whitelist_enabled self) || negb (list_truthy (whitelist self)) then None
  else if negb (ip_in (client_ip request) (whitelist self))
  then Some (HttpResponseForbidden "Access denied. Your IP address is not authorized.")
  else None.
End IPWhitelistMiddleware.

(** ** tenants/models.py: writing a tenant *)

(** The columns of a tenant that the modelled code assigns. *)
Definition Tenant_assign
    (schema status : string) (trial_end : option datetime)
    (users leads : Z) (storage : PyDecimal) (self : Tenant.t) : Tenant.t :=
  {| Tenant.schema_name := schema; Tenant.name := Tenant.name self;
     Tenant.subscription_status := status;
     Tenant.subscription_plan := Tenant.subscription_plan self;
     Tenant.trial_end_date := trial_end;
     Tenant.max_users := Tenant.max_users self;
     Tenant.max_leads := Tenant.max_leads self;
     Tenant.max_storage_mb := Tenant.max_storage_mb self;
     Tenant.current_users := users; Tenant.current_leads := leads;
     Tenant.current_storage_mb := storage;
     Tenant.enabled_features := Tenant.enabled_features self |}.

Module TenantInstance.
(** A tenant instance: its key (an [AutoField], [None] until inserted),
    its slug, and the columns of [Tenant.t]. *)
Record t := {
  pk : option Z;
  slug : string;
  row : Tenant.t
}.

(** [s.replace(a, b)] for one-character [a] and [b]. *)
Fixpoint replace (a b : ascii) (s : string) : string :=
  match s with
  | EmptyString => EmptyString
  | String c rest => String (if Ascii.eqb c a then b else c) (replace a b rest)
  end.

(** [bool(self.pk)] of an integer key. *)
Definition pk_truthy (k : option Z) : bool :=
  opt_truthy (fun z => negb (z =? 0)%Z) k.

(** [timezone.timedelta(days=n)] in seconds. *)
Definition days (n : Z) : Q := inject_Z (n * 86400).

(** [save]; [TRIAL_DAYS] is the setting (14 in settings.py), [next_pk] the
    key the database gives to an inserted row. *)
Definition save (TRIAL_DAYS : Z) (now : datetime) (next_pk : Z) (self : t) : t :=
  let r := row self in
  let r1 :=
    if negb (str_truthy (Tenant.schema_name r))
    then Tenant_assign (replace "-" "_" (slug self)) (Tenant.subscription_status r)
           (Tenant.trial_end_date r) (Tenant.current_users r)
           (Tenant.current_leads r) (Tenant.current_storage_mb r) r
    else r in
  let r2 :=
    if negb (pk_truthy (pk self))
       && negb (opt_truthy (fun _ => true) (Tenant.trial_end_date r1))
    then Tenant_assign (Tenant.schema_name r1) (Tenant.subscription_status r1)
           (Some (now + days TRIAL_DAYS)) (Tenant.current_users r1)
           (Tenant.current_leads r1) (Tenant.current_storage_mb r1) r1
    else r1 in
  {| pk := match pk self with Some k => Some k | None => Some next_pk end;
     slug := slug self; row := r2 |}.
End TenantInstance.

(** ** ambivare_erp/middleware/subscription.py: usage tracking *)

Module UsageTrackingMiddleware.

(** [process_response]: the response is returned as it came; what the
    call leaves behind is the request's tenant ([None]: the request has
    none).  [users] and [leads] are [User.objects.count()] and
    [Lead.objects.count()] at the time of the call. *)
Definition process_response
    (public_schema : string) (users leads : Z)
    (request : HttpRequest) (status_code : Z) : option Tenant.t :=
  match tenant request with
  | None => None
  | Some t =>
    if String.eqb (Tenant.schema_name t) public_schema then Some t
    else if String.eqb (method request) "POST"
            && ((status_code =? 200)%Z || (status_code =? 201)%Z)
    then
      if startswith (path request) "/accounts/users/"
         || startswith (path request) "/api/users/"
      then Some (Tenant_assign (Tenant.schema_name t) (Tenant.subscription_status t)
                   (Tenant.trial_end_date t) users (Tenant.current_leads t)
                   (Tenant.current_storage_mb t) t)
      else if startswith (path request) "/sales/leads/"
              || startswith (path request) "/api/leads/"
      then Some (Tenant_assign (Tenant.schema_name t) (Tenant.subscription_status t)
                   (Tenant.trial_end_date t) (Tenant.current_users t) leads
                   (Tenant.current_storage_mb t) t)
      else if dict_has (FILES request) "file" || dict_has (FILES request) "attachment"
      then
        let file_size_mb :=
          inject_Z (fold_left Z.add (map snd (FILES request)) 0%Z)
          / inject_Z (1024 * 1024) in
        Some (Tenant_assign (Tenant.schema_name t) (Tenant.subscription_status t)
                (Tenant.trial_end_date t) (Tenant.current_users t)
                (Tenant.current_leads t)
                (Tenant.current_storage_mb t + file_size_mb) t)
      else Some t
    else Some t
  end.
End UsageTrackingMiddleware.

(** ** billing/models/subscription.py *)

Module Subscription.
Record t := {
  id : UUID;
  tenant : TenantInstance.t;              (* the related instance *)
  plan_name : string;
  billing_cycle : string;
  status : string;
  current_period_start : datetime;
  current_period_end : datetime;
  cancelled_at : option datetime
}.

Definition is_active (now : datetime) (self : t) : bool :=
  str_in (status self) ["trial"; "active"] && Qlt_bool now (current_period_end self).

(** [timedelta.days] of a difference of seconds: whole days, rounded
    down. *)
Definition timedelta_days (seconds : Q) : Z := Qfloor (seconds / 86400).

Definition days_until_renewal (now : datetime) (self : t) : Z :=
  if is_active now self then timedelta_days (current_period_end self - now) else 0%Z.

(** [cancel]: [self.save()] writes the instance as it stands, then the
    tenant's status is set and the tenant saved by [Tenant.save]; [now] is
    the clock at the first line, [later], [TRIAL_DAYS] and [next_pk] are
    what [Tenant.save] reads. *)
Definition cancel (TRIAL_DAYS : Z) (now later : datetime) (next_pk : Z) (self : t) : t :=
  let tn := tenant self in
  let r := TenantInstance.row tn in
  let cancelled :=
    {| TenantInstance.pk := TenantInstance.pk tn;
       TenantInstance.slug := TenantInstance.slug tn;
       TenantInstance.row :=
         Tenant_assign (Tenant.schema_name r) "cancelled" (Tenant.trial_end_date r)
           (Tenant.current_users r) (Tenant.current_leads r)
           (Tenant.current_storage_mb r) r |} in
  {| id := id self;
     tenant := TenantInstance.save TRIAL_DAYS later next_pk cancelled;
     plan_name := plan_name self; billing_cycle := billing_cycle self;
     status := "cancelled";
     current_period_start := current_period_start self;
     current_period_end := current_period_end self;
     cancelled_at := Some now |}.
End Subscription.

(** ** accounts/api/permissions.py and sales/api/permissions.py

    [request.user] is [None] for the anonymous user, whose
    [is_authenticated] is false. *)

Definition is_authenticated (request : HttpRequest) : bool :=
  match user request with
  | Some _ => true
  | None => false
  end.

(** [request.user.is_authenticated and p(request.user)]. *)
Definition authenticated_and (p : User.t -> bool) (request : HttpRequest) : bool :=
  match user request with
  | Some u => p u
  | None => false
  end.

Module IsTenantAdmin.
Definition has_permission (request : HttpRequest) : bool :=
  authenticated_and User.is_tenant_admin request.
End IsTenantAdmin.

Module IsManager.
Definition has_permission (request : HttpRequest) : bool :=
  authenticated_and User.is_manager request.
End IsManager.

Module CanManageUsers.
Definition has_permission (request : HttpRequest) : bool :=
  authenticated_and User.can_manage_users request.
End CanManageUsers.

Module CanExportData.
Definition has_permission (request : HttpRequest) : bool :=
  authenticated_and User.can_export_data request.
End CanExportData.

Module CanAssignLeads.
Definition has_permission (request : HttpRequest) : bool :=
  authenticated_and
    (fun u => str_in (User.role u) ["super_admin"; "admin"; "manager"]) request.
End CanAssignLeads.

(** rest_framework.permissions.SAFE_METHODS *)
Definition SAFE_METHODS : list string := ["GET"; "HEAD"; "OPTIONS"].

Module CanManageDeals.
Definition has_permission (request : HttpRequest) : bool :=
  if str_in (method request) SAFE_METHODS then is_authenticated request
  else authenticated_and
         (fun u => str_in (User.role u) ["super_admin"; "admin"; "manager"; "executive"])
         request.
End CanManageDeals.

(** ** products/models.py: price lists and bundles *)

Module PriceList.
Record t := {
  name : string;
  valid_from : datetime;
  valid_to : option datetime;             (* null=True *)
  is_active : bool;
  priority : Z
}.

(** [is_valid]; a [datetime] is always truthy, so [self.valid_to and ...]
    tests the column for [None]. *)
Definition is_valid (now : datetime) (self : t) : bool :=
  if negb (is_active self) then false
  else if Qlt_bool now (valid_from self) then false
  else if match valid_to self with
          | Some valid_to => Qlt_bool valid_to now
          | None => false
          end
  then false
  else true.
End PriceList.

Module ProductBundleItem.
Record t := {
  bundle : Z;
  product : Product.t;
  quantity : PyDecimal
}.
End ProductBundleItem.

Module ProductBundle.
Record t := {
  id : Z;
  name : string;
  bundle_price : option PyDecimal;        (* null=True *)
  discount_percentage : PyDecimal;
  is_active : bool
}.

(** [self.items.all()]. *)
Definition items (self : t) (rows : list ProductBundleItem.t) : list ProductBundleItem.t :=
  List.filter (fun i => (ProductBundleItem.bundle i =? id self)%Z) rows.

(** The part of [calculated_price] after the early return. *)
Definition price_from_products (self : t) (rows : list ProductBundleItem.t) : PyDecimal :=
  let total :=
    py_sum (map (fun item => Product.base_price (ProductBundleItem.product item)
                             * ProductBundleItem.quantity item)
                (items self rows)) in
  if Decimal_truthy (discount_percentage self)
  then total * (1 - discount_percentage self / 100)
  else total.

Definition calculated_price (self : t) (rows : list ProductBundleItem.t) : PyDecimal :=
  match bundle_price self with
  | Some bundle_price =>
    if Decimal_truthy bundle_price then bundle_price
    else price_from_products self rows
  | None => price_from_products self rows
  end.
End ProductBundle.

(** ** sales/models/deal.py *)

Module Deal.
Record t := {
  id : UUID;
  deal_number : string;
  title : string;
  stage : string;
  amount : PyDecimal;
  probability : Z;
  created_at : datetime;
  closed_date : option datetime           (* null=True *)
}.

Definition update (number : string) (created : datetime) (closed : option datetime)
    (self : t) : t :=
  {| id := id self; deal_number := number; title := title self; stage := stage self;
     amount := amount self; probability := probability self;
     created_at := created; closed_date := closed |}.

(** [weighted_amount]: [probability] is an [IntegerField], so
    [self.probability / 100] is a float, and the [Decimal] amount does
    not multiply with a float. *)
Definition weighted_amount (self : t) : result PyDecimal :=
  Raise (TypeError "unsupported operand type(s) for *: 'decimal.Decimal' and 'float'").

Definition days_in_pipeline (now : datetime) (self : t) : Z :=
  match closed_date self with
  | Some closed_date => Qfloor ((closed_date - created_at self) / 86400)
  | None => Qfloor ((now - created_at self) / 86400)
  end.

(** The number a save generates when [deal_number] is empty. *)
Definition next_deal_number (deals : list t) : string :=
  match latest created_at deals with
  | Some last_deal =>
    if str_truthy (deal_number last_deal) then
      match nth_error (split "-" (deal_number last_deal)) 1 with
      | Some part =>
        match py_int part with
        | Some last_num => "DEAL-" ++ fmt_0d 5 (last_num + 1)
        | None => "DEAL-00001"                       (* ValueError *)
        end
      | None => "DEAL-00001"                         (* IndexError *)
      end
    else "DEAL-00001"
  | None => "DEAL-00001"
  end.

(** [save]: the inherited save updates the row of this [id] or inserts
    it, and then [auto_now_add] stamps [created_at]. *)
Definition save (now : datetime) (self : t) (deals : list t) : t * list t :=
  let self1 :=
    if negb (str_truthy (deal_number self))
    then update (next_deal_number deals) (created_at self) (closed_date self) self
    else self in
  let self2 :=
    if str_in (stage self1) ["closed_won"; "closed_lost"]
       && negb (opt_truthy (fun _ => true) (closed_date self1))
    then update (deal_number self1) (created_at self1) (Some now) self1
    else self1 in
  let self3 :=
    if has_pk N.eqb id (id self2) deals then self2
    else update (deal_number self2) now (closed_date self2) self2 in
  (self3, upsert N.eqb id self3 deals).
End Deal.

Module DealProduct.
Record t := {
  deal : UUID;
  product : Product.t;
  quantity : PyDecimal;
  unit_price : PyDecimal;
  discount_percentage : PyDecimal;
  tax_percentage : PyDecimal
}.

Definition subtotal (self : t) : PyDecimal := quantity self * unit_price self.

Definition discount_amount (self : t) : PyDecimal :=
  subtotal self * (discount_percentage self / 100).

Definition taxable_amount (self : t) : PyDecimal := subtotal self - discount_amount self.

Definition tax_amount (self : t) : PyDecimal :=
  taxable_amount self * (tax_percentage self / 100).

Definition total (self : t) : PyDecimal := taxable_amount self + tax_amount self.
End DealProduct.

(** ** ambivare_erp/middleware/tenant.py: the tenant context *)

Module TenantContextMiddleware.
(** The dict stored as [request.tenant_context], without its 'tenant'
    entry, which is the request's tenant itself. *)
Record tenant_context := {
  is_trial : bool;
  subscription_plan : string;
  features : gmap string json
}.

(** [process_request]: what it stores on the request ([None]: nothing).
    [hasattr(tenant, 'is_on_trial')] reads the property, and lets through
    every error but [AttributeError]; the property is then read again for
    the value.  A tenant always has the attribute [enabled_features]. *)
Definition process_request (now : datetime) (request : HttpRequest)
  : result (option tenant_context) :=
  match tenant request with
  | Some t =>
    _ ← Tenant.is_on_trial now t;
    is_trial ← Tenant.is_on_trial now t;
    Ok (Some {| is_trial := is_trial;
                subscription_plan := Tenant.subscription_plan t;
                features := Tenant.enabled_features t |})
  | None => Ok None
  end.
End TenantContextMiddleware.

(** ** accounts/models.py: the tokens *)

(** The columns of [PasswordResetToken] and of [EmailVerificationToken]
    that their methods read or write; [expires_at] is [None] on an
    instance built without it. *)
Record token := {
  token_user : Z;
  token_value : string;
  is_used : bool;
  expires_at : option datetime
}.

(** [timezone.now() > self.expires_at]. *)
Definition token_is_expired (now : datetime) (self : token) : result bool :=
  match expires_at self with
  | Some expires_at => Ok (Qlt_bool expires_at now)
  | None => Raise (TypeError
      "'>' not supported between instances of 'datetime.datetime' and 'NoneType'")
  end.

(** [save] with the lifetime [life] in seconds; [uuid4] is
    [str(uuid.uuid4())]. *)
Definition token_save (life : Q) (uuid4 : string) (now : datetime) (self : token) : token :=
  {| token_user := token_user self;
     token_value := if negb (str_truthy (token_value self)) then uuid4
                    else token_value self;
     is_used := is_used self;
     expires_at := match expires_at self with
                   | Some e => Some e
                   | None => Some (now + life)
                   end |}.

Module PasswordResetToken.
Definition is_expired := token_is_expired.
(** [timezone.timedelta(hours=24)] *)
Definition save := token_save (24 * 3600).
End PasswordResetToken.

Module EmailVerificationToken.
Definition is_expired := token_is_expired.
(** [timezone.timedelta(days=7)] *)
Definition save := token_save (7 * 86400).
End EmailVerificationToken.

(* ================================================================== *)
(** * Vocabulary of the statements and example data *)

(** ** Price list items *)

(** The same item with no fixed price at all. *)
Definition without_fixed_price (item : PriceListItem.t) : PriceListItem.t :=
  {| PriceListItem.product := PriceListItem.product item;
     PriceListItem.fixed_price := None;
     PriceListItem.discount_percentage := PriceListItem.discount_percentage item;
     PriceListItem.min_quantity := PriceListItem.min_quantity item |}.

(** A product and a price-list item whose fixed price is 0. *)
Definition widget : Product.t :=
  {| Product.sku := "W-1"; Product.name := "Widget";
     Product.base_price := 200; Product.tax_rate := 18 |}.

Definition widget_free_override : PriceListItem.t :=
  {| PriceListItem.product := widget;
     PriceListItem.fixed_price := Some 0;
     PriceListItem.discount_percentage := Some 25;
     PriceListItem.min_quantity := 3 |}.

(** ** Role permissions *)

(** Two permission dictionaries grant the same actions on every object. *)
Definition same_permissions (p q : User.perms) : Prop :=
  forall object action, User.allows p object action = User.allows q object action.

(** The manager row of the specification's role table, spelled out:
    invoices "CRD+send". *)
Definition spec_manager_permissions : User.perms :=
  [ ("users", ["read"]);
    ("leads", ["create"; "read"; "update"; "delete"; "assign"]);
    ("customers", ["create"; "read"; "update"; "delete"]);
    ("deals", ["create"; "read"; "update"; "delete"]);
    ("products", ["read"]);
    ("invoices", ["create"; "read"; "delete"; "send"]);
    ("reports", ["view"; "export"]);
    ("settings", ["view"]) ].

Definition a_manager : User.t :=
  {| User.id := 7; User.email := "m@example.com"; User.role := "manager";
     User.is_active := true; User.is_superuser := false |}.

(** ** Tenants and plan limits *)

(** A tenant as the model builds it before any save: every column at its
    declared default, [trial_end_date] still null. *)
Definition unsaved_tenant : Tenant.t :=
  {| Tenant.schema_name := "acme"; Tenant.name := "Acme";
     Tenant.subscription_status := "trial";
     Tenant.subscription_plan := "starter";
     Tenant.trial_end_date := None;
     Tenant.max_users := 5; Tenant.max_leads := 500;
     Tenant.max_storage_mb := 5120;
     Tenant.current_users := 0; Tenant.current_leads := 0;
     Tenant.current_storage_mb := 0;
     Tenant.enabled_features := ∅ |}.

(** The two path prefixes the user-limit check looks for. *)
Definition is_checked_user_path (p : string) : bool :=
  startswith p "/accounts/users/create/" || startswith p "/api/users/".

(** The paths on which a user is created: ambivare_erp/urls.py includes
    accounts/urls.py at the root, whose [users/create/] is the form, and
    accounts/api_urls.py under [api/auth/], whose router serves [users/]. *)
Definition user_creation_routes : list string :=
  [ "/users/create/"; "/api/auth/users/" ].

(** A tenant at its user limit, and a POST it receives. *)
Definition full_tenant : Tenant.t :=
  {| Tenant.schema_name := "acme"; Tenant.name := "Acme";
     Tenant.subscription_status := "active";
     Tenant.subscription_plan := "starter";
     Tenant.trial_end_date := None;
     Tenant.max_users := 5; Tenant.max_leads := 500;
     Tenant.max_storage_mb := 5120;
     Tenant.current_users := 5; Tenant.current_leads := 0;
     Tenant.current_storage_mb := 0;
     Tenant.enabled_features := ∅ |}.

Definition post_to (p : string) : HttpRequest :=
  {| path := p; method := "POST"; user := None;
     META := {| HTTP_X_FORWARDED_FOR := None; REMOTE_ADDR := Some "10.0.0.1" |};
     FILES := []; tenant := Some full_tenant |}.

(** ** Rate limiting *)

(** An anonymous login request. *)
Definition a_login_attempt : HttpRequest :=
  {| path := "/api/auth/login/"; method := "POST"; user := None;
     META := {| HTTP_X_FORWARDED_FOR := None; REMOTE_ADDR := Some "203.0.113.9" |};
     FILES := []; tenant := None |}.

(** ** Webhook signatures *)

(** Two endpoints that share a secret and nothing else. *)
Definition an_endpoint : WebhookEndpoint.t :=
  {| WebhookEndpoint.name := "crm-sync";
     WebhookEndpoint.url := "https://example.com/hook";
     WebhookEndpoint.events := ["lead.created"];
     WebhookEndpoint.secret_key := str_lit "whsec_test";
     WebhookEndpoint.is_active := true;
     WebhookEndpoint.max_retries := 3;
     WebhookEndpoint.retry_delay := 60 |}.

(** The example: two payloads that differ in their last digit. *)
Definition payload_1 : pystr := str_lit "{'event': 'lead.created', 'id': 1}".
Definition payload_2 : pystr := str_lit "{'event': 'lead.created', 'id': 2}".

Definition a_second_endpoint : WebhookEndpoint.t :=
  {| WebhookEndpoint.name := "billing-sync";
     WebhookEndpoint.url := "https://example.org/in";
     WebhookEndpoint.events := ["invoice.paid"];
     WebhookEndpoint.secret_key := str_lit "whsec_test";
     WebhookEndpoint.is_active := false;
     WebhookEndpoint.max_retries := 5;
     WebhookEndpoint.retry_delay := 30 |}.

(** ** Invoices and payments *)

(** A line as the caller builds it, before its first save. *)
Definition new_line (inv : UUID) (text : string) (qty price disc tax : Q)
  : InvoiceItem.t :=
  {| InvoiceItem.id := None; InvoiceItem.invoice := inv;
     InvoiceItem.product := None; InvoiceItem.description := text;
     InvoiceItem.quantity := qty; InvoiceItem.unit_price := price;
     InvoiceItem.discount_percentage := disc; InvoiceItem.discount_amount := 0;
     InvoiceItem.tax_rate := tax; InvoiceItem.tax_amount := 0;
     InvoiceItem.total := 0; InvoiceItem.order := 0 |}.

(** Every column of the line fits its width. *)
Definition line_fits (i : InvoiceItem.t) : Prop :=
  fits 10 (InvoiceItem.quantity i) /\ fits 12 (InvoiceItem.unit_price i)
  /\ fits 5 (InvoiceItem.discount_percentage i)
  /\ fits 12 (InvoiceItem.discount_amount i)
  /\ fits 5 (InvoiceItem.tax_rate i) /\ fits 12 (InvoiceItem.tax_amount i)
  /\ fits 12 (InvoiceItem.total i).

(** The two lines of the example, saved one after the other into an empty
    table: the saved instances and the table. *)
Definition two_lines (inv : UUID) : InvoiceItem.t * InvoiceItem.t * list InvoiceItem.t :=
  let '(item1, rows1) := InvoiceItem.save (new_line inv "first" 2 100 10 18) [] in
  let '(item2, rows2) := InvoiceItem.save (new_line inv "second" 1 50 0 18) rows1 in
  (item1, item2, rows2).

Definition an_invoice : Invoice.t :=
  {| Invoice.id := 11%N; Invoice.invoice_number := "INV-001001";
     Invoice.customer := 3%N; Invoice.deal := None; Invoice.quotation := None;
     Invoice.invoice_date := 739000%Z; Invoice.due_date := 739030%Z;
     Invoice.status := "sent";
     Invoice.subtotal := 0; Invoice.discount_type := "percentage";
     Invoice.discount_value := 0; Invoice.discount_amount := 0;
     Invoice.tax_amount := 0; Invoice.total_amount := 0;
     Invoice.amount_paid := 0; Invoice.amount_due := 0;
     Invoice.currency := "INR"; Invoice.payment_terms := "";
     Invoice.notes := ""; Invoice.billing_address := "1 Main Road";
     Invoice.billing_city := "Pune"; Invoice.billing_state := "MH";
     Invoice.billing_country := "India"; Invoice.billing_postal_code := "411001";
     Invoice.created_by := None; Invoice.created_at := 1000 |}.

(** The surroundings of one call of [Payment.save]. *)
Definition a_day : Payment.env :=
  {| Payment.now := 2000; Payment.today := 739001%Z;
     Payment.today_stamp := "20240415"; Payment.hex6 := "A1B2C3";
     Payment.uuid4 := 77%N |}.

(** The books before the first payment: the example invoice, totalled and
    unpaid, and its two lines. *)
Definition billed_invoice : Invoice.t :=
  Invoice.calculate_totals 739001%Z an_invoice (snd (two_lines (Invoice.id an_invoice))).

Definition books : Payment.db :=
  {| Payment.payments := [];
     Payment.invoices := [billed_invoice];
     Payment.invoice_items := snd (two_lines (Invoice.id an_invoice)) |}.

(** ** Lead conversion *)

(** A qualified lead and the database holding it. *)
Definition a_lead : Lead.t :=
  {| Lead.id := 5%N; Lead.first_name := "Asha"; Lead.last_name := "Rao";
     Lead.email := "asha@example.com"; Lead.phone := "+91-20-5550100";
     Lead.secondary_phone := ""; Lead.company_name := "Rao Traders";
     Lead.job_title := "Owner"; Lead.industry := "Retail";
     Lead.company_size := "11-50"; Lead.status := "qualified";
     Lead.source := "referral"; Lead.assigned_to := Some 7%Z;
     Lead.address := "4 Market Street"; Lead.city := "Pune";
     Lead.state := "MH"; Lead.country := "India"; Lead.postal_code := "411002";
     Lead.converted_to_customer := None; Lead.converted_date := None |}.

Definition a_pipeline : Lead.db :=
  {| Lead.customers := []; Lead.leads := [a_lead] |}.

(** ** Quotation to invoice *)

Definition line_total (q : QuotationItem.t) : Q :=
  snd (line_amounts (QuotationItem.quantity q) (QuotationItem.unit_price q)
                    (QuotationItem.discount_percentage q) (QuotationItem.tax_rate q)).

(** A value that a column of two decimal places holds. *)
Definition two_places (x : Q) : Prop := decimal_places_2 x == x.




(** [r] is what a column of two decimal places keeps of [x]: a value of
    two places, at most half a cent from [x]. *)
Definition kept_as (x r : Q) : Prop := two_places r /\ Qabs (r - x) <= 1 # 200.




(** A customer with 15 days of payment terms. *)
Definition a_customer : Customer.t :=
  {| Customer.id := 3%N; Customer.customer_code := "CUST-00001";
     Customer.customer_type := "company"; Customer.first_name := "Asha";
     Customer.last_name := "Rao"; Customer.email := "asha@example.com";
     Customer.phone := "+91-20-5550100"; Customer.secondary_phone := "";
     Customer.company_name := "Rao Traders"; Customer.job_title := "Owner";
     Customer.industry := "Retail"; Customer.billing_address := "4 Market Street";
     Customer.billing_city := "Pune"; Customer.billing_state := "MH";
     Customer.billing_country := "India"; Customer.billing_postal_code := "411002";
     Customer.assigned_to := None; Customer.payment_terms := 15;
     Customer.lead_source := "referral"; Customer.created_by := None;
     Customer.created_at := 500 |}.

(** An accepted quotation whose totals were never computed: the columns
    still hold their default 0.  [v] is what its [discount_value]
    attribute holds. *)
Definition quotation_holding (v : number) : Quotation.t :=
  {| Quotation.id := 41%N; Quotation.quote_number := "QT-001001";
     Quotation.customer := a_customer; Quotation.deal := None;
     Quotation.valid_until := 739020%Z; Quotation.status := "accepted";
     Quotation.subtotal := 0; Quotation.discount_type := "percentage";
     Quotation.discount_value := v; Quotation.discount_amount := 0;
     Quotation.tax_amount := 0; Quotation.total_amount := 0;
     Quotation.currency := "INR"; Quotation.terms_conditions := "Net 15";
     Quotation.notes := ""; Quotation.billing_address := "4 Market Street";
     Quotation.billing_city := "Pune"; Quotation.billing_state := "MH";
     Quotation.billing_country := "India";
     Quotation.billing_postal_code := "411002"; Quotation.created_by := None |}.

(** The quotation as read from the database, and as the caller who built
    it holds it, its [discount_value] still the int of the default. *)
Definition an_accepted_quotation : Quotation.t := quotation_holding (Decimal 0).
Definition a_built_quotation : Quotation.t := quotation_holding (Int 0).

(** Its only line, and the database after the line's save. *)
Definition a_quotation_line : QuotationItem.t :=
  {| QuotationItem.id := None; QuotationItem.quotation := 41%N;
     QuotationItem.product := None; QuotationItem.description := "Consulting";
     QuotationItem.quantity := 1; QuotationItem.unit_price := 100;
     QuotationItem.discount_percentage := 0; QuotationItem.discount_amount := 0;
     QuotationItem.tax_rate := 18; QuotationItem.tax_amount := 0;
     QuotationItem.total := 0; QuotationItem.order := 0 |}.

Definition a_quotation_db : Quotation.db :=
  {| Quotation.quotation_items := snd (QuotationItem.save a_quotation_line []);
     Quotation.invoices := [];
     Quotation.invoice_items := [] |}.


(** A line of 1 x 0.33 at 18%: its total, 0.3894, is kept as 0.39. *)
Definition a_small_line : QuotationItem.t :=
  {| QuotationItem.id := None; QuotationItem.quotation := 41%N;
     QuotationItem.product := None; QuotationItem.description := "Sticker";
     QuotationItem.quantity := 1; QuotationItem.unit_price := 0.33;
     QuotationItem.discount_percentage := 0; QuotationItem.discount_amount := 0;
     QuotationItem.tax_rate := 18; QuotationItem.tax_amount := 0;
     QuotationItem.total := 0; QuotationItem.order := 0 |}.

Definition a_small_db : Quotation.db :=
  {| Quotation.quotation_items := snd (QuotationItem.save a_small_line []);
     Quotation.invoices := [];
     Quotation.invoice_items := [] |}.

(** ** Further vocabulary *)

(** The timestamps that one middleware instance lets through, when the
    same request arrives at the given times. *)
Fixpoint let_through (request : HttpRequest) (times : list Q) (cache : gmap string (list Q))
  : list Q :=
  match times with
  | [] => []
  | t :: rest =>
    let '(r, cache1) := RateLimitMiddleware.process_request t request cache in
    match r with
    | None => t :: let_through request rest cache1
    | Some _ => let_through request rest cache1
    end
  end.

(** Times that never run backwards. *)
Fixpoint non_decreasing (times : list Q) : Prop :=
  match times with
  | [] => True
  | t :: rest => Forall (fun t' => t <= t') rest /\ non_decreasing rest
  end.

(** A request to an API route that is not one of the three
    authentication routes. *)
Definition an_api_call : HttpRequest :=
  {| path := "/api/leads/"; method := "GET"; user := None;
     META := {| HTTP_X_FORWARDED_FOR := Some "198.51.100.7, 10.0.0.2";
                REMOTE_ADDR := Some "10.0.0.2" |};
     FILES := []; tenant := None |}.

(** A page request outside the API. *)
Definition a_page_view : HttpRequest :=
  {| path := "/sales/leads/"; method := "GET"; user := None;
     META := {| HTTP_X_FORWARDED_FOR := None; REMOTE_ADDR := Some "10.0.0.2" |};
     FILES := []; tenant := None |}.


(** The allow-list middleware as the settings build it, given the
    configured string and the flag. *)
Definition allow_list_of (configured : string) (enabled : bool) : IPWhitelistMiddleware.t :=
  {| IPWhitelistMiddleware.whitelist := IPWhitelistMiddleware.ADMIN_IP_WHITELIST configured;
     IPWhitelistMiddleware.whitelist_enabled := enabled |}.

Definition an_admin_visit : HttpRequest :=
  {| path := "/admin/login/"; method := "GET"; user := None;
     META := {| HTTP_X_FORWARDED_FOR := None; REMOTE_ADDR := Some "192.0.2.44" |};
     FILES := []; tenant := None |}.

(** A request of a tenant. *)
Definition request_of (t : Tenant.t) (verb p : string) (files : list (string * Z))
  : HttpRequest :=
  {| path := p; method := verb; user := None;
     META := {| HTTP_X_FORWARDED_FOR := None; REMOTE_ADDR := Some "10.0.0.1" |};
     FILES := files; tenant := Some t |}.

(** A tenant that is about to be inserted, and one that is stored. *)
Definition a_new_tenant : TenantInstance.t :=
  {| TenantInstance.pk := None; TenantInstance.slug := "acme-east";
     TenantInstance.row := unsaved_tenant |}.

Definition a_stored_tenant : TenantInstance.t :=
  {| TenantInstance.pk := Some 7%Z; TenantInstance.slug := "full-house";
     TenantInstance.row := full_tenant |}.

(** A subscription of the stored tenant. *)
Definition a_subscription : Subscription.t :=
  {| Subscription.id := 61%N; Subscription.tenant := a_stored_tenant;
     Subscription.plan_name := "starter"; Subscription.billing_cycle := "monthly";
     Subscription.status := "active";
     Subscription.current_period_start := 0;
     Subscription.current_period_end := 2592000;
     Subscription.cancelled_at := None |}.

(** No file of the request has a negative size. *)
Definition sizes_non_negative (request : HttpRequest) : Prop :=
  Forall (fun f => (0 <= snd f)%Z) (FILES request).

(** The upload check reads a 'file' or an 'attachment' field. *)
Definition has_upload (request : HttpRequest) : bool :=
  dict_has (FILES request) "file" || dict_has (FILES request) "attachment".

(** A tenant whose three limits all carry the marker -1. *)
Definition a_tenant_without_limits : Tenant.t :=
  {| Tenant.schema_name := "acme"; Tenant.name := "Acme";
     Tenant.subscription_status := "active";
     Tenant.subscription_plan := "enterprise";
     Tenant.trial_end_date := None;
     Tenant.max_users := -1; Tenant.max_leads := -1;
     Tenant.max_storage_mb := -1;
     Tenant.current_users := 40; Tenant.current_leads := 9000;
     Tenant.current_storage_mb := 12;
     Tenant.enabled_features := ∅ |}.

(** A customer and an invoice that are about to be saved for the first
    time, without a code or number of their own. *)
Definition a_second_customer : Customer.t :=
  {| Customer.id := 4%N; Customer.customer_code := "";
     Customer.customer_type := "individual"; Customer.first_name := "Vikram";
     Customer.last_name := "Shah"; Customer.email := "vikram@example.com";
     Customer.phone := ""; Customer.secondary_phone := "";
     Customer.company_name := ""; Customer.job_title := "";
     Customer.industry := ""; Customer.billing_address := "9 Hill Road";
     Customer.billing_city := "Pune"; Customer.billing_state := "MH";
     Customer.billing_country := "India"; Customer.billing_postal_code := "411005";
     Customer.assigned_to := None; Customer.payment_terms := 30;
     Customer.lead_source := ""; Customer.created_by := None;
     Customer.created_at := 0 |}.

Definition a_second_invoice : Invoice.t :=
  {| Invoice.id := 12%N; Invoice.invoice_number := "";
     Invoice.customer := 3%N; Invoice.deal := None; Invoice.quotation := None;
     Invoice.invoice_date := 739002%Z; Invoice.due_date := 739032%Z;
     Invoice.status := "draft";
     Invoice.subtotal := 0; Invoice.discount_type := "percentage";
     Invoice.discount_value := 0; Invoice.discount_amount := 0;
     Invoice.tax_amount := 0; Invoice.total_amount := 0;
     Invoice.amount_paid := 0; Invoice.amount_due := 0;
     Invoice.currency := "INR"; Invoice.payment_terms := "";
     Invoice.notes := ""; Invoice.billing_address := "1 Main Road";
     Invoice.billing_city := "Pune"; Invoice.billing_state := "MH";
     Invoice.billing_country := "India"; Invoice.billing_postal_code := "411001";
     Invoice.created_by := None; Invoice.created_at := 0 |}.

(** The stored invoices whose number starts with the prefix [INV]. *)
Definition numbered_invoices (invoices : list Invoice.t) : list Invoice.t :=
  List.filter (fun i => startswith (Invoice.invoice_number i) "INV") invoices.

(** A quotation that was sent and not answered. *)
Definition a_sent_quotation : Quotation.t :=
  Quotation.set_number_status "QT-001002" "sent" an_accepted_quotation.

(** The roles, lowest first. *)
Definition ranks : list string := ["viewer"; "executive"; "manager"; "admin"; "super_admin"].

(** A request of a signed-in user. *)
Definition request_by (u : User.t) (verb p : string) : HttpRequest :=
  {| path := p; method := verb; user := Some u;
     META := {| HTTP_X_FORWARDED_FOR := None; REMOTE_ADDR := Some "10.0.0.1" |};
     FILES := []; tenant := None |}.

Definition an_executive : User.t :=
  {| User.id := 8; User.email := "e@example.com"; User.role := "executive";
     User.is_active := true; User.is_superuser := false |}.

Definition a_super_admin : User.t :=
  {| User.id := 9; User.email := "s@example.com"; User.role := "super_admin";
     User.is_active := true; User.is_superuser := false |}.

(** Every grant of [p] is a grant of [q], as a test that runs. *)
Definition grants_within (p q : User.perms) : bool :=
  forallb (fun kl => forallb (User.allows q (fst kl)) (snd kl)) p.

(** The slug that the loop of [Product.save] tries in its turn [k]. *)
Definition candidate (base : string) (k : Z) : string :=
  base ++ "-" ++ str_of_Z k.

(** A bundle of two widgets and one other product, priced from its
    products. *)
Definition a_bundle : ProductBundle.t :=
  {| ProductBundle.id := 1; ProductBundle.name := "starter kit";
     ProductBundle.bundle_price := Some 0;
     ProductBundle.discount_percentage := 10;
     ProductBundle.is_active := true |}.

Definition a_price_list : PriceList.t :=
  {| PriceList.name := "spring"; PriceList.valid_from := 100;
     PriceList.valid_to := Some 200; PriceList.is_active := true;
     PriceList.priority := 0 |}.

(** A deal that has just been won, and a line of it. *)
Definition a_won_deal : Deal.t :=
  {| Deal.id := 21%N; Deal.deal_number := "DEAL-00007"; Deal.title := "Fit-out";
     Deal.stage := "closed_won"; Deal.amount := 90000; Deal.probability := 100;
     Deal.created_at := 1000; Deal.closed_date := None |}.

Definition a_deal_line : DealProduct.t :=
  {| DealProduct.deal := 21%N; DealProduct.product := widget;
     DealProduct.quantity := 2; DealProduct.unit_price := 100;
     DealProduct.discount_percentage := 10; DealProduct.tax_percentage := 18 |}.

(** A token built without a value and without an expiry. *)
Definition a_fresh_token : token :=
  {| token_user := 7; token_value := ""; is_used := false; expires_at := None |}.

(** One of the sixteen lower-case hexadecimal digits. *)
Definition is_lower_hex (a : ascii) : bool :=
  existsb (Ascii.eqb a) (list_ascii_of_string "0123456789abcdef").

(** The decimal digits of a number that is not negative. *)
Definition digits_of (n : Z) : Decimal.uint :=
  match n with
  | Z.pos p => Pos.to_uint p
  | _ => Decimal.D0 Decimal.Nil
  end.

(* ================================================================== *)
(** * Properties *)

(** ** Comparisons and truth values *)

Lemma Qlt_bool_iff (x y : Q) : Qlt_bool x y = true <-> x < y.
Proof.
  unfold Qlt_bool. rewrite negb_true_iff, <- not_true_iff_false, Qle_bool_iff.
  split; [apply Qnot_le_lt | apply Qlt_not_le].
Qed.

Lemma Qlt_bool_false_iff (x y : Q) : Qlt_bool x y = false <-> y <= x.
Proof.
  unfold Qlt_bool. rewrite negb_false_iff. apply Qle_bool_iff.
Qed.

Lemma Decimal_truthy_false_iff (d : Q) : Decimal_truthy d = false <-> d == 0.
Proof.
  unfold Decimal_truthy. rewrite negb_false_iff. apply Qeq_bool_iff.
Qed.

Lemma Decimal_truthy_true_iff (d : Q) : Decimal_truthy d = true <-> ~ d == 0.
Proof.
  rewrite <- Decimal_truthy_false_iff. destruct (Decimal_truthy d); intuition congruence.
Qed.

(* ------------------------------------------------------------------ *)
(** ** Price list items *)

Section get_price.
Import PriceListItem.

Variable item : PriceListItem.t.
Variable zero : Q.
Hypothesis fixed_is_zero : fixed_price item = Some zero.
Hypothesis zero_is_zero : zero == 0.

Let base := Product.base_price (product item).

Lemma zero_fixed_price_skipped (quantity : Q) :
  get_price item quantity =
  if Qlt_bool quantity (min_quantity item) then None
  else match discount_percentage item with
       | Some d => if Decimal_truthy d then Some (base * (1 - d / 100)) else Some base
       | None => Some base
       end.
Proof.
  unfold get_price. rewrite fixed_is_zero. cbn [opt_truthy].
  apply Decimal_truthy_false_iff in zero_is_zero. rewrite zero_is_zero.
  destruct (discount_percentage item) as [d|]; cbn [opt_truthy]; reflexivity.
Qed.

(** C10.  A price-list item whose [fixed_price] is exactly 0 never answers
    with that override.  From the minimum quantity on, [get_price] answers
    the base price reduced by [discount_percentage] when that is set and
    not zero, and the plain base price otherwise; it answers none exactly
    when the quantity is below [min_quantity].  In all, the item prices as
    if it had no fixed price. *)
Theorem get_price_zero_fixed_price (quantity : Q) :
  get_price item quantity = get_price (without_fixed_price item) quantity
  /\ (min_quantity item <= quantity ->
     forall d, discount_percentage item = Some d -> ~ d == 0 ->
     get_price item quantity = Some (base * (1 - d / 100)))
  /\ (min_quantity item <= quantity ->
     (discount_percentage item = None
      \/ exists d, discount_percentage item = Some d /\ d == 0) ->
     get_price item quantity = Some base)
  /\ (get_price item quantity = None <-> quantity < min_quantity item).
Proof.
  split.
  { unfold get_price at 2. cbn.
    rewrite zero_fixed_price_skipped.
    destruct (Qlt_bool _ _); [reflexivity|].
    destruct (discount_percentage item) as [d|]; reflexivity. }
  rewrite zero_fixed_price_skipped. repeat split.
  - intros Hq d Hd Hnz. apply Qlt_bool_false_iff in Hq. rewrite Hq, Hd.
    apply Decimal_truthy_true_iff in Hnz. now rewrite Hnz.
  - intros Hq Hd. apply Qlt_bool_false_iff in Hq. rewrite Hq.
    destruct Hd as [-> | (d & -> & Hd)]; [reflexivity|].
    apply Decimal_truthy_false_iff in Hd. now rewrite Hd.
  - destruct (Qlt_bool quantity (min_quantity item)) eqn:E.
    + intros _. now apply Qlt_bool_iff.
    + destruct (discount_percentage item) as [d|]; [destruct (Decimal_truthy d)|];
        discriminate.
  - intros H. apply Qlt_bool_iff in H. now rewrite H.
Qed.
End get_price.

Lemma get_price_zero_fixed_price_witness :
  PriceListItem.get_price widget_free_override 5 = Some (200 * (1 - 25 / 100))
  /\ PriceListItem.get_price widget_free_override 2 = None.
Proof.
  pose proof (get_price_zero_fixed_price widget_free_override 0
                eq_refl (Qeq_refl 0)) as H.
  split.
  - destruct (H 5) as (_ & H1 & _ & _).
    apply (H1 ltac:(vm_compute; discriminate) 25 eq_refl).
    vm_compute; discriminate.
  - destruct (H 2) as (_ & _ & _ & H3). apply H3. reflexivity.
Defined.

(* ------------------------------------------------------------------ *)
(** ** Role permissions *)

(** A manager may update an invoice and may not delete one, the reverse of
    the table's row. *)
Lemma manager_invoice_permissions_differ :
  User.role a_manager = "manager"
  /\ User.allows (User.get_permissions a_manager) "invoices" "update" = true
  /\ User.allows (User.get_permissions a_manager) "invoices" "delete" = false
  /\ ~ same_permissions (User.get_permissions a_manager) spec_manager_permissions.
Proof.
  repeat split. intros H. specialize (H "invoices" "update"). discriminate H.
Qed.

(** C3 (amended).  For every user whose role is manager, [get_permissions]
    returns exactly: users read; leads create, read, update, delete,
    assign; customers and deals create, read, update, delete; products
    read; invoices create, read, update, send (no delete); reports view,
    export; settings view; and no billing entry. *)
Theorem manager_permissions (u : User.t) :
  User.role u = "manager" ->
  User.get_permissions u =
    [ ("users", ["read"]);
      ("leads", ["create"; "read"; "update"; "delete"; "assign"]);
      ("customers", ["create"; "read"; "update"; "delete"]);
      ("deals", ["create"; "read"; "update"; "delete"]);
      ("products", ["read"]);
      ("invoices", ["create"; "read"; "update"; "send"]);
      ("reports", ["view"; "export"]);
      ("settings", ["view"]) ]
  /\ dict_has (User.get_permissions u) "billing" = false
  /\ forall action, User.allows (User.get_permissions u) "billing" action = false.
Proof.
  intros Hrole. unfold User.get_permissions. rewrite Hrole.
  split; [reflexivity|]. split; [reflexivity|]. intros action. reflexivity.
Qed.

Lemma manager_permissions_witness :
  User.allows (User.get_permissions a_manager) "invoices" "send" = true
  /\ dict_has (User.get_permissions a_manager) "billing" = false.
Proof.
  destruct (manager_permissions a_manager eq_refl) as (Heq & Hb & _).
  split; [rewrite Heq; reflexivity | exact Hb].
Defined.

(* ------------------------------------------------------------------ *)
(** ** Tenant policy *)

(** The two trial properties answer whenever the trial end is set or the
    tenant is not on the trial status. *)
Lemma trial_properties_answer (now : datetime) (t : Tenant.t) :
  Tenant.subscription_status t <> "trial" \/ Tenant.trial_end_date t <> None ->
  (exists b, Tenant.is_on_trial now t = Ok b)
  /\ (exists b, Tenant.is_trial_expired now t = Ok b).
Proof.
  unfold Tenant.is_on_trial, Tenant.is_trial_expired.
  destruct (String.eqb_spec (Tenant.subscription_status t) "trial") as [E|E].
  - intros [H|H]; [contradiction|].
    destruct (Tenant.trial_end_date t); [|contradiction]. cbn. eauto.
  - intros _. eauto.
Qed.

(** C4.  With the trial status and no trial end date, [is_on_trial] and
    [is_trial_expired] raise [TypeError] instead of returning a value. *)
Theorem trial_properties_raise_without_end_date (now : datetime) :
  Tenant.is_on_trial now unsaved_tenant =
    Raise (TypeError
      "'>' not supported between instances of 'NoneType' and 'datetime.datetime'")
  /\ Tenant.is_trial_expired now unsaved_tenant =
    Raise (TypeError
      "'<=' not supported between instances of 'NoneType' and 'datetime.datetime'").
Proof. split; reflexivity. Qed.

(* ------------------------------------------------------------------ *)
(** ** Plan limits *)

Import SubscriptionMiddleware.

Lemma can_add_users_iff (t : Tenant.t) :
  Tenant.can_add_users t = true
  <-> (Tenant.max_users t = -1 \/ Tenant.current_users t < Tenant.max_users t)%Z.
Proof.
  unfold Tenant.can_add_users. rewrite orb_true_iff, Z.eqb_eq, Z.ltb_lt. reflexivity.
Qed.

(** No handler of the middleware gets past its first test. *)
Lemma api_caller_raises (request : HttpRequest) :
  api_caller request
  = Raise (AttributeError "'WSGIRequest' object has no attribute 'is_ajax'").
Proof. reflexivity. Qed.

Lemma _handle_limit_exceeded_raises (request : HttpRequest) (resource : string) (limit : json) :
  _handle_limit_exceeded request resource limit
  = Raise (AttributeError "'WSGIRequest' object has no attribute 'is_ajax'").
Proof. reflexivity. Qed.

(** For a tenant that cannot add users, the limit check of a request to
    one of the two prefixes it looks for ends in that error: no response
    is built. *)
Lemma over_limit_check_raises (request : HttpRequest) (t : Tenant.t) :
  is_checked_user_path (path request) = true ->
  Tenant.can_add_users t = false ->
  _check_resource_limits request t
  = Raise (AttributeError "'WSGIRequest' object has no attribute 'is_ajax'").
Proof.
  unfold is_checked_user_path. intros Hpath Hfull.
  unfold _check_resource_limits, user_limit_block. now rewrite Hpath, Hfull.
Qed.

(** With [max_users = -1] the user check never rejects, whatever
    [current_users] is. *)
Lemma unlimited_users_pass_the_user_check (request : HttpRequest) (t : Tenant.t) :
  Tenant.max_users t = (-1)%Z -> user_limit_block request t = None.
Proof.
  intros Hm. unfold user_limit_block, Tenant.can_add_users. rewrite Hm.
  cbn. now destruct (_ || _).
Qed.

(** C7.  The tenant of the example holds 5 users of 5 and cannot add one.
    A POST to either prefix the user check looks for ends in the
    [AttributeError] of [request.is_ajax()]: the LIMIT_EXCEEDED response
    that [_handle_limit_exceeded] is written to give is never built.  A
    POST to either route on which users are created meets neither prefix
    and passes the middleware. *)
Theorem user_limit_check_raises (now : datetime) :
  Tenant.can_add_users full_tenant = false
  /\ process_request "public" now (post_to "/api/users/")
     = Raise (AttributeError "'WSGIRequest' object has no attribute 'is_ajax'")
  /\ process_request "public" now (post_to "/accounts/users/create/")
     = Raise (AttributeError "'WSGIRequest' object has no attribute 'is_ajax'")
  /\ Forall (fun route => is_checked_user_path route = false
                          /\ process_request "public" now (post_to route) = Ok ([], None))
            user_creation_routes.
Proof.
  split; [reflexivity|]. split; [reflexivity|]. split; [reflexivity|].
  repeat constructor.
Qed.

(** Between the subscription gates and the limit check there is nothing
    else: for a tenant that is neither cancelled, past due nor on an
    expired trial, a POST outside the exempt paths is answered by
    [_check_resource_limits]. *)
Lemma post_reaches_limit_check
    (public_schema : string) (now : datetime) (request : HttpRequest) (t : Tenant.t) :
  tenant request = Some t ->
  String.eqb (Tenant.schema_name t) public_schema = false ->
  existsb (startswith (path request)) EXEMPT_URLS = false ->
  String.eqb (Tenant.subscription_status t) "cancelled" = false ->
  String.eqb (Tenant.subscription_status t) "past_due" = false ->
  Tenant.is_trial_expired now t = Ok false ->
  method request = "POST" ->
  process_request public_schema now request = _check_resource_limits request t.
Proof.
  intros Ht Hs He Hc Hp Hx Hm. unfold process_request.
  rewrite Ht, Hs, He, Hc, Hp, Hx, Hm. reflexivity.
Qed.

(* ------------------------------------------------------------------ *)
(** ** Rate limiting *)

Section rate_limit.
Import RateLimitMiddleware.

Lemma process_request_spec now request cache max_requests window :
  find_rate (strip "/" (path request)) = Some (max_requests, window) ->
  let kept := in_window now window (entries cache (cache_key request)) in
  process_request now request cache =
    if (max_requests <=? Z.of_nat (length kept))%Z
    then (Some Forbidden, <[cache_key request := kept]> cache)
    else (None, <[cache_key request := (kept ++ [now])%list]> cache).
Proof.
  intros Hrate. unfold process_request. rewrite Hrate.
  fold (cache_key request). unfold entries, in_window.
  destruct (cache !! cache_key request) as [l|] eqn:E.
  - rewrite E. cbn [default]. rewrite insert_insert_eq. reflexivity.
  - rewrite lookup_insert_eq. cbn [default List.filter length].
    rewrite !insert_insert_eq. reflexivity.
Qed.

Lemma entries_insert cache key l : entries (<[key := l]> cache) key = l.
Proof. unfold entries. now rewrite lookup_insert_eq. Qed.

Lemma in_window_all now window l :
  Forall (fun ts => now - ts < window) l -> in_window now window l = l.
Proof.
  induction 1 as [|ts l H _ IH]; [reflexivity|].
  cbn. apply Qlt_bool_iff in H. unfold in_window in IH. now rewrite H, IH.
Qed.

Lemma in_window_none now window l :
  Forall (fun ts => window <= now - ts) l -> in_window now window l = [].
Proof.
  induction 1 as [|ts l H _ IH]; [reflexivity|].
  cbn. apply Qlt_bool_false_iff in H. unfold in_window in IH. now rewrite H, IH.
Qed.

Lemma accepted now request cache max_requests window :
  find_rate (strip "/" (path request)) = Some (max_requests, window) ->
  let l := entries cache (cache_key request) in
  Forall (fun ts => now - ts < window) l ->
  (Z.of_nat (length l) < max_requests)%Z ->
  process_request now request cache =
    (None, <[cache_key request := (l ++ [now])%list]> cache).
Proof.
  intros Hrate l Hall Hlen. rewrite (process_request_spec _ _ _ _ _ Hrate).
  cbn zeta. rewrite in_window_all by exact Hall. fold l.
  apply Z.leb_gt in Hlen. now rewrite Hlen.
Qed.

Lemma rejected now request cache max_requests window :
  find_rate (strip "/" (path request)) = Some (max_requests, window) ->
  let l := entries cache (cache_key request) in
  Forall (fun ts => now - ts < window) l ->
  (max_requests <= Z.of_nat (length l))%Z ->
  process_request now request cache =
    (Some Forbidden, <[cache_key request := l]> cache).
Proof.
  intros Hrate l Hall Hlen. rewrite (process_request_spec _ _ _ _ _ Hrate).
  cbn zeta. rewrite in_window_all by exact Hall. fold l.
  apply Z.leb_le in Hlen. now rewrite Hlen.
Qed.

(** X2.  Whatever the cache holds, a denial records nothing: the key keeps
    the timestamps it had that are still inside the window, and every
    other key is untouched. *)
Lemma denial_records_nothing now request cache max_requests window r cache' :
  find_rate (strip "/" (path request)) = Some (max_requests, window) ->
  process_request now request cache = (Some r, cache') ->
  r = Forbidden
  /\ entries cache' (cache_key request)
     = in_window now window (entries cache (cache_key request))
  /\ forall k, k <> cache_key request -> cache' !! k = cache !! k.
Proof.
  intros Hrate. rewrite (process_request_spec _ _ _ _ _ Hrate). cbn zeta.
  destruct (_ <=? _)%Z; [|discriminate].
  intros [= <- <-]. rewrite entries_insert. repeat split.
  intros k Hk. now rewrite lookup_insert_ne.
Qed.

Lemma anonymous_client_id request :
  user request = None ->
  exists ip, get_client_id request = "ip:" ++ ip.
Proof. unfold get_client_id. intros ->. eauto. Qed.

(** C8.  An anonymous client, keyed by its IP, sends login requests to one
    middleware instance that has nothing recorded for it.  Five requests
    are let through; a sixth arriving less than 300 seconds after the
    first is answered Forbidden and adds no entry to the client's window;
    once every recorded attempt is 300 seconds old or older, the next
    attempt is let through. *)
Theorem sixth_login_rejected (request : HttpRequest) (cache : gmap string (list Q))
    (t1 t2 t3 t4 t5 t6 t7 : Q) :
  path request = "/api/auth/login/" ->
  user request = None ->
  cache !! cache_key request = None ->
  t1 <= t2 -> t2 <= t3 -> t3 <= t4 -> t4 <= t5 -> t5 <= t6 ->
  t6 - t1 < 300 ->
  300 <= t7 - t5 ->
  exists ip cache5 cache6,
    cache_key request = "api/auth/login:ip:" ++ ip
    /\ serve request [t1; t2; t3; t4; t5] cache
       = ([None; None; None; None; None], cache5)
    /\ process_request t6 request cache5 = (Some Forbidden, cache6)
    /\ entries cache5 (cache_key request) = [t1; t2; t3; t4; t5]
    /\ entries cache6 (cache_key request) = [t1; t2; t3; t4; t5]
    /\ fst (process_request t7 request cache6) = None.
Proof.
  intros Hpath Hanon Hfresh H12 H23 H34 H45 H56 Hin Hout.
  assert (Hrate : find_rate (strip "/" (path request)) = Some (5%Z, 300))
    by (rewrite Hpath; reflexivity).
  destruct (anonymous_client_id request Hanon) as (ip & Hip).
  exists ip.
  assert (Hkey : cache_key request = "api/auth/login:ip:" ++ ip)
    by (unfold cache_key; rewrite Hpath, Hip; reflexivity).
  clear Hip Hpath.
  set (key := cache_key request) in *.
  assert (E0 : entries cache key = []) by (unfold entries; now rewrite Hfresh).
  cbn [serve].
  rewrite (accepted t1 _ _ _ _ Hrate); fold key; rewrite ?E0, ?entries_insert;
    [|constructor|cbn; lia].
  rewrite (accepted t2 _ _ _ _ Hrate); fold key; rewrite ?entries_insert;
    [|repeat constructor; lra|cbn; lia].
  rewrite (accepted t3 _ _ _ _ Hrate); fold key; rewrite ?entries_insert;
    [|repeat constructor; lra|cbn; lia].
  rewrite (accepted t4 _ _ _ _ Hrate); fold key; rewrite ?entries_insert;
    [|repeat constructor; lra|cbn; lia].
  rewrite (accepted t5 _ _ _ _ Hrate); fold key; rewrite ?entries_insert;
    [|repeat constructor; lra|cbn; lia].
  cbn [app]. eexists _, _. split; [exact Hkey|]. split; [reflexivity|].
  rewrite (rejected t6 _ _ _ _ Hrate); fold key; rewrite ?entries_insert;
    [|repeat constructor; lra|cbn; lia].
  split; [reflexivity|]. split; [reflexivity|]. split; [reflexivity|].
  rewrite (process_request_spec _ _ _ _ _ Hrate). fold key. cbn zeta.
  rewrite entries_insert, in_window_none by (repeat constructor; lra).
  reflexivity.
Qed.
End rate_limit.

Lemma sixth_login_rejected_witness :
  exists cache5 cache6,
    serve a_login_attempt [0; 10; 20; 30; 40] ∅
      = ([None; None; None; None; None], cache5)
    /\ RateLimitMiddleware.process_request 50 a_login_attempt cache5
       = (Some Forbidden, cache6)
    /\ entries cache6 (cache_key a_login_attempt) = [0; 10; 20; 30; 40]
    /\ fst (RateLimitMiddleware.process_request 340 a_login_attempt cache6) = None.
Proof.
  destruct (sixth_login_rejected a_login_attempt ∅ 0 10 20 30 40 50 340)
    as (ip & cache5 & cache6 & _ & H1 & H2 & _ & H3 & H4);
    try reflexivity; try lra.
  exists cache5, cache6. auto.
Defined.

(* ------------------------------------------------------------------ *)
(** ** Webhook signatures *)

Lemma zip_with_xor_repeat (x : Z) (n : nat) (b : bytes) :
  length b = n ->
  sha256.zip_with Z.lxor b (repeat x n) = hmac.translate x b.
Proof.
  intros <-. unfold hmac.translate.
  induction b as [|o b IH]; [reflexivity|].
  cbn. rewrite IH. f_equal. apply Z.lxor_comm.
Qed.

Lemma ljust_length (n : nat) (b : bytes) :
  (length b <= n)%nat -> length (hmac.ljust n b) = n.
Proof.
  intros H. unfold hmac.ljust. rewrite length_app, repeat_length. lia.
Qed.

Lemma be_bytes_length (n : nat) (x : Z) : length (sha256.be_bytes n x) = n.
Proof.
  revert x. induction n as [|n IH]; intros x; [reflexivity|].
  cbn. rewrite length_app, IH. cbn. lia.
Qed.

Lemma zip_with_add32_length (h s : list Z) :
  length s = length h -> length (sha256.zip_with sha256.add32 h s) = length h.
Proof.
  revert s. induction h as [|a h IH]; intros [|b s] Hl; try discriminate; [reflexivity|].
  cbn. f_equal. apply IH. now injection Hl.
Qed.

Lemma round_length (s : list Z) (kw : Z * Z) :
  length (sha256.round s kw) = length s.
Proof.
  unfold sha256.round.
  destruct s as [|a [|b [|c [|d [|e [|f [|g [|h [|i s]]]]]]]]]; reflexivity.
Qed.

Lemma compress_length (h : list Z) (block : bytes) :
  length (sha256.compress h block) = length h.
Proof.
  unfold sha256.compress. apply zip_with_add32_length.
  generalize (sha256.zip_with pair sha256.round_constants (sha256.schedule block)).
  intros l. revert h. induction l as [|kw l IH]; intros h; [reflexivity|].
  cbn. rewrite IH. apply round_length.
Qed.

(** A digest is 32 octets long, so a hashed key fits the block. *)
Lemma digest_length (msg : bytes) : length (sha256.digest msg) = 32%nat.
Proof.
  unfold sha256.digest.
  generalize (sha256.chunks (length (sha256.pad msg)) 64 (sha256.pad msg)).
  intros blocks.
  assert (H : length (fold_left sha256.compress blocks sha256.initial_hash) = 8%nat).
  { generalize sha256.initial_hash (eq_refl : length sha256.initial_hash = 8%nat).
    induction blocks as [|b blocks IH]; intros h Hh; [exact Hh|].
    cbn. apply IH. now rewrite compress_length. }
  destruct (fold_left _ _ _) as [|a [|b [|c [|d [|e [|f [|g [|h [|i s]]]]]]]]];
    try discriminate.
  cbn [flat_map]. rewrite !length_app, !be_bytes_length. reflexivity.
Qed.

(** The object Python builds computes the function of RFC 2104. *)
Lemma hmac_new_is_HMAC (key msg : bytes) :
  hmac.digest (hmac.new key msg) = HMAC_SHA256 key msg.
Proof.
  unfold hmac.digest, hmac.new, HMAC_SHA256, sha256.block_size. cbn [hmac.inner hmac.outer].
  fold (hmac.ljust 64 (if (64 <? length key)%nat then sha256.digest key else key)).
  assert (Hlen : length (hmac.ljust 64
            (if (64 <? length key)%nat then sha256.digest key else key)) = 64%nat).
  { apply ljust_length. destruct (64 <? length key)%nat eqn:E.
    - rewrite digest_length. lia.
    - apply Nat.ltb_ge in E. exact E. }
  rewrite !zip_with_xor_repeat by exact Hlen. reflexivity.
Qed.

(** The derived constants are the published ones. *)
Lemma sha256_constants :
  length sha256.round_constants = 64%nat
  /\ nth 0 sha256.round_constants 0%Z = 0x428a2f98%Z
  /\ nth 63 sha256.round_constants 0%Z = 0xc67178f2%Z
  /\ nth 0 sha256.initial_hash 0%Z = 0x6a09e667%Z
  /\ nth 7 sha256.initial_hash 0%Z = 0x5be0cd19%Z.
Proof. repeat split. Qed.

(** The embedded SHA-256 and HMAC reproduce the published test vectors
    (FIPS 180-4 "abc"; RFC 4231, test case 2). *)
Lemma sha256_abc :
  hex (sha256.digest (str_lit "abc"))
  = "ba7816bf8f01cfea414140de5dae2223b00361a396177a9cb410ff61f20015ad".
Proof. vm_compute. reflexivity. Qed.

Lemma hmac_sha256_rfc4231_case2 :
  hex (HMAC_SHA256 (str_lit "Jefe") (str_lit "what do ya want for nothing?"))
  = "5bdcc146bf60754e6a042426089575c75a003f089d2739839dec58b964ec3843".
Proof. vm_compute. reflexivity. Qed.

(** C9.  [generate_signature] is a function of the secret and the payload
    alone: two endpoints with the same secret sign a payload identically,
    and the signature is the hex encoding of HMAC-SHA256 over the UTF-8
    octets of secret and payload; on the example, changing one octet of
    the payload changes the digest. *)
Theorem generate_signature_is_hmac_sha256
    (e1 e2 : WebhookEndpoint.t) (payload : pystr) :
  WebhookEndpoint.secret_key e1 = WebhookEndpoint.secret_key e2 ->
  WebhookEndpoint.generate_signature e1 payload
    = WebhookEndpoint.generate_signature e2 payload
  /\ WebhookEndpoint.generate_signature e1 payload
     = (key ← utf8.encode (WebhookEndpoint.secret_key e1);
        msg ← utf8.encode payload;
        Some (hex (HMAC_SHA256 key msg)))
  /\ WebhookEndpoint.generate_signature an_endpoint payload_1
     <> WebhookEndpoint.generate_signature an_endpoint payload_2.
Proof.
  intros Hsecret. unfold WebhookEndpoint.generate_signature. rewrite Hsecret.
  split; [reflexivity|]. split.
  - destruct (utf8.encode (WebhookEndpoint.secret_key e2)) as [key|]; [|reflexivity].
    destruct (utf8.encode payload) as [msg|]; [|reflexivity].
    cbn [mbind option_bind]. unfold hmac.hexdigest. now rewrite hmac_new_is_HMAC.
  - vm_compute. discriminate.
Qed.

Lemma generate_signature_is_hmac_sha256_witness :
  WebhookEndpoint.generate_signature an_endpoint payload_1
  = WebhookEndpoint.generate_signature a_second_endpoint payload_1.
Proof.
  exact (proj1 (generate_signature_is_hmac_sha256
                  an_endpoint a_second_endpoint payload_1 eq_refl)).
Defined.

Lemma generate_signature_example :
  WebhookEndpoint.generate_signature an_endpoint payload_1
  = Some "09c96da04aa894f1689e5ab655121d7b6adae13f7652aee5c3ec4fbe677606bf".
Proof. vm_compute. reflexivity. Qed.

(* ------------------------------------------------------------------ *)
(** ** Invoice totals *)

Lemma items_all_own (inv : Invoice.t) (rows : list InvoiceItem.t) :
  Forall (fun i => InvoiceItem.invoice i = Invoice.id inv) rows ->
  Invoice.items inv rows =
  merge_sort
    (fun a b => by_order_id (InvoiceItem.sort_key a) (InvoiceItem.sort_key b)) rows.
Proof.
  intros H. unfold Invoice.items. f_equal.
  induction H as [|i rows Hi _ IH]; [reflexivity|].
  cbn. rewrite Hi, N.eqb_refl. now f_equal.
Qed.

Lemma two_lines_items (inv : Invoice.t) :
  Invoice.items inv (snd (two_lines (Invoice.id inv)))
  = [InvoiceItem.row_of (fst (fst (two_lines (Invoice.id inv))));
     InvoiceItem.row_of (snd (fst (two_lines (Invoice.id inv))))].
Proof.
  rewrite items_all_own by (repeat constructor).
  generalize (Invoice.id inv). intros k. vm_compute. reflexivity.
Qed.

(** On the example the code answers 271.4 for the subtotal and 312.8 for
    the total, not 250 and 271.4. *)
Lemma example_totals_are_not_250_and_271_4 :
  let inv' := Invoice.calculate_totals 739001%Z an_invoice
                (snd (two_lines (Invoice.id an_invoice))) in
  Invoice.discount_type an_invoice = "percentage"
  /\ Invoice.discount_value an_invoice == 0
  /\ ~ Invoice.subtotal inv' == 250
  /\ ~ Invoice.total_amount inv' == 271.4.
Proof.
  cbv zeta. split; [reflexivity|]. split; [reflexivity|].
  split; vm_compute; discriminate.
Qed.

(** C2 (amended).  For an invoice whose line items are (quantity 2, unit
    price 100, discount 10%, tax rate 18%) and (quantity 1, unit price 50,
    discount 0%, tax rate 18%), with an invoice-level percentage discount
    of 0: saving the items leaves item 1 with discount 20, taxable amount
    180, tax 32.4, total 212.4 and item 2 with discount 0, taxable amount
    50, tax 9, total 59; [calculate_totals] then yields subtotal 271.4
    (the sum of the item totals), discount 0 and tax 41.4 (the sum of the
    item taxes). *)
Theorem example_invoice_totals (inv : Invoice.t) (today : date) :
  Invoice.discount_type inv = "percentage" ->
  Invoice.discount_value inv == 0 ->
  let '(item1, item2, rows) := two_lines (Invoice.id inv) in
  let taxable i :=
    InvoiceItem.quantity i * InvoiceItem.unit_price i - InvoiceItem.discount_amount i in
  let inv' := Invoice.calculate_totals today inv rows in
  (InvoiceItem.discount_amount item1 == 20 /\ taxable item1 == 180
   /\ InvoiceItem.tax_amount item1 == 32.4 /\ InvoiceItem.total item1 == 212.4)
  /\ (InvoiceItem.discount_amount item2 == 0 /\ taxable item2 == 50
      /\ InvoiceItem.tax_amount item2 == 9 /\ InvoiceItem.total item2 == 59)
  /\ Invoice.subtotal inv' == 271.4
  /\ Invoice.discount_amount inv' == 0
  /\ Invoice.tax_amount inv' == 41.4.
Proof.
  intros Hty Hval.
  pose proof (two_lines_items inv) as Hit.
  destruct (two_lines (Invoice.id inv)) as [[item1 item2] rows] eqn:E.
  cbn [fst snd] in Hit.
  assert (E1 : item1 = fst (fst (two_lines (Invoice.id inv)))) by now rewrite E.
  assert (E2 : item2 = snd (fst (two_lines (Invoice.id inv)))) by now rewrite E.
  clear E. unfold Invoice.calculate_totals.
  cbn [Invoice.update Invoice.subtotal Invoice.tax_amount Invoice.discount_amount
       Invoice.total_amount].
  rewrite Hit, Hty. cbn [String.eqb Ascii.eqb Bool.eqb]. rewrite Hval.
  subst item1 item2. generalize (Invoice.id inv). intros k.
  repeat split; vm_compute; reflexivity.
Qed.

Lemma example_invoice_totals_witness :
  Invoice.subtotal
    (Invoice.calculate_totals 739001%Z an_invoice
       (snd (two_lines (Invoice.id an_invoice)))) == 271.4
  /\ Invoice.tax_amount
    (Invoice.calculate_totals 739001%Z an_invoice
       (snd (two_lines (Invoice.id an_invoice)))) == 41.4.
Proof.
  pose proof (example_invoice_totals an_invoice 739001%Z eq_refl (Qeq_refl 0)) as H.
  cbv beta iota zeta in H.
  destruct H as (_ & _ & Hs & _ & Ht). split; [exact Hs | exact Ht].
Defined.

(** The total the code computes adds the item taxes to a subtotal that
    already contains them: 312.8, the item totals plus the item taxes. *)
Lemma example_total_counts_tax_twice :
  let '(item1, item2, rows) := two_lines (Invoice.id an_invoice) in
  let inv' := Invoice.calculate_totals 739001%Z an_invoice rows in
  Invoice.total_amount inv' == 312.8
  /\ Invoice.total_amount inv'
     == (InvoiceItem.total item1 + InvoiceItem.total item2)
        + (InvoiceItem.tax_amount item1 + InvoiceItem.tax_amount item2).
Proof. vm_compute. split; reflexivity. Qed.

(* ------------------------------------------------------------------ *)
(** ** Payments *)

Lemma upsert_In {A K} (eqb : K -> K -> bool) (pk : A -> K) (row : A) (rows : list A) :
  In row (upsert eqb pk row rows).
Proof.
  induction rows as [|r rows IH]; cbn; [now left|].
  destruct (eqb (pk r) (pk row)); cbn; auto.
Qed.

Lemma upsert_new {A K} (eqb : K -> K -> bool) (pk : A -> K) (row : A) (rows : list A) :
  has_pk eqb pk (pk row) rows = false ->
  upsert eqb pk row rows = (rows ++ [row])%list.
Proof.
  unfold has_pk. induction rows as [|r rows IH]; cbn; [reflexivity|].
  intros H. apply orb_false_iff in H as [H1 H2]. rewrite H1. f_equal. now apply IH.
Qed.

(** Neither [calculate_totals] nor [Invoice.save] writes [amount_paid]. *)
Lemma calculate_totals_keeps_amount_paid today inv rows :
  Invoice.amount_paid (Invoice.calculate_totals today inv rows) = Invoice.amount_paid inv.
Proof. reflexivity. Qed.

Lemma invoice_save_keeps_amount_paid now inv invoices :
  Invoice.amount_paid (fst (Invoice.save now inv invoices)) = Invoice.amount_paid inv.
Proof.
  unfold Invoice.save. cbn [fst].
  destruct (negb _); destruct (has_pk _ _ _ _); reflexivity.
Qed.

Lemma invoice_save_persists now inv invoices :
  In (fst (Invoice.save now inv invoices)) (snd (Invoice.save now inv invoices)).
Proof. unfold Invoice.save. cbn [fst snd]. apply upsert_In. Qed.

(** A payment that holds no key yet credits its invoice: [amount_paid]
    grows by the amount, the totals are recomputed and the invoice row is
    written. *)
Lemma save_without_key_credits_invoice (e : Payment.env) (self : Payment.t) (d : Payment.db) :
  Payment.id self = None ->
  let '(p, d') := Payment.save e self d in
  let credited :=
    Invoice.calculate_totals (Payment.today e)
      (Invoice.set_amount_paid
         (Invoice.amount_paid (Payment.invoice self) + Payment.amount self)
         (Payment.invoice self))
      (Payment.invoice_items d) in
  Payment.invoice p = fst (Invoice.save (Payment.now e) credited (Payment.invoices d))
  /\ Invoice.amount_paid (Payment.invoice p)
     = Invoice.amount_paid (Payment.invoice self) + Payment.amount self
  /\ In (Payment.invoice p) (Payment.invoices d').
Proof.
  intros Hid. unfold Payment.save, Payment.super_save, Payment.pk.
  destruct (negb (str_truthy (Payment.payment_number self)));
    cbn [Payment.update Payment.id Payment.invoice Payment.amount Payment.payment_number];
    rewrite Hid; cbn [Payment.pk_truthy opt_truthy negb Payment.update Payment.id
                      Payment.invoice Payment.amount Payment.payment_number];
    match goal with
    | |- context [Invoice.save ?n ?i ?l] =>
      pose proof (invoice_save_persists n i l) as Hp;
      pose proof (invoice_save_keeps_amount_paid n i l) as Ha;
      destruct (Invoice.save n i l) as [inv3 invs] eqn:E
    end;
    cbn [fst snd Payment.invoice Payment.invoices Payment.update] in *;
    (split; [reflexivity|]; split; [exact Ha | exact Hp]).
Qed.

(** A payment that holds a key leaves the invoice alone: neither the
    instance it refers to nor any invoice row changes. *)
Lemma save_with_key_leaves_invoice (e : Payment.env) (self : Payment.t) (d : Payment.db)
    (k : UUID) :
  Payment.id self = Some k ->
  let '(p, d') := Payment.save e self d in
  Payment.invoice p = Payment.invoice self
  /\ Payment.invoices d' = Payment.invoices d
  /\ In p (Payment.payments d').
Proof.
  intros Hid. unfold Payment.save, Payment.super_save, Payment.pk.
  destruct (negb (str_truthy (Payment.payment_number self)));
    cbn [Payment.update Payment.id Payment.invoice]; rewrite Hid;
    cbn [Payment.pk_truthy opt_truthy negb Payment.invoice Payment.invoices
         Payment.payments];
    (split; [reflexivity|]; split; [reflexivity|]; apply upsert_In).
Qed.

(** The model builds every payment with a key, so creating one through
    the model never reaches the crediting branch. *)
Lemma create_leaves_invoice (e : Payment.env) (inv : Invoice.t) (amt : Q) (on : date)
    (method : string) (d : Payment.db) :
  Payment.invoice (fst (Payment.create e inv amt on method d)) = inv
  /\ Payment.invoices (snd (Payment.create e inv amt on method d)) = Payment.invoices d.
Proof.
  unfold Payment.create.
  pose proof (save_with_key_leaves_invoice e (Payment.init e inv amt on method) d
                (Payment.uuid4 e) eq_refl) as H.
  destruct (Payment.save _ _ _) as [p d']. cbn [fst snd].
  destruct H as (H1 & H2 & _). now rewrite H1, H2.
Qed.

(** C1.  The first payment of 100 against the unpaid example invoice,
    created through the model: the payment row is inserted, and the
    invoice stays at [amount_paid] 0, in the instance and in its row. *)
Theorem first_payment_is_not_credited :
  let '(p, d') := Payment.create a_day billed_invoice 100 739001%Z "cash" books in
  Payment.payments books = []
  /\ Payment.payments d' = [p]
  /\ Payment.amount p == 100
  /\ Invoice.amount_paid billed_invoice == 0
  /\ Invoice.amount_paid (Payment.invoice p) == 0
  /\ Payment.invoices d' = [billed_invoice]
  /\ Invoice.status (Payment.invoice p) = "sent".
Proof. vm_compute. repeat split. Qed.

(** The same payment built with an explicit empty key is credited. *)
Lemma keyless_payment_is_credited :
  let '(p, d') :=
    Payment.save a_day (Payment.init_without_id billed_invoice 100 739001%Z "cash") books in
  Invoice.amount_paid (Payment.invoice p) == 100
  /\ Invoice.status (Payment.invoice p) = "partial"
  /\ Payment.invoices d' = [Payment.invoice p].
Proof. vm_compute. repeat split. Qed.

(* ------------------------------------------------------------------ *)
(** ** Lead conversion *)

Section lead_conversion.
Import Lead.

Variables (uuid4 : UUID) (now : datetime) (user : option Z).

Lemma convert_refuses_converted (self : Lead.t) (d : Lead.db) :
  status self = "converted" ->
  convert_to_customer uuid4 now user self d
  = (Raise (ValueError "Lead is already converted"), (self, d)).
Proof. intros H. unfold convert_to_customer. now rewrite H. Qed.

(** C5.  Converting a lead whose status is not 'converted' adds exactly
    one customer row, whose name, contact, company and address columns are
    the lead's; the lead gets the status 'converted', the link to that
    customer and the conversion date, and its row is written.  Converting
    a lead that is already 'converted' raises [ValueError], adds no
    customer and leaves the lead and the database as they were. *)
Theorem convert_to_customer_once (self : Lead.t) (d : Lead.db) :
  (status self <> "converted" ->
   exists customer self' d',
     convert_to_customer uuid4 now user self d = (Ok customer, (self', d'))
     /\ customers d' = (customers d ++ [customer])%list
     /\ (Customer.first_name customer = first_name self
         /\ Customer.last_name customer = last_name self)
     /\ (Customer.email customer = email self
         /\ Customer.phone customer = phone self
         /\ Customer.secondary_phone customer = secondary_phone self)
     /\ (Customer.company_name customer = company_name self
         /\ Customer.job_title customer = job_title self
         /\ Customer.industry customer = industry self)
     /\ (Customer.billing_address customer = address self
         /\ Customer.billing_city customer = city self
         /\ Customer.billing_state customer = state self
         /\ Customer.billing_country customer = country self
         /\ Customer.billing_postal_code customer = postal_code self)
     /\ self' = mark_converted (Customer.id customer) now self
     /\ status self' = "converted"
     /\ converted_to_customer self' = Some (Customer.id customer)
     /\ converted_date self' = Some now
     /\ In self' (leads d'))
  /\ (status self = "converted" ->
      convert_to_customer uuid4 now user self d
      = (Raise (ValueError "Lead is already converted"), (self, d))).
Proof.
  split; [|apply convert_refuses_converted].
  intros Hs. apply String.eqb_neq in Hs.
  unfold convert_to_customer. rewrite Hs.
  unfold Customer.save_new. cbn [Customer.customer_code str_truthy negb].
  eexists _, _, _. split; [reflexivity|].
  cbn [customers leads]. repeat split; try reflexivity.
  unfold save. apply upsert_In.
Qed.
End lead_conversion.

(** Converting the example lead, then converting the converted lead
    again: one customer, then the refusal. *)
Lemma convert_to_customer_once_witness :
  exists customer lead' d',
    Lead.convert_to_customer 21%N 3000 (Some 7%Z) a_lead a_pipeline
      = (Ok customer, (lead', d'))
    /\ Lead.customers d' = [customer]
    /\ Customer.customer_code customer = "CUST-00001"
    /\ Lead.leads d' = [lead']
    /\ Lead.convert_to_customer 22%N 3001 (Some 7%Z) lead' d'
       = (Raise (ValueError "Lead is already converted"), (lead', d')).
Proof.
  destruct (convert_to_customer_once 21%N 3000 (Some 7%Z) a_lead a_pipeline)
    as (Hfirst & _).
  destruct Hfirst as (customer & lead' & d' & Hrun & Hc & _ & _ & _ & _ & Hl & Hst & _).
  { discriminate. }
  exists customer, lead', d'. split; [exact Hrun|].
  injection Hrun as <- <- <-.
  split; [reflexivity|]. split; [reflexivity|]. split; [reflexivity|].
  destruct (convert_to_customer_once 22%N 3001 (Some 7%Z)
             (Lead.mark_converted 21%N 3000 a_lead)
             {| Lead.customers := Lead.customers
                  (snd (snd (Lead.convert_to_customer 21%N 3000 (Some 7%Z) a_lead a_pipeline)));
                Lead.leads := Lead.leads
                  (snd (snd (Lead.convert_to_customer 21%N 3000 (Some 7%Z) a_lead a_pipeline))) |})
    as (_ & Hsecond).
  exact (Hsecond eq_refl).
Defined.

(* ------------------------------------------------------------------ *)
(** ** Quotation to invoice *)





(** Rounding to two places: within half a cent, and nothing to do on a
    value of two places. *)
Lemma round_half_away_close (x : Q) :
  Qabs (inject_Z (round_half_away x) - x) <= 1 # 2.
Proof.
  unfold round_half_away. apply Qabs_Qle_condition.
  destruct (Qle_bool 0 x).
  - pose proof (Qfloor_le (x + (1 # 2))) as Hl.
    pose proof (Qlt_floor (x + (1 # 2))) as Hu.
    rewrite inject_Z_plus in Hu. change (inject_Z 1) with 1 in Hu.
    set (z := inject_Z (Qfloor (x + (1 # 2)))) in *. split; lra.
  - pose proof (Qle_ceiling (x - (1 # 2))) as Hl.
    pose proof (Qceiling_lt (x - (1 # 2))) as Hu.
    unfold Z.sub in Hu. rewrite inject_Z_plus in Hu.
    change (inject_Z (- (1))) with (-(1)) in Hu.
    set (z := inject_Z (Qceiling (x - (1 # 2)))) in *. split; lra.
Qed.

Lemma decimal_places_2_close (x : Q) :
  Qabs (decimal_places_2 x - x) <= 1 # 200.
Proof.
  pose proof (round_half_away_close (x * 100)) as H.
  apply Qabs_Qle_condition in H. apply Qabs_Qle_condition.
  assert (E : decimal_places_2 x == inject_Z (round_half_away (x * 100)) / 100).
  { unfold decimal_places_2. rewrite (Qmake_Qdiv _ 100). reflexivity. }
  rewrite E. set (z := inject_Z (round_half_away (x * 100))) in *.
  assert (T : z / 100 - x == (z - x * 100) * (1 # 100)) by field.
  rewrite T. split; lra.
Qed.

Lemma round_half_away_inject_Z (z : Z) : round_half_away (inject_Z z) = z.
Proof.
  unfold round_half_away. destruct (Qle_bool 0 (inject_Z z)).
  - unfold Qfloor, inject_Z, Qplus. cbn [Qnum Qden].
    change (Z.pos (1 * 2)) with 2%Z. change (Z.pos 1) with 1%Z.
    symmetry. apply Z.div_unique with (r := 1%Z); lia.
  - unfold Qceiling, Qfloor, inject_Z, Qminus, Qplus, Qopp. cbn [Qnum Qden].
    change (Z.pos (1 * 2)) with 2%Z. change (Z.pos 1) with 1%Z.
    assert (E : (- (z * 2 + - (1) * 1) / 2 = - z)%Z).
    { symmetry. apply Z.div_unique with (r := 1%Z); lia. }
    rewrite E. lia.
Qed.

Lemma round_half_away_compat (x y : Q) :
  x == y -> round_half_away x = round_half_away y.
Proof.
  intros E. unfold round_half_away.
  assert (B : Qle_bool 0 x = Qle_bool 0 y).
  { destruct (Qle_bool 0 x) eqn:Ex, (Qle_bool 0 y) eqn:Ey; try reflexivity.
    - apply Qle_bool_iff in Ex. rewrite E in Ex. apply Qle_bool_iff in Ex. congruence.
    - apply Qle_bool_iff in Ey. rewrite <- E in Ey. apply Qle_bool_iff in Ey. congruence. }
  rewrite B. destruct (Qle_bool 0 y).
  - apply Qfloor_comp. now rewrite E.
  - apply Qceiling_comp. now rewrite E.
Qed.

Lemma decimal_places_2_two_places (x : Q) : two_places (decimal_places_2 x).
Proof.
  unfold two_places. unfold decimal_places_2 at 1.
  set (z := round_half_away (x * 100)). 
  assert (E : decimal_places_2 x * 100 == inject_Z z).
  { unfold decimal_places_2. fold z. unfold Qeq, Qmult, inject_Z. cbn [Qnum Qden]. lia. }
  rewrite (round_half_away_compat _ _ E), round_half_away_inject_Z. reflexivity.
Qed.

Lemma decimal_places_2_kept (x : Q) : kept_as x (decimal_places_2 x).
Proof. split; [apply decimal_places_2_two_places | apply decimal_places_2_close]. Qed.









Lemma upsert_last {A K} (eqb : K -> K -> bool) (pk : A -> K) (r row : A) (rows : list A) :
  has_pk eqb pk (pk row) rows = false ->
  eqb (pk r) (pk row) = true ->
  upsert eqb pk row (rows ++ [r]) = (rows ++ [row])%list.
Proof.
  unfold has_pk. intros Hrows Hr.
  induction rows as [|x rows IH]; cbn in *.
  - now rewrite Hr.
  - apply orb_false_iff in Hrows as [H1 H2]. rewrite H1. f_equal. now apply IH.
Qed.

Lemma invoice_first_save now (inv : Invoice.t) (rows : list Invoice.t) :
  Invoice.invoice_number inv = "" ->
  has_pk N.eqb Invoice.id (Invoice.id inv) rows = false ->
  let inv1 :=
    Invoice.set_created_at now
      (Invoice.set_invoice_number (Invoice.next_invoice_number rows) inv) in
  Invoice.save now inv rows = (inv1, (rows ++ [inv1])%list).
Proof.
  intros Hn Hf. unfold Invoice.save. rewrite Hn. cbn [str_truthy negb].
  change (Invoice.id (Invoice.set_invoice_number _ inv)) with (Invoice.id inv).
  rewrite Hf. cbn zeta. f_equal. now apply upsert_new.
Qed.




Section conversion.
Import Quotation.
Variables (uuid4 : UUID) (now : datetime) (today : date).

End conversion.



(** The lines are re-read at two places: the line of 1 x 0.33 at 18% is
    copied with the total 0.39, and 0.39 is the invoice's subtotal. *)
Lemma copied_amounts_are_rounded :
  exists invoice d',
    Quotation.convert_to_invoice 31%N 4000 739001%Z an_accepted_quotation a_small_db
    = (Ok invoice, d')
    /\ line_total a_small_line == 0.3894
    /\ Forall (fun c => InvoiceItem.total c == 0.39) (Quotation.invoice_items d')
    /\ length (Quotation.invoice_items d') = 1%nat
    /\ Invoice.subtotal invoice == 0.39.
Proof.
  eexists _, _. split; [vm_compute; reflexivity|].
  split; [vm_compute; reflexivity|]. split; [repeat constructor|].
  split; vm_compute; reflexivity.
Qed.

(** The quotation as its builder holds it does not convert: the int of
    the default, divided by [100], is a float.  [TypeError] is raised
    after the invoice row and its line were written, and they stay. *)
Lemma built_quotation_ends_in_TypeError :
  Quotation.status a_built_quotation = "accepted"
  /\ exists d',
      Quotation.convert_to_invoice 31%N 4000 739001%Z a_built_quotation a_quotation_db
      = (Raise (TypeError
                  "unsupported operand type(s) for *: 'decimal.Decimal' and 'float'"), d')
      /\ length (Quotation.invoices d') = 1%nat
      /\ length (Quotation.invoice_items d') = 1%nat.
Proof.
  split; [reflexivity|]. eexists. split; [vm_compute; reflexivity|].
  split; reflexivity.
Qed.

(* ================================================================== *)
(** * Further properties *)

(** ** Rate limiting, in general *)

Section rate_limit_general.
Import RateLimitMiddleware.

Lemma rates_positive p max_requests window :
  find_rate p = Some (max_requests, window) -> (1 <= max_requests)%Z /\ 0 < window.
Proof.
  unfold find_rate, rates. cbn [List.find fst snd].
  repeat (destruct (startswith p _); [intros [= <- <-]; split; [lia|reflexivity]|]).
  discriminate.
Qed.

Lemma in_window_in_window now now' window l :
  now' <= now ->
  in_window now window (in_window now' window l) = in_window now window l.
Proof.
  intros Hle. unfold in_window. induction l as [|ts l IH]; [reflexivity|].
  cbn. destruct (Qlt_bool (now' - ts) window) eqn:E'; cbn.
  - destruct (Qlt_bool (now - ts) window); now rewrite IH.
  - rewrite IH. destruct (Qlt_bool (now - ts) window) eqn:E; [|reflexivity].
    apply Qlt_bool_iff in E. apply Qlt_bool_false_iff in E'. lra.
Qed.

Lemma in_window_app now window l l' :
  in_window now window (l ++ l') = (in_window now window l ++ in_window now window l')%list.
Proof. unfold in_window. apply List.filter_app. Qed.

Lemma in_window_self now window : 0 < window -> in_window now window [now] = [now].
Proof.
  intros H. unfold in_window. cbn.
  assert (E : Qlt_bool (now - now) window = true) by (apply Qlt_bool_iff; lra).
  now rewrite E.
Qed.

(** The answer to a request after a run, read off the timestamps let
    through so far ([acc] holds those let through before the run). *)
Lemma answer_after_run request max_requests window :
  find_rate (strip "/" (path request)) = Some (max_requests, window) ->
  forall times cache last acc,
    non_decreasing (last :: times) ->
    entries cache (cache_key request) = in_window last window acc ->
    forall t pre post,
      times = (pre ++ t :: post)%list ->
      fst (process_request t request (snd (serve request pre cache)))
      = if (max_requests
            <=? Z.of_nat (length (in_window t window (acc ++ let_through request pre cache))))%Z
        then Some Forbidden else None.
Proof.
  intros Hrate. destruct (rates_positive _ _ _ Hrate) as [Hmax Hwin].
  induction times as [|t0 times IH]; intros cache last acc Hmono Hent t pre post Hsplit.
  { now destruct pre. }
  destruct Hmono as [Hlast [Hfirst Hrest]].
  destruct pre as [|t1 pre].
  - injection Hsplit as E1 E2. subst t0 times. cbn [serve snd let_through]. rewrite app_nil_r.
    rewrite (process_request_spec _ _ _ _ _ Hrate). cbn zeta.
    rewrite Hent, in_window_in_window by (inversion Hlast; assumption).
    now destruct (_ <=? _)%Z.
  - injection Hsplit as E1 E2. subst t0 times.
    assert (Hlt : last <= t1) by (inversion Hlast; assumption).
    cbn [serve let_through].
    rewrite (process_request_spec t1 request cache _ _ Hrate). cbn zeta.
    rewrite Hent, in_window_in_window by exact Hlt.
    destruct (_ <=? _)%Z eqn:E.
    + destruct (serve request pre _) as [rs c2] eqn:Es. cbn [snd].
      assert (Hc2 : c2 = snd (serve request pre
                (<[cache_key request := in_window t1 window acc]> cache)))
        by now rewrite Es.
      rewrite Hc2.
      apply (IH _ t1 acc (conj Hfirst Hrest) (entries_insert _ _ _) t pre post eq_refl).
    + destruct (serve request pre _) as [rs c2] eqn:Es. cbn [snd].
      assert (Hc2 : c2 = snd (serve request pre
                (<[cache_key request := (in_window t1 window acc ++ [t1])%list]> cache)))
        by now rewrite Es.
      rewrite Hc2.
      replace (acc ++ t1 :: let_through request pre
                 (<[cache_key request := (in_window t1 window acc ++ [t1])%list]> cache))%list
        with ((acc ++ [t1]) ++ let_through request pre
                 (<[cache_key request := (in_window t1 window acc ++ [t1])%list]> cache))%list
        by now rewrite <- app_assoc.
      refine (IH _ t1 (acc ++ [t1])%list (conj Hfirst Hrest) _ t pre post eq_refl).
      rewrite entries_insert, in_window_app, in_window_self by exact Hwin. reflexivity.
Qed.

(** X1.  The limiter decides by the requests it let through.  Let the same
    request reach one middleware instance at times that never run
    backwards, starting with nothing recorded for its key.  It is let
    through exactly when fewer than [max_requests] of the requests let
    through before it lie less than [window] seconds back, and answered
    Forbidden otherwise: no window of that length ever holds more than
    [max_requests] requests that were let through, and none is refused while the
    window has room. *)
Theorem rate_limit_counts_accepted (request : HttpRequest) (cache : gmap string (list Q))
    (max_requests : Z) (window : Q) (pre post : list Q) (t : Q) :
  find_rate (strip "/" (path request)) = Some (max_requests, window) ->
  cache !! cache_key request = None ->
  non_decreasing (pre ++ t :: post) ->
  let recent := in_window t window (let_through request pre cache) in
  let answer := fst (process_request t request (snd (serve request pre cache))) in
  (answer = None <-> (Z.of_nat (length recent) < max_requests)%Z)
  /\ (answer = Some Forbidden <-> (max_requests <= Z.of_nat (length recent))%Z).
Proof.
  intros Hrate Hfresh Hmono recent answer.
  assert (E : answer = if (max_requests <=? Z.of_nat (length recent))%Z
                       then Some Forbidden else None).
  { subst answer recent. destruct pre as [|t0 pre].
    - cbn [serve snd let_through]. rewrite (process_request_spec _ _ _ _ _ Hrate).
      cbn zeta. unfold entries. rewrite Hfresh. cbn.
      now destruct (_ <=? _)%Z.
    - change (let_through request (t0 :: pre) cache)
        with ([] ++ let_through request (t0 :: pre) cache)%list.
      refine (answer_after_run request max_requests window Hrate
                ((t0 :: pre) ++ t :: post)%list cache t0 [] _ _ t (t0 :: pre) post
                eq_refl).
      + cbn. split; [|exact Hmono]. constructor; [lra|]. now destruct Hmono.
      + unfold entries. now rewrite Hfresh. }
  rewrite E. destruct (_ <=? _)%Z eqn:L.
  - apply Z.leb_le in L. split; split; try discriminate; try lia; auto.
  - apply Z.leb_gt in L. split; split; try discriminate; try lia; auto.
Qed.
End rate_limit_general.

Lemma rate_limit_counts_accepted_witness :
  fst (RateLimitMiddleware.process_request 299 a_login_attempt
         (snd (serve a_login_attempt [0; 10; 20; 30; 40] ∅)))
  = Some Forbidden
  /\ fst (RateLimitMiddleware.process_request 305 a_login_attempt
            (snd (serve a_login_attempt [0; 10; 20; 30; 40; 299] ∅)))
     = None.
Proof.
  split.
  - apply (rate_limit_counts_accepted a_login_attempt ∅ 5%Z 300 [0; 10; 20; 30; 40] [] 299).
    + reflexivity.
    + vm_compute. reflexivity.
    + cbn. repeat split; repeat constructor; lra.
    + vm_compute. discriminate.
  - apply (rate_limit_counts_accepted a_login_attempt ∅ 5%Z 300
             [0; 10; 20; 30; 40; 299] [] 305).
    + reflexivity.
    + vm_compute. reflexivity.
    + cbn. repeat split; repeat constructor; lra.
    + vm_compute. reflexivity.
Defined.

(** ** Rate limiting: denials, paths without a rule, separate buckets *)

Lemma denial_records_nothing_witness :
  entries (snd (RateLimitMiddleware.process_request 299 a_login_attempt
                  (snd (serve a_login_attempt [0; 10; 20; 30; 40] ∅))))
          (cache_key a_login_attempt)
  = [0; 10; 20; 30; 40].
Proof.
  refine (proj1 (proj2 (denial_records_nothing 299 a_login_attempt
            (snd (serve a_login_attempt [0; 10; 20; 30; 40] ∅)) 5%Z 300 Forbidden
            (snd (RateLimitMiddleware.process_request 299 a_login_attempt
                    (snd (serve a_login_attempt [0; 10; 20; 30; 40] ∅))))
            eq_refl _))).
  vm_compute. reflexivity.
Defined.

Lemma prefix_trans (a b s : string) :
  String.prefix a b = true -> String.prefix b s = true -> String.prefix a s = true.
Proof.
  revert b s. induction a as [|x a IH]; intros b s Hab Hbs; [now destruct s|].
  destruct b as [|y b]; [discriminate|]. destruct s as [|z s]; [discriminate|].
  cbn in *.
  destruct (Ascii.ascii_dec x y) as [->|]; [|discriminate].
  destruct (Ascii.ascii_dec y z) as [->|]; [|discriminate].
  destruct (Ascii.ascii_dec z z); [|contradiction]. eauto.
Qed.

(** X3.  A request whose path, without its outer slashes, does not start
    with [api/] meets no rule: it is let through and the cache is left as
    it was, whatever it holds. *)
Theorem paths_outside_api_are_not_limited
    (now : Q) (request : HttpRequest) (cache : gmap string (list Q)) :
  startswith (RateLimitMiddleware.strip "/" (path request)) "api/" = false ->
  RateLimitMiddleware.process_request now request cache = (None, cache).
Proof.
  intros H. unfold RateLimitMiddleware.process_request.
  assert (E : RateLimitMiddleware.find_rate
                (RateLimitMiddleware.strip "/" (path request)) = None).
  { unfold RateLimitMiddleware.find_rate, RateLimitMiddleware.rates.
    cbn [List.find fst snd].
    repeat match goal with
    | |- context [startswith ?p ?pat] =>
      destruct (startswith p pat) eqn:?E';
      [ exfalso; unfold startswith in *;
        assert (String.prefix "api/" (RateLimitMiddleware.strip "/" (path request)) = true)
          by (eapply prefix_trans; [|eassumption]; reflexivity);
        congruence | ]
    end.
    reflexivity. }
  now rewrite E.
Qed.

Lemma paths_outside_api_are_not_limited_witness :
  RateLimitMiddleware.process_request 5 a_page_view ∅ = (None, ∅).
Proof. apply (paths_outside_api_are_not_limited 5 a_page_view ∅). reflexivity. Defined.

(** X4.  Buckets are separate: the limiter counts per pair of path and
    client.  Serving one request, let through or not, never changes the
    answer that a request with another cache key gets (another path, for
    instance [/api/leads/1/] against [/api/leads/2/], or another
    client). *)
Theorem other_keys_are_not_counted
    (t t' : Q) (a b : HttpRequest) (cache : gmap string (list Q)) :
  cache_key a <> cache_key b ->
  fst (RateLimitMiddleware.process_request t b
         (snd (RateLimitMiddleware.process_request t' a cache)))
  = fst (RateLimitMiddleware.process_request t b cache).
Proof.
  intros Hk.
  assert (Hframe : snd (RateLimitMiddleware.process_request t' a cache) !! cache_key b
                   = cache !! cache_key b).
  { unfold RateLimitMiddleware.process_request.
    destruct (RateLimitMiddleware.find_rate _) as [[m w]|]; [|reflexivity].
    fold (cache_key a).
    destruct (cache !! cache_key a); destruct (_ <=? _)%Z; cbn [snd];
      now rewrite ?lookup_insert_ne by exact Hk. }
  destruct (RateLimitMiddleware.find_rate (RateLimitMiddleware.strip "/" (path b)))
    as [[m w]|] eqn:Hrate.
  - rewrite !(process_request_spec t b _ m w Hrate). cbn zeta.
    unfold entries. rewrite Hframe. now destruct (_ <=? _)%Z.
  - unfold RateLimitMiddleware.process_request. now rewrite Hrate.
Qed.

Lemma other_keys_are_not_counted_witness :
  fst (RateLimitMiddleware.process_request 7 an_api_call
         (snd (RateLimitMiddleware.process_request 3 a_login_attempt ∅)))
  = fst (RateLimitMiddleware.process_request 7 an_api_call ∅).
Proof.
  apply (other_keys_are_not_counted 7 3 a_login_attempt an_api_call ∅).
  vm_compute. discriminate.
Defined.

(** ** The admin allow-list *)

Lemma split_never_empty (c : ascii) (s : string) :
  IPWhitelistMiddleware.list_truthy (split c s) = true.
Proof.
  destruct s as [|a s]; [reflexivity|]. cbn.
  destruct (Ascii.eqb a c); [reflexivity|]. now destruct (split c s).
Qed.

(** X5.  A list read from the setting is never empty (an unset setting
    gives the list of one empty string), so the empty-list bypass never
    applies to it: with the feature on, a request under [/admin/] passes
    exactly when its client IP is an entry of the configured list, and a
    request with no client IP at all is refused.  Outside [/admin/], and
    with the feature off, every request passes. *)
Theorem allow_list_from_setting (configured : string) (request : HttpRequest) :
  (startswith (path request) "/admin/" = true ->
   (IPWhitelistMiddleware.process_request (allow_list_of configured true) request = None
    <-> exists ip, IPWhitelistMiddleware.client_ip request = Some ip
                   /\ In ip (split "," configured)))
  /\ (startswith (path request) "/admin/" = false ->
      forall enabled,
      IPWhitelistMiddleware.process_request (allow_list_of configured enabled) request = None)
  /\ IPWhitelistMiddleware.process_request (allow_list_of configured false) request = None.
Proof.
  unfold IPWhitelistMiddleware.process_request, allow_list_of,
    IPWhitelistMiddleware.ADMIN_IP_WHITELIST.
  cbn [IPWhitelistMiddleware.whitelist IPWhitelistMiddleware.whitelist_enabled].
  rewrite split_never_empty. cbn [negb orb]. repeat split.
  - rewrite H. cbn [negb].
    destruct (IPWhitelistMiddleware.client_ip request) as [ip|]; cbn; [|discriminate].
    destruct (str_in ip (split "," configured)) eqn:E; [|discriminate].
    intros _. exists ip. split; [reflexivity|].
    unfold str_in in E. apply existsb_exists in E as (x & Hx & Hxe).
    apply String.eqb_eq in Hxe. now subst.
  - rewrite H. cbn [negb]. intros (ip & -> & Hin). cbn.
    assert (E : str_in ip (split "," configured) = true).
    { unfold str_in. apply existsb_exists. exists ip. split; [exact Hin|].
      apply String.eqb_refl. }
    now rewrite E.
  - intros -> enabled. reflexivity.
  - now destruct (negb (startswith (path request) "/admin/")).
Qed.

Lemma allow_list_from_setting_witness :
  IPWhitelistMiddleware.process_request (allow_list_of "192.0.2.44,192.0.2.45" true)
    an_admin_visit = None
  /\ IPWhitelistMiddleware.process_request (allow_list_of "" true) an_admin_visit
     <> None.
Proof.
  split.
  - destruct (allow_list_from_setting "192.0.2.44,192.0.2.45" an_admin_visit) as (H & _).
    apply (H eq_refl). exists "192.0.2.44". split; [reflexivity|]. now left.
  - destruct (allow_list_from_setting "" an_admin_visit) as (H & _).
    intros Hn. apply (H eq_refl) in Hn as (ip & [= <-] & [Hin|[]]). discriminate Hin.
Defined.

(** ** Tenants: the first save, cancelling, storage *)

(** X6.  [Tenant.save] gives a tenant that is inserted without a trial end
    date the date [TRIAL_DAYS] days after the save.  From then on the two
    trial properties answer for it at every time, never both true, and
    while the status is 'trial' exactly one of them holds.  A later save,
    at whatever time, leaves the row as the first save wrote it: the
    trial end date is set once. *)
Theorem save_sets_trial_end_once
    (TRIAL_DAYS : Z) (now later : datetime) (next_pk k : Z) (self : TenantInstance.t) :
  TenantInstance.pk self = None ->
  Tenant.trial_end_date (TenantInstance.row self) = None ->
  let saved := TenantInstance.save TRIAL_DAYS now next_pk self in
  Tenant.trial_end_date (TenantInstance.row saved)
  = Some (now + inject_Z (TRIAL_DAYS * 86400))
  /\ (forall t, exists on_trial expired,
        Tenant.is_on_trial t (TenantInstance.row saved) = Ok on_trial
        /\ Tenant.is_trial_expired t (TenantInstance.row saved) = Ok expired
        /\ xorb on_trial expired
           = String.eqb (Tenant.subscription_status (TenantInstance.row self)) "trial")
  /\ TenantInstance.save TRIAL_DAYS later k saved = saved.
Proof.
  intros Hpk Hend saved.
  assert (Hrow : TenantInstance.row saved
    = Tenant_assign
        (if negb (str_truthy (Tenant.schema_name (TenantInstance.row self)))
         then TenantInstance.replace "-" "_" (TenantInstance.slug self)
         else Tenant.schema_name (TenantInstance.row self))
        (Tenant.subscription_status (TenantInstance.row self))
        (Some (now + TenantInstance.days TRIAL_DAYS))
        (Tenant.current_users (TenantInstance.row self))
        (Tenant.current_leads (TenantInstance.row self))
        (Tenant.current_storage_mb (TenantInstance.row self))
        (TenantInstance.row self)).
  { subst saved. unfold TenantInstance.save. rewrite Hpk.
    destruct (negb (str_truthy _)); cbn; rewrite Hend; reflexivity. }
  split; [now rewrite Hrow|]. split.
  - intros t. rewrite Hrow. unfold Tenant.is_on_trial, Tenant.is_trial_expired.
    cbn [Tenant_assign Tenant.subscription_status Tenant.trial_end_date].
    destruct (String.eqb _ "trial"); cbn.
    + eexists _, _. split; [reflexivity|]. split; [reflexivity|].
      set (e := now + TenantInstance.days TRIAL_DAYS).
      destruct (Qlt_bool t e) eqn:E1, (Qle_bool e t) eqn:E2; try reflexivity; exfalso.
      * apply Qlt_bool_iff in E1. apply Qle_bool_iff in E2. lra.
      * apply Qlt_bool_false_iff in E1.
        assert (H : ~ e <= t) by (rewrite <- Qle_bool_iff, E2; discriminate). lra.
    + now exists false, false.
  - assert (Hs : saved = {| TenantInstance.pk := Some next_pk;
                            TenantInstance.slug := TenantInstance.slug self;
                            TenantInstance.row := TenantInstance.row saved |}).
    { subst saved. unfold TenantInstance.save. now rewrite Hpk. }
    remember (TenantInstance.row saved) as r eqn:Hr. rewrite Hs.
    unfold TenantInstance.save.
    cbn [TenantInstance.pk TenantInstance.slug TenantInstance.row]. f_equal.
    rewrite Hrow. cbn [Tenant_assign Tenant.schema_name].
    destruct (str_truthy (Tenant.schema_name (TenantInstance.row self))) eqn:E; cbn [negb].
    + rewrite E. cbn. now rewrite andb_false_r.
    + destruct (str_truthy (TenantInstance.replace "-" "_" (TenantInstance.slug self))) eqn:E';
        cbn; now rewrite andb_false_r.
Qed.

Lemma save_sets_trial_end_once_witness :
  Tenant.trial_end_date (TenantInstance.row (TenantInstance.save 14 1000 3 a_new_tenant))
  = Some (1000 + inject_Z (14 * 86400)).
Proof.
  exact (proj1 (save_sets_trial_end_once 14 1000 2000 3 3 a_new_tenant eq_refl eq_refl)).
Defined.

(** X7.  After [Subscription.cancel] the subscription is not active and
    its tenant is 'cancelled'.  The subscription middleware then lets no
    request of that tenant through outside the exempt paths and the
    public schema, and answers none either: it hands the request to
    [_handle_cancelled_subscription], which ends in the [AttributeError]
    of [request.is_ajax()] before it builds its 403 or its redirect.  It
    does so without reading the trial dates, so also for a tenant without
    a trial end date.  A request to an exempt path still passes. *)
Theorem cancelled_subscription_blocks
    (public_schema : string) (TRIAL_DAYS : Z) (now later at_request : datetime) (next_pk : Z)
    (sub : Subscription.t) (request : HttpRequest) :
  let cancelled := Subscription.cancel TRIAL_DAYS now later next_pk sub in
  tenant request = Some (TenantInstance.row (Subscription.tenant cancelled)) ->
  String.eqb (Tenant.schema_name (TenantInstance.row (Subscription.tenant cancelled)))
             public_schema = false ->
  Subscription.is_active at_request cancelled = false
  /\ Tenant.subscription_status (TenantInstance.row (Subscription.tenant cancelled))
     = "cancelled"
  /\ (existsb (startswith (path request)) SubscriptionMiddleware.EXEMPT_URLS = false ->
      SubscriptionMiddleware.process_request public_schema at_request request
      = Raise (AttributeError "'WSGIRequest' object has no attribute 'is_ajax'"))
  /\ (existsb (startswith (path request)) SubscriptionMiddleware.EXEMPT_URLS = true ->
      SubscriptionMiddleware.process_request public_schema at_request request = Ok ([], None)).
Proof.
  intros cancelled Ht Hs. split; [reflexivity|].
  assert (Hst : Tenant.subscription_status
                  (TenantInstance.row (Subscription.tenant cancelled)) = "cancelled").
  { subst cancelled. unfold Subscription.cancel, TenantInstance.save.
    cbn [Subscription.tenant TenantInstance.row TenantInstance.pk TenantInstance.slug].
    repeat match goal with |- context [if ?c then _ else _] => destruct c end;
      reflexivity. }
  split; [exact Hst|].
  unfold SubscriptionMiddleware.process_request. rewrite Ht, Hs, Hst.
  split; intros ->; reflexivity.
Qed.

Lemma cancelled_subscription_blocks_witness :
  SubscriptionMiddleware.process_request "public" 100
    (request_of
       (TenantInstance.row (Subscription.tenant (Subscription.cancel 14 50 51 9 a_subscription)))
       "GET" "/sales/leads/" [])
  = Raise (AttributeError "'WSGIRequest' object has no attribute 'is_ajax'").
Proof.
  destruct (cancelled_subscription_blocks "public" 14 50 51 100 9 a_subscription
              (request_of
                 (TenantInstance.row
                    (Subscription.tenant (Subscription.cancel 14 50 51 9 a_subscription)))
                 "GET" "/sales/leads/" []) eq_refl eq_refl) as (_ & _ & H & _).
  exact (H eq_refl).
Defined.

(** ** Storage *)

Lemma fold_left_Zadd_nonneg (l : list Z) (a : Z) :
  (0 <= a)%Z -> Forall (fun z => (0 <= z)%Z) l -> (0 <= fold_left Z.add l a)%Z.
Proof.
  revert a. induction l as [|z l IH]; intros a Ha Hl; [exact Ha|].
  inversion Hl; subst. cbn. apply IH; [lia|assumption].
Qed.

Lemma upload_size_nonneg (request : HttpRequest) :
  sizes_non_negative request ->
  0 <= inject_Z (fold_left Z.add (map snd (FILES request)) 0%Z) / inject_Z (1024 * 1024).
Proof.
  intros H. apply Qle_shift_div_l; [reflexivity|]. rewrite Qmult_0_l.
  change 0 with (inject_Z 0). rewrite <- Zle_Qle.
  apply fold_left_Zadd_nonneg; [lia|]. now apply Forall_map.
Qed.

(** X8.  The marker -1 means 'no limit' for users and leads, but not for
    storage: the upload check compares the usage with [max_storage_mb] as
    a number.  For a tenant whose [max_storage_mb] is -1 (and whose
    recorded usage is not negative) every POST carrying a 'file' or an
    'attachment' upload that passes the user and lead checks is taken as
    over the storage limit, whatever the size of the upload: the check
    calls [_handle_limit_exceeded] with the limit '-1MB', and the request
    ends in the [AttributeError] that this handler raises instead of
    going through. *)
Theorem storage_marker_is_a_limit (request : HttpRequest) (t : Tenant.t) :
  Tenant.max_storage_mb t = (-1)%Z ->
  0 <= Tenant.current_storage_mb t ->
  sizes_non_negative request ->
  has_upload request = true ->
  SubscriptionMiddleware.user_limit_block request t = None ->
  SubscriptionMiddleware.lead_limit_block request t = None ->
  SubscriptionMiddleware.storage_limit_block request t
  = Some (SubscriptionMiddleware._handle_limit_exceeded request "storage" (JStr "-1MB"))
  /\ SubscriptionMiddleware._check_resource_limits request t
     = Raise (AttributeError "'WSGIRequest' object has no attribute 'is_ajax'").
Proof.
  intros Hmax Hcur Hsizes Hup Hu Hl.
  assert (E : SubscriptionMiddleware.storage_limit_block request t
    = Some (SubscriptionMiddleware._handle_limit_exceeded request "storage" (JStr "-1MB"))).
  { unfold SubscriptionMiddleware.storage_limit_block. unfold has_upload in Hup.
    rewrite Hup, Hmax. cbn zeta.
    pose proof (upload_size_nonneg request Hsizes) as Hsz.
    match goal with |- context [Qlt_bool ?a ?b] =>
      assert (Hlt : Qlt_bool a b = true)
        by (apply Qlt_bool_iff; assert (inject_Z (-1) < 0) by reflexivity; lra)
    end.
    rewrite Hlt. reflexivity. }
  split; [exact E|].
  unfold SubscriptionMiddleware._check_resource_limits. rewrite Hu, Hl, E. reflexivity.
Qed.

Lemma storage_marker_is_a_limit_witness :
  SubscriptionMiddleware._check_resource_limits
    (request_of a_tenant_without_limits "POST" "/sales/deals/7/attachments/"
       [("attachment", 1%Z)])
    a_tenant_without_limits
  = Raise (AttributeError "'WSGIRequest' object has no attribute 'is_ajax'").
Proof.
  refine (proj2 (storage_marker_is_a_limit
            (request_of a_tenant_without_limits "POST" "/sales/deals/7/attachments/"
               [("attachment", 1%Z)])
            a_tenant_without_limits eq_refl _ _ eq_refl eq_refl eq_refl)).
  - vm_compute. discriminate.
  - repeat constructor. cbn. lia.
Defined.

(** X9.  What usage tracking may change.  [process_response] leaves the
    tenant's schema, status, plan, trial end date, limits and features as
    they were, and leaves the whole tenant as it was unless the request is
    a POST answered 200 or 201.  When no upload has a negative size the
    recorded storage never goes down.  An upload is added to the recorded
    storage only outside the user and lead paths: for a POST under
    [/accounts/users/], [/api/users/], [/sales/leads/] or [/api/leads/]
    the recorded storage stays as it was, whatever files the request
    carries. *)
Theorem usage_tracking_frame
    (public_schema : string) (users leads : Z) (request : HttpRequest)
    (status_code : Z) (t t' : Tenant.t) :
  tenant request = Some t ->
  UsageTrackingMiddleware.process_response public_schema users leads request status_code
  = Some t' ->
  (Tenant.schema_name t' = Tenant.schema_name t
   /\ Tenant.subscription_status t' = Tenant.subscription_status t
   /\ Tenant.subscription_plan t' = Tenant.subscription_plan t
   /\ Tenant.trial_end_date t' = Tenant.trial_end_date t
   /\ Tenant.max_users t' = Tenant.max_users t
   /\ Tenant.max_leads t' = Tenant.max_leads t
   /\ Tenant.max_storage_mb t' = Tenant.max_storage_mb t
   /\ Tenant.enabled_features t' = Tenant.enabled_features t)
  /\ (method request <> "POST" \/ (status_code <> 200 /\ status_code <> 201)%Z -> t' = t)
  /\ (sizes_non_negative request ->
      Tenant.current_storage_mb t <= Tenant.current_storage_mb t')
  /\ (startswith (path request) "/accounts/users/"
      || startswith (path request) "/api/users/"
      || startswith (path request) "/sales/leads/"
      || startswith (path request) "/api/leads/" = true ->
      Tenant.current_storage_mb t' = Tenant.current_storage_mb t).
Proof.
  intros Ht. unfold UsageTrackingMiddleware.process_response. rewrite Ht.
  destruct (String.eqb (Tenant.schema_name t) public_schema).
  { intros [= <-]. repeat split; try reflexivity. intros _. lra. }
  destruct (String.eqb (method request) "POST") eqn:Em; cbn [andb].
  2:{ intros [= <-]. repeat split; try reflexivity. intros _. lra. }
  apply String.eqb_eq in Em.
  destruct ((status_code =? 200)%Z || (status_code =? 201)%Z) eqn:Es.
  2:{ intros [= <-]. repeat split; try reflexivity. intros _. lra. }
  assert (Hnot : method request <> "POST" \/ (status_code <> 200 /\ status_code <> 201)%Z
                 -> False).
  { intros [H|[H1 H2]]; [congruence|].
    apply orb_true_iff in Es as [H|H]; apply Z.eqb_eq in H; congruence. }
  destruct (startswith (path request) "/accounts/users/"
            || startswith (path request) "/api/users/") eqn:Eu.
  { intros [= <-]. repeat split; try reflexivity; try (intros; exfalso; auto; fail).
    intros _. cbn. lra. }
  destruct (startswith (path request) "/sales/leads/"
            || startswith (path request) "/api/leads/") eqn:El.
  { intros [= <-]. repeat split; try reflexivity; try (intros; exfalso; auto; fail).
    intros _. cbn. lra. }
  cbn [orb]. rewrite El.
  destruct (dict_has (FILES request) "file" || dict_has (FILES request) "attachment").
  - intros [= <-]. repeat split; try reflexivity; try discriminate;
      try (intros; exfalso; auto; fail).
    intros Hs. cbn. pose proof (upload_size_nonneg request Hs). lra.
  - intros [= <-]. repeat split; try reflexivity; try discriminate. intros _. lra.
Qed.

Lemma usage_tracking_frame_witness :
  exists t',
    UsageTrackingMiddleware.process_response "public" 6 120
      (request_of full_tenant "POST" "/sales/leads/import/" [("file", 3145728%Z)]) 200
    = Some t'
    /\ Tenant.current_storage_mb t' = Tenant.current_storage_mb full_tenant.
Proof.
  eexists. split; [reflexivity|].
  refine (proj2 (proj2 (proj2 (usage_tracking_frame "public" 6 120
            (request_of full_tenant "POST" "/sales/leads/import/" [("file", 3145728%Z)])
            200 full_tenant _ eq_refl eq_refl))) eq_refl).
Defined.

(** ** Subscriptions *)

(** X10.  [days_until_renewal] is never negative.  For a subscription that
    is active at [now] it is the number of whole days left of the current
    period, rounded down; for any other it is 0. *)
Theorem days_until_renewal_whole_days (now : datetime) (self : Subscription.t) :
  (0 <= Subscription.days_until_renewal now self)%Z
  /\ (Subscription.is_active now self = true ->
      let d := Subscription.days_until_renewal now self in
      inject_Z d * 86400 <= Subscription.current_period_end self - now
      /\ Subscription.current_period_end self - now < inject_Z (d + 1) * 86400)
  /\ (Subscription.is_active now self = false ->
      Subscription.days_until_renewal now self = 0%Z).
Proof.
  unfold Subscription.days_until_renewal.
  destruct (Subscription.is_active now self) eqn:E.
  - assert (Hlt : now < Subscription.current_period_end self).
    { unfold Subscription.is_active in E. apply andb_true_iff in E as [_ E].
      now apply Qlt_bool_iff. }
    unfold Subscription.timedelta_days.
    set (x := (Subscription.current_period_end self - now) / 86400).
    assert (Hx : Subscription.current_period_end self - now == x * 86400)
      by (unfold x; field).
    repeat split.
    + change 0%Z with (Qfloor 0). apply Qfloor_resp_le.
      unfold x. apply Qle_shift_div_l; [reflexivity|]. lra.
    + pose proof (Qfloor_le x). lra.
    + pose proof (Qlt_floor x). lra.
    + discriminate.
  - repeat split; try lia; try discriminate.
Qed.

Lemma days_until_renewal_whole_days_witness :
  inject_Z (Subscription.days_until_renewal 100 a_subscription) * 86400
  <= Subscription.current_period_end a_subscription - 100.
Proof.
  destruct (days_until_renewal_whole_days 100 a_subscription) as (_ & H & _).
  exact (proj1 (H eq_refl)).
Defined.

(** ** Document numbers *)

Section numbering.
Import Decimal.

Lemma all_digits_string_of_uint (u : uint) :
  all_digits (NilEmpty.string_of_uint u) = true.
Proof. induction u; cbn; auto. Qed.

Lemma append_String (a : ascii) (s s' : string) : String a s ++ s' = String a (s ++ s').
Proof. reflexivity. Qed.

Lemma append_empty (s : string) : "" ++ s = s.
Proof. reflexivity. Qed.

Lemma all_digits_app (s s' : string) :
  all_digits (s ++ s') = all_digits s && all_digits s'.
Proof.
  induction s as [|a s IH]; [reflexivity|].
  rewrite append_String. cbn [all_digits]. now rewrite IH, andb_assoc.
Qed.

Lemma all_digits_zeros (k : nat) : all_digits (zeros k) = true.
Proof. induction k; cbn; auto. Qed.

Lemma uint_of_zeros (k : nat) (s : string) (u : uint) :
  NilEmpty.uint_of_string s = Some u ->
  exists u', NilEmpty.uint_of_string (zeros k ++ s) = Some u'
             /\ Pos.of_uint u' = Pos.of_uint u.
Proof.
  intros H. induction k as [|k (u' & Hu' & E)]; [now exists u|].
  exists (D0 u'). cbn [zeros]. rewrite append_String. cbn. rewrite Hu'.
  split; [reflexivity|exact E].
Qed.

Lemma str_of_Z_digits (n : Z) :
  (0 <= n)%Z ->
  str_of_Z n = NilEmpty.string_of_uint (digits_of n)
  /\ Z.of_uint (digits_of n) = n
  /\ str_truthy (str_of_Z n) = true.
Proof.
  intros Hn. destruct n as [|p|p]; [now repeat split| |lia].
  unfold str_of_Z, digits_of. cbn [Z.to_int NilZero.string_of_int].
  pose proof (DecimalPos.Unsigned.to_uint_nonnil p) as Hnil.
  assert (E : NilZero.string_of_uint (Pos.to_uint p)
              = NilEmpty.string_of_uint (Pos.to_uint p))
    by (destruct (Pos.to_uint p); [contradiction|reflexivity..]).
  rewrite E. repeat split.
  - unfold Z.of_uint. now rewrite DecimalPos.Unsigned.of_to.
  - destruct (Pos.to_uint p); [contradiction|reflexivity..].
Qed.

Lemma str_truthy_app_r (s s' : string) : str_truthy s' = true -> str_truthy (s ++ s') = true.
Proof. destruct s; [now rewrite append_empty|reflexivity]. Qed.

(** A string of digits, read by [int()], bare and after a minus sign. *)
Lemma py_int_unsigned (s : string) :
  str_truthy s = true -> all_digits s = true ->
  py_int s = option_map Z.of_uint (NilZero.uint_of_string s)
  /\ py_int (String "-" s) = option_map (fun u => (- Z.of_uint u)%Z) (NilZero.uint_of_string s).
Proof.
  intros Ht Hd. split.
  - destruct s as [|a s]; [discriminate|]. unfold py_int.
    assert (Hsign : match String a s with
                    | String "-" rest => ((-1)%Z, rest)
                    | String "+" rest => (1%Z, rest)
                    | _ => (1%Z, String a s)
                    end = (1%Z, String a s)).
    { cbn in Hd. apply andb_true_iff in Hd as [Ha _].
      destruct a as [[] [] [] [] [] [] [] []]; try reflexivity; discriminate Ha. }
    rewrite Hsign, Ht, Hd. cbn [andb].
    destruct (NilZero.uint_of_string (String a s)) as [u|]; [|reflexivity].
    cbn [option_map]. f_equal; lia.
  - unfold py_int. rewrite Ht, Hd. cbn [andb].
    destruct (NilZero.uint_of_string s) as [u|]; [|reflexivity].
    cbn [option_map]. f_equal; lia.
Qed.

Lemma py_int_digits (s : string) (u : uint) :
  str_truthy s = true -> all_digits s = true ->
  NilEmpty.uint_of_string s = Some u ->
  py_int s = Some (Z.of_uint u).
Proof.
  intros Ht Hd Hu. rewrite (proj1 (py_int_unsigned s Ht Hd)).
  destruct s; [discriminate|]. unfold NilZero.uint_of_string. now rewrite Hu.
Qed.

Lemma fmt_0d_nonneg (width : nat) (n : Z) :
  (0 <= n)%Z ->
  exists k, fmt_0d width n = zeros k ++ NilEmpty.string_of_uint (digits_of n).
Proof.
  intros Hn. destruct (str_of_Z_digits n Hn) as (E & _ & _).
  unfold fmt_0d. rewrite Z.abs_eq by exact Hn.
  assert (L : (n <? 0)%Z = false) by now apply Z.ltb_ge.
  rewrite L, E. rewrite append_empty. eauto.
Qed.

Lemma fmt_0d_all_digits (width : nat) (n : Z) :
  (0 <= n)%Z -> all_digits (fmt_0d width n) = true /\ str_truthy (fmt_0d width n) = true.
Proof.
  intros Hn. destruct (fmt_0d_nonneg width n Hn) as (k & ->).
  destruct (str_of_Z_digits n Hn) as (E & _ & Ht). rewrite E in Ht.
  rewrite all_digits_app, all_digits_zeros, all_digits_string_of_uint.
  split; [reflexivity|]. now apply str_truthy_app_r.
Qed.

Lemma py_int_fmt_0d_nonneg (width : nat) (n : Z) :
  (0 <= n)%Z -> py_int (fmt_0d width n) = Some n.
Proof.
  intros Hn. destruct (fmt_0d_all_digits width n Hn) as (Hd & Ht).
  destruct (fmt_0d_nonneg width n Hn) as (k & E). rewrite E in *.
  destruct (uint_of_zeros k _ _ (NilEmpty.usu (digits_of n))) as (u' & Hu' & Eu).
  rewrite (py_int_digits _ u' Ht Hd Hu'). f_equal.
  destruct (str_of_Z_digits n Hn) as (_ & Hz & _).
  unfold Z.of_uint in *. now rewrite Eu.
Qed.
End numbering.



Lemma split_digits (s : string) : all_digits s = true -> split "-" s = [s].
Proof.
  induction s as [|a s IH]; [reflexivity|]. cbn [all_digits split].
  intros H. apply andb_true_iff in H as [Ha Hs]. rewrite (IH Hs).
  destruct (Ascii.eqb a "-") eqn:E; [|reflexivity].
  apply Ascii.eqb_eq in E. subst a. discriminate Ha.
Qed.

Lemma latest_app_newest {A} (key : A -> Q) (rows : list A) (x : A) :
  Forall (fun r => key r < key x) rows ->
  latest key (rows ++ [x]) = Some x.
Proof.
  induction rows as [|r rows IH]; intros H; [reflexivity|].
  inversion H; subst. cbn [app latest]. rewrite (IH ltac:(assumption)).
  assert (E : Qlt_bool (key r) (key x) = true) by now apply Qlt_bool_iff.
  now rewrite E.
Qed.

(** X12.  Customer codes count up.  [Customer.save] gives the first
    customer of a table the code CUST-00001.  When the customer created
    last carries the code of a number [n] that is not negative, a customer
    saved without a code gets the code of [n + 1]; and being stamped later
    than every stored customer, it is the one created last from then
    on. *)
Theorem customer_codes_count_up
    (now : datetime) (self last : Customer.t) (customers : list Customer.t) (n : Z) :
  Customer.customer_code self = "" ->
  Customer.customer_code (fst (Customer.save_new now self [])) = "CUST-00001"
  /\ (latest Customer.created_at customers = Some last ->
      Customer.customer_code last = "CUST-" ++ fmt_0d 5 n ->
      (0 <= n)%Z ->
      Forall (fun c => Customer.created_at c < now) customers ->
      let saved := fst (Customer.save_new now self customers) in
      Customer.customer_code saved = "CUST-" ++ fmt_0d 5 (n + 1)
      /\ latest Customer.created_at (snd (Customer.save_new now self customers))
         = Some saved).
Proof.
  intros Hcode. split.
  - unfold Customer.save_new. rewrite Hcode. reflexivity.
  - intros Hlast Hn Hpos Hnow saved.
    assert (Hnext : Customer.next_customer_code customers = "CUST-" ++ fmt_0d 5 (n + 1)).
    { unfold Customer.next_customer_code. rewrite Hlast, Hn.
      destruct (fmt_0d_all_digits 5 n Hpos) as (Hd & Ht).
      assert (Hs : split "-" ("CUST-" ++ fmt_0d 5 n) = ["CUST"; fmt_0d 5 n]).
      { rewrite !append_String, append_empty. cbn [split Ascii.eqb Bool.eqb].
        now rewrite (split_digits _ Hd). }
      rewrite Hs. cbn [nth_error].
      rewrite (py_int_fmt_0d_nonneg 5 n Hpos).
      rewrite !append_String, append_empty. reflexivity. }
    assert (Es : saved = Customer.set_created_at now
                   (Customer.set_customer_code ("CUST-" ++ fmt_0d 5 (n + 1)) self)).
    { subst saved. unfold Customer.save_new. rewrite Hcode, Hnext. reflexivity. }
    split; [now rewrite Es|].
    unfold Customer.save_new. cbn [snd]. fold saved.
    change (customers ++ [fst (Customer.save_new now self customers)])%list
      with (customers ++ [saved])%list.
    apply latest_app_newest. rewrite Es. exact Hnow.
Qed.

Lemma customer_codes_count_up_witness :
  Customer.customer_code (fst (Customer.save_new 900 a_second_customer [a_customer]))
  = "CUST-00002".
Proof.
  destruct (customer_codes_count_up 900 a_second_customer a_customer [a_customer] 1
              eq_refl) as (_ & H).
  refine (proj1 (H eq_refl eq_refl _ _)); [lia|].
  repeat constructor.
Defined.

(** X13.  Invoice numbers count up.  [Invoice.save] gives an invoice saved
    without a number INV-001001 when no stored number starts with INV.
    When the invoice created last among those carries the number of an
    [n] that is not negative, a new invoice saved without a number gets
    the number of [n + 1], and is the one created last from then on. *)
Theorem invoice_numbers_count_up
    (now : datetime) (self last : Invoice.t) (invoices : list Invoice.t) (n : Z) :
  Invoice.invoice_number self = "" ->
  has_pk N.eqb Invoice.id (Invoice.id self) invoices = false ->
  (numbered_invoices invoices = [] ->
   Invoice.invoice_number (fst (Invoice.save now self invoices)) = "INV-001001")
  /\ (latest Invoice.created_at (numbered_invoices invoices) = Some last ->
      Invoice.invoice_number last = "INV-" ++ fmt_0d 6 n ->
      (0 <= n)%Z ->
      Forall (fun i => Invoice.created_at i < now) invoices ->
      let saved := fst (Invoice.save now self invoices) in
      Invoice.invoice_number saved = "INV-" ++ fmt_0d 6 (n + 1)
      /\ latest Invoice.created_at (numbered_invoices (snd (Invoice.save now self invoices)))
         = Some saved).
Proof.
  intros Hnum Hnew. rewrite (invoice_first_save now self invoices Hnum Hnew).
  cbn [fst snd]. split.
  - intros Hnone. cbn. unfold Invoice.next_invoice_number.
    unfold numbered_invoices in Hnone. rewrite Hnone. reflexivity.
  - intros Hlast Hn Hpos Hnow.
    assert (Hnext : Invoice.next_invoice_number invoices = "INV-" ++ fmt_0d 6 (n + 1)).
    { unfold Invoice.next_invoice_number. unfold numbered_invoices in Hlast.
      rewrite Hlast, Hn.
      destruct (fmt_0d_all_digits 6 n Hpos) as (Hd & _).
      assert (Hs : split "-" ("INV-" ++ fmt_0d 6 n) = ["INV"; fmt_0d 6 n]).
      { rewrite !append_String, append_empty. cbn [split Ascii.eqb Bool.eqb].
        now rewrite (split_digits _ Hd). }
      rewrite Hs. cbn [List.last]. rewrite (py_int_fmt_0d_nonneg 6 n Hpos).
      reflexivity. }
    rewrite Hnext. split; [reflexivity|].
    unfold numbered_invoices. rewrite List.filter_app. cbn [List.filter].
    assert (Hp : startswith
              (Invoice.invoice_number
                 (Invoice.set_created_at now
                    (Invoice.set_invoice_number ("INV-" ++ fmt_0d 6 (n + 1)) self))) "INV"
              = true).
    { cbn. rewrite !append_String. reflexivity. }
    rewrite Hp. apply latest_app_newest.
    apply List.Forall_forall. intros i Hi. apply List.filter_In in Hi as [Hi _].
    cbn. exact (proj1 (List.Forall_forall _ _) Hnow i Hi).
Qed.

Lemma invoice_numbers_count_up_witness :
  Invoice.invoice_number (fst (Invoice.save 1500 a_second_invoice [an_invoice]))
  = "INV-001002".
Proof.
  destruct (invoice_numbers_count_up 1500 a_second_invoice an_invoice [an_invoice] 1001
              eq_refl eq_refl) as (_ & H).
  refine (proj1 (H eq_refl eq_refl _ _)); [lia|].
  repeat constructor.
Defined.

(** ** Invoice lines and totals, in general *)

Lemma fold_max_ge (ids : list (option Z)) (a : Z) :
  (a <= fold_left (fun m i => Z.max m (default 0%Z i)) ids a)%Z
  /\ Forall (fun i => (default 0%Z i
                       <= fold_left (fun m i => Z.max m (default 0%Z i)) ids a)%Z) ids.
Proof.
  revert a. induction ids as [|i ids IH]; intros a; cbn; [split; [lia|constructor]|].
  destruct (IH (Z.max a (default 0%Z i))) as [H1 H2]. split; [lia|].
  constructor; [lia|exact H2].
Qed.

Lemma next_auto_id_fresh (rows : list InvoiceItem.t) :
  has_pk InvoiceItem.same_id InvoiceItem.id
    (Some (next_auto_id (map InvoiceItem.id rows))) rows = false.
Proof.
  unfold has_pk, next_auto_id.
  destruct (fold_max_ge (map InvoiceItem.id rows) 0) as [_ H].
  revert H. generalize (fold_left (fun m i => Z.max m (default 0%Z i))
                          (map InvoiceItem.id rows) 0%Z).
  intros m H. induction rows as [|r rows IH]; [reflexivity|].
  cbn in *. inversion H; subst. rewrite (IH ltac:(assumption)), orb_false_r.
  destruct (InvoiceItem.id r) as [x|]; [|reflexivity]. cbn in *. apply Z.eqb_neq. lia.
Qed.

(** X14.  Saving a line whose numeric attributes hold Decimals that fit
    their columns.  The first save of an invoice line gives it the next
    key of the sequence, which no stored line carries, and adds its row
    at the end of the table.  The instance keeps the amounts as computed
    from quantity, unit price, discount percentage and tax rate: the
    total is quantity x price x (1 - discount/100) x (1 + tax/100).  The
    row keeps every amount to two decimal places, at most half a cent
    from the computed one.  Saving the saved line again changes neither
    the line nor the table.  A line created without a discount percentage
    or without a tax rate is not saved: with the int of the declared
    default in its place the save ends in [TypeError]. *)
Theorem invoice_line_save (self : InvoiceItem.t) (rows : list InvoiceItem.t) :
  InvoiceItem.id self = None ->
  line_fits (fst (InvoiceItem.save self rows)) ->
  let saved := fst (InvoiceItem.save self rows) in
  let rows' := snd (InvoiceItem.save self rows) in
  (exists row, rows' = (rows ++ [row])%list
               /\ InvoiceItem.id row = InvoiceItem.id saved
               /\ kept_as (InvoiceItem.discount_amount saved) (InvoiceItem.discount_amount row)
               /\ kept_as (InvoiceItem.tax_amount saved) (InvoiceItem.tax_amount row)
               /\ kept_as (InvoiceItem.total saved) (InvoiceItem.total row))
  /\ Forall (fun r => InvoiceItem.id r <> InvoiceItem.id saved) rows
  /\ InvoiceItem.total saved
     == InvoiceItem.quantity self * InvoiceItem.unit_price self
        * (1 - InvoiceItem.discount_percentage self / 100)
        * (1 + InvoiceItem.tax_rate self / 100)
  /\ InvoiceItem.total saved
     == InvoiceItem.quantity self * InvoiceItem.unit_price self
        - InvoiceItem.discount_amount saved + InvoiceItem.tax_amount saved
  /\ InvoiceItem.save saved rows' = (saved, rows')
  /\ (forall inv product text qty price discount tax position,
        discount = None \/ tax = None ->
        InvoiceItem.create inv product text qty price discount tax position rows
        = Raise (TypeError
                   "unsupported operand type(s) for *: 'decimal.Decimal' and 'float'")).
Proof.
  intros Hid _ saved rows'.
  assert (Es : InvoiceItem.save self rows
    = (InvoiceItem.with_id (next_auto_id (map InvoiceItem.id rows))
         (InvoiceItem.calculate_amounts self),
       (rows ++ [InvoiceItem.row_of
                   (InvoiceItem.with_id (next_auto_id (map InvoiceItem.id rows))
                      (InvoiceItem.calculate_amounts self))])%list)).
  { unfold InvoiceItem.save.
    change (InvoiceItem.id (InvoiceItem.calculate_amounts self)) with (InvoiceItem.id self).
    now rewrite Hid. }
  subst saved rows'. rewrite Es. cbn [fst snd].
  pose proof (next_auto_id_fresh rows) as Hfresh.
  split.
  { eexists. split; [reflexivity|]. split; [reflexivity|].
    repeat split; first [apply decimal_places_2_two_places | apply decimal_places_2_close]. }
  split.
  { apply List.Forall_forall. intros r Hr Heq.
    assert (Hex : has_pk InvoiceItem.same_id InvoiceItem.id
                    (Some (next_auto_id (map InvoiceItem.id rows))) rows = true).
    { unfold has_pk. apply existsb_exists. exists r. split; [exact Hr|].
      cbn [InvoiceItem.with_id InvoiceItem.id] in Heq. rewrite Heq. cbn.
      apply Z.eqb_refl. }
    congruence. }
  split; [cbn; field|]. split; [cbn; ring|]. split.
  - unfold InvoiceItem.save at 1.
    set (k := next_auto_id (map InvoiceItem.id rows)) in *.
    change (InvoiceItem.calculate_amounts
              (InvoiceItem.with_id k (InvoiceItem.calculate_amounts self)))
      with (InvoiceItem.with_id k (InvoiceItem.calculate_amounts self)).
    cbn [InvoiceItem.with_id InvoiceItem.id]. f_equal.
    apply upsert_last; [exact Hfresh|]. cbn. apply Z.eqb_refl.
  - intros inv product text qty price discount tax position [-> | ->];
      unfold InvoiceItem.create; [reflexivity|now destruct discount].
Qed.

Lemma invoice_line_save_witness :
  InvoiceItem.total (fst (InvoiceItem.save (new_line 11%N "first" 2 100 10 18) []))
  == 2 * 100 * (1 - 10 / 100) * (1 + 18 / 100).
Proof.
  assert (Hfit : line_fits (fst (InvoiceItem.save (new_line 11%N "first" 2 100 10 18) [])))
    by (repeat split; vm_compute; reflexivity).
  destruct (invoice_line_save (new_line 11%N "first" 2 100 10 18) [] eq_refl Hfit)
    as (_ & _ & H & _).
  exact H.
Defined.

(** X15.  Recomputing the totals twice is recomputing them once.  The
    status that [calculate_totals] writes follows the payment and
    overrides whatever status the invoice had, 'cancelled' and 'refunded'
    included: it is 'paid' whenever nothing is left due, and 'partial'
    whenever something is left due and something was paid; otherwise it
    is 'overdue' or the status the invoice had.  What is due and what was
    paid add up to the total. *)
Theorem invoice_status_follows_payment
    (today : date) (inv : Invoice.t) (rows : list InvoiceItem.t) :
  let inv' := Invoice.calculate_totals today inv rows in
  Invoice.calculate_totals today inv' rows = inv'
  /\ Invoice.amount_due inv' + Invoice.amount_paid inv' == Invoice.total_amount inv'
  /\ (Invoice.amount_due inv' <= 0 -> Invoice.status inv' = "paid")
  /\ (0 < Invoice.amount_due inv' -> 0 < Invoice.amount_paid inv ->
      Invoice.status inv' = "partial")
  /\ (0 < Invoice.amount_due inv' -> Invoice.amount_paid inv <= 0 ->
      Invoice.status inv' = "overdue" \/ Invoice.status inv' = Invoice.status inv).
Proof.
  intros inv'. split; [|split; [cbn; ring|]].
  - subst inv'. unfold Invoice.calculate_totals at 1.
    change (Invoice.items (Invoice.calculate_totals today inv rows) rows)
      with (Invoice.items inv rows).
    change (Invoice.discount_type (Invoice.calculate_totals today inv rows))
      with (Invoice.discount_type inv).
    change (Invoice.discount_value (Invoice.calculate_totals today inv rows))
      with (Invoice.discount_value inv).
    change (Invoice.amount_paid (Invoice.calculate_totals today inv rows))
      with (Invoice.amount_paid inv).
    unfold Invoice.calculate_totals. cbn zeta.
    set (sub := py_sum (map InvoiceItem.total (Invoice.items inv rows))).
    set (disc := if String.eqb (Invoice.discount_type inv) "fixed"
                 then py_min (Invoice.discount_value inv) sub
                 else sub * (Invoice.discount_value inv / 100)).
    set (tax := py_sum (map InvoiceItem.tax_amount (Invoice.items inv rows))).
    unfold Invoice.update. cbn [Invoice.id Invoice.invoice_number Invoice.customer
      Invoice.deal Invoice.quotation Invoice.invoice_date Invoice.due_date Invoice.status
      Invoice.discount_type Invoice.discount_value Invoice.currency Invoice.payment_terms
      Invoice.notes Invoice.billing_address Invoice.billing_city Invoice.billing_state
      Invoice.billing_country Invoice.billing_postal_code Invoice.created_by
      Invoice.created_at Invoice.amount_paid].
    f_equal.
    destruct (Qle_bool (sub - disc + tax) (Invoice.amount_paid inv)); [reflexivity|].
    destruct (Qlt_bool 0 (Invoice.amount_paid inv)); [reflexivity|].
    unfold Invoice.is_overdue. cbn [Invoice.status Invoice.due_date].
    destruct (negb (str_in (Invoice.status inv) ["paid"; "cancelled"; "refunded"])
              && (Invoice.due_date inv <? today)%Z
              && negb (str_in (Invoice.status inv) ["draft"; "cancelled"])) eqn:E.
    + apply andb_true_iff in E as [E _]. apply andb_true_iff in E as [_ E].
      rewrite E. reflexivity.
    + rewrite E. reflexivity.
  - subst inv'. unfold Invoice.calculate_totals. cbn zeta.
    set (sub := py_sum (map InvoiceItem.total (Invoice.items inv rows))).
    set (disc := if String.eqb (Invoice.discount_type inv) "fixed"
                 then py_min (Invoice.discount_value inv) sub
                 else sub * (Invoice.discount_value inv / 100)).
    set (tax := py_sum (map InvoiceItem.tax_amount (Invoice.items inv rows))).
    cbn [Invoice.update Invoice.status Invoice.amount_due].
    destruct (Qle_bool (sub - disc + tax) (Invoice.amount_paid inv)) eqn:Ep.
    { apply Qle_bool_iff in Ep. repeat split; intros; try reflexivity; lra. }
    assert (Hdue : ~ sub - disc + tax <= Invoice.amount_paid inv)
      by (rewrite <- Qle_bool_iff, Ep; discriminate).
    destruct (Qlt_bool 0 (Invoice.amount_paid inv)) eqn:Eq.
    { apply Qlt_bool_iff in Eq. repeat split; intros; try reflexivity; lra. }
    apply Qlt_bool_false_iff in Eq.
    repeat split; intros; try lra.
    destruct (_ && _); auto.
Qed.

Lemma invoice_status_follows_payment_witness :
  Invoice.status
    (Invoice.calculate_totals 739001%Z an_invoice (snd (two_lines (Invoice.id an_invoice))))
  = "overdue"
  \/ Invoice.status
       (Invoice.calculate_totals 739001%Z an_invoice (snd (two_lines (Invoice.id an_invoice))))
     = Invoice.status an_invoice.
Proof.
  destruct (invoice_status_follows_payment 739001%Z an_invoice
              (snd (two_lines (Invoice.id an_invoice)))) as (_ & _ & _ & _ & H).
  apply H; vm_compute; [reflexivity|discriminate].
Defined.

(** ** Quotations: expiry *)

(** X16.  What [Quotation.save] does to the status.  A quotation past its
    [valid_until] date that is neither accepted nor rejected is stored as
    'expired', and [convert_to_invoice] then refuses it and leaves the
    database as it was.  An accepted quotation stays accepted however old
    it is, and a conversion of the saved quotation is not refused for its
    status.  The status 'expired' is never taken back by a save, also
    when [valid_until] lies ahead again. *)
Theorem save_expires_quotation
    (now : datetime) (today : date) (self : Quotation.t)
    (quotations : list Quotation.stored) :
  let saved := fst (Quotation.save now today self quotations) in
  ((Quotation.valid_until self < today)%Z ->
   Quotation.status self <> "accepted" -> Quotation.status self <> "rejected" ->
   Quotation.status saved = "expired"
   /\ forall uuid4 now' today' d,
        Quotation.convert_to_invoice uuid4 now' today' saved d
        = (Raise (ValueError "Only accepted quotations can be converted to invoices"), d))
  /\ (Quotation.status self = "accepted" ->
      Quotation.status saved = "accepted"
      /\ forall uuid4 now' today' d,
           fst (Quotation.convert_to_invoice uuid4 now' today' saved d)
           <> Raise (ValueError "Only accepted quotations can be converted to invoices"))
  /\ (Quotation.status self = "expired" -> Quotation.status saved = "expired").
Proof.
  intros saved.
  assert (Hst : Quotation.status saved
    = if Quotation.is_expired today self
         && negb (str_in (Quotation.status self) ["accepted"; "rejected"; "expired"])
      then "expired" else Quotation.status self).
  { subst saved. unfold Quotation.save. cbn [fst].
    destruct (negb (str_truthy (Quotation.quote_number self)));
      cbn [Quotation.set_number_status Quotation.status Quotation.is_expired
           Quotation.valid_until];
      unfold Quotation.is_expired;
      cbn [Quotation.set_number_status Quotation.status Quotation.valid_until];
      now destruct (_ && _). }
  split; [|split].
  - intros Hold Ha Hr.
    assert (E : Quotation.status saved = "expired").
    { rewrite Hst. unfold Quotation.is_expired.
      assert (L : (Quotation.valid_until self <? today)%Z = true) by now apply Z.ltb_lt.
      rewrite L. unfold str_in. cbn [existsb].
      apply String.eqb_neq in Ha, Hr. rewrite Ha, Hr. cbn [orb negb andb].
      destruct (String.eqb (Quotation.status self) "expired") eqn:Ee; [|reflexivity].
      cbn. now apply String.eqb_eq in Ee. }
    split; [exact E|]. intros uuid4 now' today' d.
    unfold Quotation.convert_to_invoice. now rewrite E.
  - intros Ha.
    assert (E : Quotation.status saved = "accepted").
    { rewrite Hst, Ha. unfold Quotation.is_expired. rewrite Ha. cbn.
      now rewrite andb_false_r. }
    split; [exact E|]. intros uuid4 now' today' d.
    unfold Quotation.convert_to_invoice. rewrite E. cbn [String.eqb Ascii.eqb Bool.eqb negb].
    destruct (Invoice.create now' _ (Quotation.invoices d)) as [[invoice invoices1]|e] eqn:Ec.
    + destruct (Invoice.calculate_totals_holding _ today' invoice _) as [invoice2|e] eqn:Et.
      * destruct (Invoice.save now' invoice2 invoices1). discriminate.
      * unfold Invoice.calculate_totals_holding in Et.
        repeat match type of Et with
               | context [match ?x with _ => _ end] => destruct x
               end; inversion Et; discriminate.
    + unfold Invoice.create in Ec. destruct (Invoice.save now' _ _) in Ec.
      destruct (_ || _) in Ec; inversion Ec. discriminate.
  - intros He. rewrite Hst, He.
    match goal with |- (if ?c then _ else _) = _ => destruct c end; reflexivity.
Qed.

Lemma save_expires_quotation_witness :
  Quotation.status (fst (Quotation.save 5000 739021%Z a_sent_quotation [])) = "expired".
Proof.
  destruct (save_expires_quotation 5000 739021%Z a_sent_quotation []) as (H & _).
  refine (proj1 (H _ _ _)); [reflexivity|discriminate..].
Defined.

(** ** Roles *)

Lemma allows_In (p : User.perms) (object action : string) :
  User.allows p object action = true ->
  exists l, In (object, l) p /\ In action l.
Proof.
  unfold User.allows. induction p as [|[k l] p IH]; cbn.
  - discriminate.
  - destruct (String.eqb_spec k object) as [->|_].
    + intros H. exists l. split; [now left|].
      unfold str_in in H. apply existsb_exists in H as (x & Hx & E).
      apply String.eqb_eq in E. now subst.
    + intros H. destruct (IH H) as (l' & Hin & Ha). exists l'. split; [now right|exact Ha].
Qed.

Lemma grants_within_ok (p q : User.perms) (object action : string) :
  grants_within p q = true ->
  User.allows p object action = true -> User.allows q object action = true.
Proof.
  intros Hw H. destruct (allows_In p object action H) as (l & Hin & Ha).
  unfold grants_within in Hw.
  pose proof (proj1 (forallb_forall _ _) Hw _ Hin) as Hl. cbn in Hl.
  exact (proj1 (forallb_forall _ _) Hl _ Ha).
Qed.

(** X17.  Permissions grow with the role.  Along viewer, executive,
    manager, admin, super_admin, whatever [get_permissions] lets a lower
    role do on an object it lets every higher role do; admin and
    super_admin get the same dictionary; a role outside the five gets the
    empty one, which allows nothing. *)
Theorem permissions_grow_with_role (u v : User.t) (i j : nat) (object action : string) :
  (nth_error ranks i = Some (User.role u) ->
   nth_error ranks j = Some (User.role v) ->
   (i <= j)%nat ->
   User.allows (User.get_permissions u) object action = true ->
   User.allows (User.get_permissions v) object action = true)
  /\ (User.role u = "admin" -> User.role v = "super_admin" ->
      User.get_permissions u = User.get_permissions v)
  /\ (~ In (User.role u) ranks ->
      User.allows (User.get_permissions u) object action = false).
Proof.
  split; [|split].
  - intros Hi Hj Hle. unfold User.get_permissions.
    apply grants_within_ok.
    destruct i as [|[|[|[|[|i]]]]]; cbn in Hi; try (destruct i; discriminate);
      injection Hi as <-;
      destruct j as [|[|[|[|[|j]]]]]; cbn in Hj; try lia; try (destruct j; discriminate);
      injection Hj as <-; vm_compute; reflexivity.
  - intros Hu Hv. unfold User.get_permissions. now rewrite Hu, Hv.
  - intros Hout. unfold User.get_permissions.
    assert (E : dict_get User.permissions (User.role u) [] = []).
    { unfold User.permissions. cbn [dict_get].
      repeat match goal with
      | |- context [String.eqb ?a ?b] =>
        destruct (String.eqb_spec a b) as [Heq|_];
        [exfalso; apply Hout; rewrite <- Heq; cbn; tauto|]
      end.
      reflexivity. }
    rewrite E. reflexivity.
Qed.

Lemma permissions_grow_with_role_witness :
  User.allows (User.get_permissions a_manager) "deals" "update" = true.
Proof.
  refine (proj1 (permissions_grow_with_role an_executive a_manager 1 2 "deals" "update")
            eq_refl eq_refl _ eq_refl).
  lia.
Defined.

(** X18.  The API permission classes, read against the permission table.
    For every request: [CanAssignLeads] and [IsManager] let through
    exactly the signed-in users whose role may 'assign' leads;
    [CanManageUsers] and [IsTenantAdmin] exactly those who may 'create'
    users; [CanExportData] exactly those who may 'export' reports.
    [CanManageDeals] lets a reading method through for every signed-in
    user, and any other method exactly for those who may 'create' deals:
    so it lets an executive's DELETE through, although the table gives
    the executive no 'delete' on deals. *)
Theorem api_permissions_follow_table (request : HttpRequest) :
  let may object action :=
    authenticated_and (fun u => User.allows (User.get_permissions u) object action)
      request in
  CanAssignLeads.has_permission request = may "leads" "assign"
  /\ IsManager.has_permission request = may "leads" "assign"
  /\ CanManageUsers.has_permission request = may "users" "create"
  /\ IsTenantAdmin.has_permission request = may "users" "create"
  /\ CanExportData.has_permission request = may "reports" "export"
  /\ (str_in (method request) SAFE_METHODS = true ->
      CanManageDeals.has_permission request = is_authenticated request)
  /\ (str_in (method request) SAFE_METHODS = false ->
      CanManageDeals.has_permission request = may "deals" "create")
  /\ (forall u, user request = Some u -> User.role u = "executive" ->
      method request = "DELETE" ->
      CanManageDeals.has_permission request = true /\ may "deals" "delete" = false).
Proof.
  intros may. subst may.
  unfold CanAssignLeads.has_permission, IsManager.has_permission,
    CanManageUsers.has_permission, IsTenantAdmin.has_permission,
    CanExportData.has_permission, CanManageDeals.has_permission,
    authenticated_and, is_authenticated.
  destruct (user request) as [u|].
  2:{ repeat split; try reflexivity; try discriminate.
      - intros ->. reflexivity.
      - intros ->. reflexivity. }
  unfold User.is_manager, User.can_manage_users, User.is_tenant_admin,
    User.can_export_data, User.get_permissions, User.allows, str_in.
  set (r := User.role u).
  assert (Hcases : r = "super_admin" \/ r = "admin" \/ r = "manager" \/ r = "executive"
                   \/ r = "viewer" \/ ~ In r ranks).
  { destruct (String.eqb_spec r "super_admin"); [tauto|].
    destruct (String.eqb_spec r "admin"); [tauto|].
    destruct (String.eqb_spec r "manager"); [tauto|].
    destruct (String.eqb_spec r "executive"); [tauto|].
    destruct (String.eqb_spec r "viewer"); [tauto|].
    do 5 right. cbn. intuition congruence. }
  assert (Hother : ~ In r ranks ->
            dict_get User.permissions r [] = []
            /\ existsb (String.eqb r) ["super_admin"; "admin"; "manager"; "executive"] = false).
  { intros Hout. split.
    - unfold User.permissions. cbn [dict_get].
      repeat match goal with
      | |- context [String.eqb ?a ?b] =>
        destruct (String.eqb_spec a b) as [Heq|_];
        [exfalso; apply Hout; rewrite <- Heq; cbn; tauto|]
      end.
      reflexivity.
    - cbn [existsb].
      repeat match goal with
      | |- context [String.eqb ?a ?b] =>
        destruct (String.eqb_spec a b) as [Heq|_];
        [exfalso; apply Hout; rewrite Heq; cbn; tauto|]
      end.
      reflexivity. }
  assert (Hsub : existsb (String.eqb r) ["super_admin"; "admin"; "manager"; "executive"]
                 = false ->
                 existsb (String.eqb r) ["super_admin"; "admin"; "manager"] = false
                 /\ existsb (String.eqb r) ["super_admin"; "admin"] = false).
  { cbn [existsb]. intros H. rewrite !orb_false_r in *.
    apply orb_false_iff in H as [-> H]. apply orb_false_iff in H as [-> H].
    apply orb_false_iff in H as [-> _]. split; reflexivity. }
  assert (Hmain :
    existsb (String.eqb r) ["super_admin"; "admin"; "manager"]
    = existsb (String.eqb "assign") (dict_get (dict_get User.permissions r []) "leads" [])
    /\ existsb (String.eqb r) ["super_admin"; "admin"]
       = existsb (String.eqb "create") (dict_get (dict_get User.permissions r []) "users" [])
    /\ existsb (String.eqb r) ["super_admin"; "admin"; "manager"]
       = existsb (String.eqb "export") (dict_get (dict_get User.permissions r []) "reports" [])
    /\ existsb (String.eqb r) ["super_admin"; "admin"; "manager"; "executive"]
       = existsb (String.eqb "create") (dict_get (dict_get User.permissions r []) "deals" [])).
  { destruct Hcases as [->|[->|[->|[->|[->|Hout]]]]]; try (vm_compute; tauto).
    destruct (Hother Hout) as [-> Hf]. destruct (Hsub Hf) as [E1 E2].
    rewrite E1, E2, Hf.
    repeat split. }
  destruct Hmain as (H1 & H2 & H3 & H4).
  split; [exact H1|]. split; [exact H1|]. split; [exact H2|]. split; [exact H2|].
  split; [exact H3|]. split; [intros ->; reflexivity|]. split; [intros ->; exact H4|].
  intros u0 [= <-] Hr Hm. subst r. rewrite Hm, Hr. split; reflexivity.
Qed.

Lemma api_permissions_follow_table_witness :
  CanManageDeals.has_permission (request_by an_executive "DELETE" "/api/deals/3/") = true.
Proof.
  destruct (api_permissions_follow_table (request_by an_executive "DELETE" "/api/deals/3/"))
    as (_ & _ & _ & _ & _ & _ & _ & H).
  exact (proj1 (H an_executive eq_refl eq_refl eq_refl)).
Defined.

(** X19.  [has_module_perms] answers yes to a superuser for every app
    label.  Its table has no entry for the role 'super_admin': a user of
    that role without the superuser flag has no module at all, although
    [get_permissions] gives that role every permission.  Every module
    open to some role is open to the admin role. *)
Theorem module_permissions_by_role (u v : User.t) (app_label : string) :
  (User.is_superuser u = true -> User.has_module_perms u app_label = true)
  /\ (User.is_superuser u = false -> User.role u = "super_admin" ->
      User.has_module_perms u app_label = false
      /\ User.allows (User.get_permissions u) "users" "delete" = true)
  /\ (User.role v = "admin" ->
      User.is_superuser u = false ->
      User.has_module_perms u app_label = true ->
      User.has_module_perms v app_label = true).
Proof.
  unfold User.has_module_perms. split; [|split].
  - now intros ->.
  - intros -> Hr. unfold User.get_permissions. rewrite Hr. split; reflexivity.
  - intros Hv Hu. rewrite Hu, Hv. destruct (User.is_superuser v); [reflexivity|].
    intros H.
    change (User.allows [("m", dict_get User.module_permissions "admin" [])] "m" app_label
            = true).
    refine (grants_within_ok
              [("m", dict_get User.module_permissions (User.role u) [])] _ "m" app_label
              _ H).
    unfold User.module_permissions. cbn [dict_get].
    repeat match goal with
    | |- context [String.eqb ?a (User.role u)] =>
      destruct (String.eqb a (User.role u))
    end; vm_compute; reflexivity.
Qed.

Lemma module_permissions_by_role_witness :
  User.has_module_perms a_super_admin "sales" = false.
Proof.
  destruct (module_permissions_by_role a_super_admin a_super_admin "sales") as (_ & H & _).
  exact (proj1 (H eq_refl eq_refl)).
Defined.

(** ** Products *)

(** X20.  Quantity breaks decide eligibility only.  [get_price] answers
    [None] exactly below [min_quantity]; from [min_quantity] on it answers
    a price, and the same price for every quantity: the price is per
    unit. *)
Theorem get_price_is_per_unit (item : PriceListItem.t) (quantity quantity' : PyDecimal) :
  (PriceListItem.get_price item quantity = None
   <-> quantity < PriceListItem.min_quantity item)
  /\ (PriceListItem.min_quantity item <= quantity ->
      PriceListItem.min_quantity item <= quantity' ->
      PriceListItem.get_price item quantity = PriceListItem.get_price item quantity').
Proof.
  unfold PriceListItem.get_price. split.
  - destruct (Qlt_bool quantity (PriceListItem.min_quantity item)) eqn:E.
    + apply Qlt_bool_iff in E. tauto.
    + apply Qlt_bool_false_iff in E. split; [|lra].
      destruct (PriceListItem.fixed_price item) as [f|]; cbn.
      * destruct (Decimal_truthy f); [discriminate|].
        destruct (PriceListItem.discount_percentage item) as [d|]; cbn;
          [destruct (Decimal_truthy d)|]; discriminate.
      * destruct (PriceListItem.discount_percentage item) as [d|]; cbn;
          [destruct (Decimal_truthy d)|]; discriminate.
  - intros H H'.
    assert (E : Qlt_bool quantity (PriceListItem.min_quantity item) = false)
      by (apply Qlt_bool_false_iff; lra).
    assert (E' : Qlt_bool quantity' (PriceListItem.min_quantity item) = false)
      by (apply Qlt_bool_false_iff; lra).
    now rewrite E, E'.
Qed.

Lemma get_price_is_per_unit_witness :
  PriceListItem.get_price widget_free_override 3
  = PriceListItem.get_price widget_free_override 12.
Proof.
  refine (proj2 (get_price_is_per_unit widget_free_override 3 12) _ _);
    vm_compute; discriminate.
Defined.

(** X21.  The price of a bundle.  A bundle price that is set and not zero
    is the price, whatever the bundle holds.  A bundle price that is
    missing or zero is passed over: the price is then the sum of base
    price x quantity over the bundle's items, less the bundle's discount
    percentage. *)
Theorem bundle_price_from_products (self : ProductBundle.t) (rows : list ProductBundleItem.t) :
  (forall p, ProductBundle.bundle_price self = Some p -> ~ p == 0 ->
     ProductBundle.calculated_price self rows = p)
  /\ ((ProductBundle.bundle_price self = None
       \/ exists p, ProductBundle.bundle_price self = Some p /\ p == 0) ->
      ProductBundle.calculated_price self rows
      == py_sum (map (fun item => Product.base_price (ProductBundleItem.product item)
                                  * ProductBundleItem.quantity item)
                     (ProductBundle.items self rows))
         * (1 - ProductBundle.discount_percentage self / 100)).
Proof.
  assert (Hfrom : ProductBundle.price_from_products self rows
      == py_sum (map (fun item => Product.base_price (ProductBundleItem.product item)
                                  * ProductBundleItem.quantity item)
                     (ProductBundle.items self rows))
         * (1 - ProductBundle.discount_percentage self / 100)).
  { unfold ProductBundle.price_from_products. cbn zeta.
    destruct (Decimal_truthy (ProductBundle.discount_percentage self)) eqn:E;
      [reflexivity|].
    apply Decimal_truthy_false_iff in E. rewrite E. field. }
  unfold ProductBundle.calculated_price. split.
  - intros p -> Hp. apply Decimal_truthy_true_iff in Hp. now rewrite Hp.
  - intros [->|(p & -> & Hp)]; [exact Hfrom|].
    apply Decimal_truthy_false_iff in Hp. now rewrite Hp.
Qed.

Lemma bundle_price_from_products_witness :
  ProductBundle.calculated_price a_bundle
    [ {| ProductBundleItem.bundle := 1; ProductBundleItem.product := widget;
         ProductBundleItem.quantity := 2 |} ]
  == Product.base_price widget * 2 * (1 - 10 / 100).
Proof.
  refine (Qeq_trans _ _ _ (proj2 (bundle_price_from_products a_bundle _) _) _).
  - right. exists 0. split; reflexivity.
  - vm_compute. reflexivity.
Defined.

(** X22.  A price list is valid over one stretch of time.  It is valid at
    [now] exactly when it is active, [valid_from] is not after [now], and
    [valid_to], when set, is not before [now]: both ends belong to the
    stretch.  So a list valid at two times is valid at every time between
    them, and a list whose [valid_to] lies before its [valid_from] is
    never valid. *)
Theorem price_list_valid_window (self : PriceList.t) (now : datetime) :
  (PriceList.is_valid now self = true
   <-> PriceList.is_active self = true
       /\ PriceList.valid_from self <= now
       /\ forall valid_to, PriceList.valid_to self = Some valid_to -> now <= valid_to)
  /\ (forall t1 t2, t1 <= now -> now <= t2 ->
      PriceList.is_valid t1 self = true -> PriceList.is_valid t2 self = true ->
      PriceList.is_valid now self = true)
  /\ (forall valid_to, PriceList.valid_to self = Some valid_to ->
      valid_to < PriceList.valid_from self -> PriceList.is_valid now self = false).
Proof.
  assert (Hiff : forall now, PriceList.is_valid now self = true
   <-> PriceList.is_active self = true
       /\ PriceList.valid_from self <= now
       /\ forall valid_to, PriceList.valid_to self = Some valid_to -> now <= valid_to).
  { clear now. intros now. unfold PriceList.is_valid.
    destruct (PriceList.is_active self); cbn [negb]; [|split; [discriminate|tauto]].
    destruct (Qlt_bool now (PriceList.valid_from self)) eqn:E.
    { apply Qlt_bool_iff in E. split; [discriminate|]. intros (_ & H & _). lra. }
    apply Qlt_bool_false_iff in E.
    destruct (PriceList.valid_to self) as [e|].
    - destruct (Qlt_bool e now) eqn:E'.
      + apply Qlt_bool_iff in E'. split; [discriminate|].
        intros (_ & _ & H). specialize (H e eq_refl). lra.
      + apply Qlt_bool_false_iff in E'. split; [|reflexivity]. intros _.
        repeat split; [exact E|]. now intros ? [= <-].
    - split; [|reflexivity]. intros _. repeat split; [exact E|]. discriminate. }
  split; [apply Hiff|]. split.
  - intros t1 t2 H1 H2 V1 V2. apply Hiff in V1 as (Ha & Hf & _).
    apply Hiff in V2 as (_ & _ & Ht). apply Hiff. repeat split; [exact Ha|lra|].
    intros e He. specialize (Ht e He). lra.
  - intros e He Hlt. destruct (PriceList.is_valid now self) eqn:V; [|reflexivity].
    apply Hiff in V as (_ & Hf & Ht). specialize (Ht e He). lra.
Qed.

Lemma price_list_valid_window_witness :
  PriceList.is_valid 150 a_price_list = true.
Proof.
  refine (proj1 (proj2 (price_list_valid_window a_price_list 150)) 100 200 _ _ eq_refl eq_refl);
    vm_compute; discriminate.
Defined.

(** ** The slug loop *)

Lemma string_app_inv_head (p s s' : string) : p ++ s = p ++ s' -> s = s'.
Proof.
  induction p as [|a p IH]; [now rewrite !append_empty|].
  rewrite !append_String. intros [= H]. auto.
Qed.

Lemma string_app_length (s s' : string) :
  String.length (s ++ s') = (String.length s + String.length s')%nat.
Proof.
  induction s as [|a s IH]; [now rewrite append_empty|].
  rewrite append_String. cbn. now rewrite IH.
Qed.

Lemma str_of_Z_inj (m n : Z) : (0 <= m)%Z -> (0 <= n)%Z -> str_of_Z m = str_of_Z n -> m = n.
Proof.
  intros Hm Hn E.
  assert (F : forall k, (0 <= k)%Z -> fmt_0d 0 k = str_of_Z k).
  { intros k Hk. unfold fmt_0d. rewrite Z.abs_eq by exact Hk.
    assert (L : (k <? 0)%Z = false) by now apply Z.ltb_ge.
    rewrite L. cbn [Nat.sub zeros]. now rewrite !append_empty. }
  pose proof (py_int_fmt_0d_nonneg 0 m Hm) as Pm.
  pose proof (py_int_fmt_0d_nonneg 0 n Hn) as Pn.
  rewrite (F m Hm), E, <- (F n Hn), Pn in Pm. now injection Pm.
Qed.

Lemma candidate_inj (base : string) (m n : Z) :
  (0 <= m)%Z -> (0 <= n)%Z -> candidate base m = candidate base n -> m = n.
Proof.
  unfold candidate. intros Hm Hn E. apply string_app_inv_head in E.
  apply (string_app_inv_head "-") in E. now apply str_of_Z_inj.
Qed.

Lemma candidate_not_base (base : string) (k : Z) : candidate base k <> base.
Proof.
  unfold candidate. intros E. apply (f_equal String.length) in E.
  rewrite string_app_length, append_String, append_empty in E. cbn in E. lia.
Qed.

Lemma str_in_In (s : string) (l : list string) : str_in s l = true <-> In s l.
Proof.
  unfold str_in. rewrite existsb_exists. split.
  - intros (x & Hx & E). apply String.eqb_eq in E. now subst.
  - intros H. exists s. split; [exact H|apply String.eqb_refl].
Qed.

(** What the loop has seen when it stops, and when it is cut. *)
Lemma unique_slug_spec (base : string) (slugs : list string) :
  forall fuel slug counter,
    match Product.unique_slug fuel base slugs slug counter with
    | Some s =>
      str_in s slugs = false
      /\ (s = slug
          \/ exists j, (j < fuel)%nat
               /\ s = candidate base (counter + Z.of_nat j)
               /\ str_in slug slugs = true
               /\ forall i, (i < j)%nat ->
                    str_in (candidate base (counter + Z.of_nat i)) slugs = true)
    | None =>
      str_in slug slugs = true
      /\ forall j, (j < fuel)%nat ->
           str_in (candidate base (counter + Z.of_nat j)) slugs = true
    end.
Proof.
  induction fuel as [|fuel IH]; intros slug counter; cbn [Product.unique_slug].
  - destruct (str_in slug slugs) eqn:E; cbn [negb].
    + split; [reflexivity|]. intros j Hj. lia.
    + split; [exact E|now left].
  - destruct (str_in slug slugs) eqn:E; cbn [negb]; [|split; [exact E|now left]].
    specialize (IH (base ++ "-" ++ NilZero.string_of_int (Z.to_int counter)) (counter + 1)%Z).
    fold (str_of_Z counter) in IH |- *. fold (candidate base counter) in IH |- *.
    destruct (Product.unique_slug fuel base slugs (candidate base counter) (counter + 1))
      as [s|].
    + destruct IH as (Hfree & [->|(j & Hj & -> & Htaken & Hbefore)]).
      * split; [exact Hfree|]. right. exists O.
        split; [lia|]. split; [now rewrite Z.add_0_r|]. split; [reflexivity|].
        intros i Hi. lia.
      * split; [exact Hfree|]. right. exists (S j).
        split; [lia|]. split; [f_equal; lia|]. split; [reflexivity|].
        intros [|i] Hi; [now rewrite Z.add_0_r|].
        replace (counter + Z.of_nat (S i))%Z with (counter + 1 + Z.of_nat i)%Z by lia.
        apply Hbefore. lia.
    + destruct IH as (Htaken & Hall). split; [reflexivity|].
      intros [|j] Hj; [now rewrite Z.add_0_r|].
      replace (counter + Z.of_nat (S j))%Z with (counter + 1 + Z.of_nat j)%Z by lia.
      apply Hall. lia.
Qed.

Lemma unique_slug_more_fuel (base : string) (slugs : list string) (s : string) :
  forall fuel slug counter,
    Product.unique_slug fuel base slugs slug counter = Some s ->
    forall fuel', (fuel <= fuel')%nat ->
      Product.unique_slug fuel' base slugs slug counter = Some s.
Proof.
  induction fuel as [|fuel IH]; intros slug counter H fuel' Hle.
  - cbn in H. destruct fuel'; cbn; destruct (negb (str_in slug slugs)); congruence.
  - destruct fuel' as [|fuel']; [lia|]. cbn in *.
    destruct (negb (str_in slug slugs)); [exact H|].
    apply (IH _ _ H). lia.
Qed.

(** X23.  The slug loop of [Product.save] ends.  For a product saved
    without a slug, against any stored slugs, the loop stops within as
    many turns as there are stored slugs, on a slug that no stored product
    carries: the slugified name itself when it is free, otherwise the
    first free one of name-1, name-2, ...; running the loop longer gives
    the same slug.  A product that has a slug keeps it. *)
Theorem slug_loop_ends (slug base : string) (slugs : list string) :
  exists s,
    (forall fuel, (length slugs <= fuel)%nat ->
       Product.save_slug fuel slug base slugs = Some s)
    /\ (slug <> "" -> s = slug)
    /\ (slug = "" ->
        ~ In s slugs
        /\ (s = base
            \/ exists k, (1 <= k)%Z /\ s = candidate base k /\ In base slugs
                 /\ forall i, (1 <= i < k)%Z -> In (candidate base i) slugs)).
Proof.
  destruct slug as [|a slug].
  2:{ exists (String a slug). split; [reflexivity|]. split; [reflexivity|]. discriminate. }
  unfold Product.save_slug. cbn [str_truthy negb].
  pose proof (unique_slug_spec base slugs (length slugs) base 1) as Hspec.
  destruct (Product.unique_slug (length slugs) base slugs base 1) as [s|] eqn:Erun.
  - exists s. split; [|split; [congruence|]].
    + intros fuel Hle. exact (unique_slug_more_fuel base slugs s _ _ _ Erun fuel Hle).
    + intros _. destruct Hspec as (Hfree & Hwhich). split.
      * rewrite <- str_in_In, Hfree. discriminate.
      * destruct Hwhich as [->|(j & _ & -> & Htaken & Hbefore)]; [now left|].
        right. exists (1 + Z.of_nat j)%Z. repeat split; [lia| |].
        -- now apply str_in_In.
        -- intros i Hi. apply str_in_In.
           replace i with (1 + Z.of_nat (Z.to_nat (i - 1)))%Z by lia.
           apply Hbefore. lia.
  - exfalso. destruct Hspec as (Htaken & Hall).
    set (tried := base :: ((fun j => candidate base (1 + Z.of_nat j))
                           <$> seq 0 (length slugs))).
    assert (Hnodup : NoDup tried).
    { apply NoDup_cons. split.
      - intros Hin. apply list_elem_of_fmap in Hin as (j & E & _).
        symmetry in E. exact (candidate_not_base _ _ E).
      - apply NoDup_fmap_2_strong; [|apply NoDup_seq].
        intros x y _ _ E. apply candidate_inj in E; lia. }
    assert (Hincl : forall x, x ∈ tried -> x ∈ slugs).
    { intros x Hx. apply list_elem_of_In, str_in_In.
      apply elem_of_cons in Hx as [->|Hx]; [exact Htaken|].
      apply list_elem_of_fmap in Hx as (j & -> & Hj). apply elem_of_seq in Hj.
      apply Hall. lia. }
    pose proof (submseteq_length _ _ (NoDup_submseteq _ _ Hnodup Hincl)) as Hlen.
    subst tried. cbn [length] in Hlen. rewrite length_fmap, length_seq in Hlen. lia.
Qed.

Lemma slug_loop_ends_witness :
  exists s,
    Product.save_slug 2 "" "widget" ["widget"; "widget-1"] = Some s
    /\ ~ In s ["widget"; "widget-1"].
Proof.
  destruct (slug_loop_ends "" "widget" ["widget"; "widget-1"]) as (s & Hrun & _ & Hfree).
  exists s. split; [apply Hrun; cbn; lia|exact (proj1 (Hfree eq_refl))].
Defined.

(** ** Deals *)

(** X24.  The closing date of a deal is written once.  [Deal.save] stamps
    a deal in stage 'closed_won' or 'closed_lost' that has no closing
    date with the time of the save, leaves a deal in another stage
    without one, and never changes a closing date that is set, whatever
    the stage: a deal that is reopened keeps the date of its first
    closing.  Once the date is set, [days_in_pipeline] no longer depends
    on the clock. *)
Theorem deal_closed_date_set_once (now : datetime) (self : Deal.t) (deals : list Deal.t) :
  let saved := fst (Deal.save now self deals) in
  Deal.stage saved = Deal.stage self
  /\ (forall closed, Deal.closed_date self = Some closed ->
      Deal.closed_date saved = Some closed)
  /\ (Deal.closed_date self = None ->
      Deal.closed_date saved
      = if str_in (Deal.stage self) ["closed_won"; "closed_lost"] then Some now else None)
  /\ (Deal.closed_date saved <> None ->
      forall t t', Deal.days_in_pipeline t saved = Deal.days_in_pipeline t' saved).
Proof.
  intros saved.
  assert (Hstage : Deal.stage saved = Deal.stage self).
  { subst saved. unfold Deal.save. cbn [fst].
    repeat match goal with |- context [if ?c then _ else _] => destruct c end;
      reflexivity. }
  assert (Hclosed : Deal.closed_date saved
    = if str_in (Deal.stage self) ["closed_won"; "closed_lost"]
         && negb (opt_truthy (fun _ => true) (Deal.closed_date self))
      then Some now else Deal.closed_date self).
  { subst saved. unfold Deal.save. cbn [fst].
    destruct (negb (str_truthy (Deal.deal_number self)));
      cbn [Deal.update Deal.stage Deal.closed_date Deal.id Deal.deal_number Deal.created_at];
      destruct (str_in (Deal.stage self) ["closed_won"; "closed_lost"]
                && negb (opt_truthy (fun _ => true) (Deal.closed_date self)));
      cbn [Deal.update Deal.stage Deal.closed_date Deal.id];
      destruct (has_pk N.eqb Deal.id (Deal.id self) deals); reflexivity. }
  split; [exact Hstage|]. split; [|split].
  - intros closed Hc. rewrite Hclosed, Hc. cbn. now rewrite andb_false_r.
  - intros Hc. rewrite Hclosed, Hc. cbn. now rewrite andb_true_r.
  - intros Hset t t'. unfold Deal.days_in_pipeline.
    destruct (Deal.closed_date saved); [reflexivity|contradiction].
Qed.

Lemma deal_closed_date_set_once_witness :
  Deal.closed_date (fst (Deal.save 5000 a_won_deal [])) = Some 5000.
Proof.
  destruct (deal_closed_date_set_once 5000 a_won_deal []) as (_ & _ & H & _).
  exact (H eq_refl).
Defined.

(** X25.  A deal line and an invoice line price alike.  For the same
    quantity, unit price, discount percentage and tax percentage, the
    discount, tax and total that [DealProduct] computes are the amounts
    that [InvoiceItem.save] writes on a line. *)
Theorem deal_line_matches_invoice_line
    (line : DealProduct.t) (item : InvoiceItem.t) (rows : list InvoiceItem.t) :
  InvoiceItem.quantity item = DealProduct.quantity line ->
  InvoiceItem.unit_price item = DealProduct.unit_price line ->
  InvoiceItem.discount_percentage item = DealProduct.discount_percentage line ->
  InvoiceItem.tax_rate item = DealProduct.tax_percentage line ->
  let saved := fst (InvoiceItem.save item rows) in
  InvoiceItem.discount_amount saved = DealProduct.discount_amount line
  /\ InvoiceItem.tax_amount saved = DealProduct.tax_amount line
  /\ InvoiceItem.total saved = DealProduct.total line.
Proof.
  intros Hq Hp Hd Ht saved. subst saved. unfold InvoiceItem.save.
  assert (E : forall x,
    x = InvoiceItem.calculate_amounts item \/
    (exists k, x = InvoiceItem.with_id k (InvoiceItem.calculate_amounts item)) ->
    InvoiceItem.discount_amount x = DealProduct.discount_amount line
    /\ InvoiceItem.tax_amount x = DealProduct.tax_amount line
    /\ InvoiceItem.total x = DealProduct.total line).
  { intros x [->|(k & ->)];
      cbn; rewrite Hq, Hp, Hd, Ht; repeat split. }
  destruct (InvoiceItem.id (InvoiceItem.calculate_amounts item)); cbn [fst]; apply E; eauto.
Qed.

Lemma deal_line_matches_invoice_line_witness :
  InvoiceItem.total (fst (InvoiceItem.save (new_line 11%N "first" 2 100 10 18) []))
  = DealProduct.total a_deal_line.
Proof.
  destruct (deal_line_matches_invoice_line a_deal_line (new_line 11%N "first" 2 100 10 18) []
              eq_refl eq_refl eq_refl eq_refl) as (_ & _ & H).
  exact H.
Defined.

(** ** The tenant context *)

(** X26.  [TenantContextMiddleware.process_request] reads [is_on_trial].
    For a request of a tenant whose status is 'trial' and whose trial end
    date is missing it raises [TypeError]; for every other tenant it
    stores a context whose 'is_trial' entry says that the status is
    'trial' and the end date lies ahead.  A tenant as [Tenant.save]
    inserts it always gets its context. *)
Theorem tenant_context_needs_trial_end (now : datetime) (request : HttpRequest) (t : Tenant.t) :
  tenant request = Some t ->
  (Tenant.subscription_status t = "trial" -> Tenant.trial_end_date t = None ->
   exists msg, TenantContextMiddleware.process_request now request = Raise (TypeError msg))
  /\ (Tenant.subscription_status t <> "trial" \/ Tenant.trial_end_date t <> None ->
      exists ctx,
        TenantContextMiddleware.process_request now request = Ok (Some ctx)
        /\ (TenantContextMiddleware.is_trial ctx = true
            <-> Tenant.subscription_status t = "trial"
                /\ exists e, Tenant.trial_end_date t = Some e /\ now < e)
        /\ TenantContextMiddleware.subscription_plan ctx = Tenant.subscription_plan t
        /\ TenantContextMiddleware.features ctx = Tenant.enabled_features t)
  /\ (forall TRIAL_DAYS at_save next_pk self,
        TenantInstance.pk self = None ->
        t = TenantInstance.row (TenantInstance.save TRIAL_DAYS at_save next_pk self) ->
        exists ctx, TenantContextMiddleware.process_request now request = Ok (Some ctx)).
Proof.
  intros Ht. unfold TenantContextMiddleware.process_request. rewrite Ht.
  unfold Tenant.is_on_trial, Tenant.datetime_gt.
  assert (Hgood : Tenant.subscription_status t <> "trial" \/ Tenant.trial_end_date t <> None ->
      exists ctx,
        (_ ← (if String.eqb (Tenant.subscription_status t) "trial"
              then match Tenant.trial_end_date t with
                   | Some d => Ok (Qlt_bool now d)
                   | None => Raise (TypeError
      "'>' not supported between instances of 'NoneType' and 'datetime.datetime'")
                   end
              else Ok false);
         is_trial ← (if String.eqb (Tenant.subscription_status t) "trial"
              then match Tenant.trial_end_date t with
                   | Some d => Ok (Qlt_bool now d)
                   | None => Raise (TypeError
      "'>' not supported between instances of 'NoneType' and 'datetime.datetime'")
                   end
              else Ok false);
         Ok (Some {| TenantContextMiddleware.is_trial := is_trial;
                     TenantContextMiddleware.subscription_plan := Tenant.subscription_plan t;
                     TenantContextMiddleware.features := Tenant.enabled_features t |}))
        = Ok (Some ctx)
        /\ (TenantContextMiddleware.is_trial ctx = true
            <-> Tenant.subscription_status t = "trial"
                /\ exists e, Tenant.trial_end_date t = Some e /\ now < e)
        /\ TenantContextMiddleware.subscription_plan ctx = Tenant.subscription_plan t
        /\ TenantContextMiddleware.features ctx = Tenant.enabled_features t).
  { intros Hor. destruct (String.eqb_spec (Tenant.subscription_status t) "trial") as [Es|Es].
    - destruct (Tenant.trial_end_date t) as [e|] eqn:Ee; [|destruct Hor; contradiction].
      eexists. split; [reflexivity|]. split; [|split; reflexivity].
      cbn [TenantContextMiddleware.is_trial]. split.
      + intros H. split; [exact Es|]. exists e. split; [reflexivity|].
        now apply Qlt_bool_iff.
      + intros (_ & e' & [= <-] & Hlt). now apply Qlt_bool_iff.
    - eexists. split; [reflexivity|]. split; [|split; reflexivity].
      cbn [TenantContextMiddleware.is_trial]. split; [discriminate|].
      intros [? _]. contradiction. }
  split; [|split].
  - intros Hs He. rewrite Hs, He. cbn. eauto.
  - exact Hgood.
  - intros TRIAL_DAYS at_save next_pk self Hpk Hrow.
    destruct Hgood as (ctx & Hctx & _).
    + right. rewrite Hrow. unfold TenantInstance.save. rewrite Hpk. cbn.
      repeat match goal with |- context [if ?c then _ else _] => destruct c eqn:? end;
        cbn in *; try discriminate.
      all: match goal with
           | H : negb (opt_truthy _ ?d) = false |- _ => destruct d; [discriminate|discriminate H]
           | _ => idtac
           end.
    + eauto.
Qed.

Lemma tenant_context_needs_trial_end_witness :
  exists msg,
    TenantContextMiddleware.process_request 10 (request_of unsaved_tenant "GET" "/" [])
    = Raise (TypeError msg).
Proof.
  destruct (tenant_context_needs_trial_end 10 (request_of unsaved_tenant "GET" "/" [])
              unsaved_tenant eq_refl) as (H & _).
  exact (H eq_refl eq_refl).
Defined.

(** ** Tokens *)

(** X27.  How long a token lives.  A password reset token saved without an
    expiry at [now] is expired exactly after [now] + 24 hours, an email
    verification token exactly after [now] + 7 days; at the last instant
    itself both are still good.  A later save changes nothing: the
    lifetime is not extended.  Before its first save such a token has no
    expiry and [is_expired] raises [TypeError]. *)
Theorem token_lifetimes (uuid4 uuid4' : string) (now later t : datetime) (self : token) :
  expires_at self = None ->
  uuid4 <> "" ->
  (exists b, PasswordResetToken.is_expired t (PasswordResetToken.save uuid4 now self) = Ok b
             /\ (b = true <-> now + 24 * 3600 < t))
  /\ (exists b, EmailVerificationToken.is_expired t (EmailVerificationToken.save uuid4 now self)
                = Ok b
                /\ (b = true <-> now + 7 * 86400 < t))
  /\ PasswordResetToken.save uuid4' later (PasswordResetToken.save uuid4 now self)
     = PasswordResetToken.save uuid4 now self
  /\ EmailVerificationToken.save uuid4' later (EmailVerificationToken.save uuid4 now self)
     = EmailVerificationToken.save uuid4 now self
  /\ exists msg, PasswordResetToken.is_expired t self = Raise (TypeError msg).
Proof.
  intros He Hu.
  unfold PasswordResetToken.is_expired, PasswordResetToken.save,
    EmailVerificationToken.is_expired, EmailVerificationToken.save,
    token_is_expired, token_save.
  rewrite He. cbn [expires_at token_value token_user is_used].
  assert (Hv : forall v, str_truthy (if negb (str_truthy v) then uuid4 else v) = true).
  { intros v. destruct (str_truthy v) eqn:E; cbn; [exact E|].
    destruct uuid4; [contradiction|reflexivity]. }
  repeat split.
  - eexists. split; [reflexivity|]. apply Qlt_bool_iff.
  - eexists. split; [reflexivity|]. apply Qlt_bool_iff.
  - now rewrite Hv.
  - now rewrite Hv.
  - eauto.
Qed.

Lemma token_lifetimes_witness :
  exists b, PasswordResetToken.is_expired 86400
              (PasswordResetToken.save "3f2b" 0 a_fresh_token) = Ok b
            /\ (b = true <-> 0 + 24 * 3600 < 86400).
Proof.
  destruct (token_lifetimes "3f2b" "9c1d" 0 50 86400 a_fresh_token eq_refl) as (H & _).
  - discriminate.
  - exact H.
Defined.

(** ** The form of a webhook signature *)

Lemma hex_length (b : bytes) : String.length (hex b) = (2 * length b)%nat.
Proof. induction b as [|o b IH]; [reflexivity|]. cbn [hex String.length length]. lia. Qed.

Lemma be_bytes_octets (n : nat) (x : Z) :
  Forall (fun o => (0 <= o < 256)%Z) (sha256.be_bytes n x).
Proof.
  revert x. induction n as [|n IH]; intros x; cbn [sha256.be_bytes]; [constructor|].
  apply Forall_app. split; [apply IH|]. constructor; [|constructor].
  change 255%Z with (Z.ones 8). rewrite Z.land_ones by lia.
  apply Z.mod_pos_bound. reflexivity.
Qed.

Lemma digest_octets (msg : bytes) :
  Forall (fun o => (0 <= o < 256)%Z) (sha256.digest msg).
Proof.
  unfold sha256.digest. cbn zeta.
  generalize (fold_left sha256.compress
                (sha256.chunks (length (sha256.pad msg)) 64 (sha256.pad msg))
                sha256.initial_hash).
  intros state. induction state as [|w state IH]; [constructor|].
  cbn [flat_map]. apply Forall_app. split; [apply be_bytes_octets|exact IH].
Qed.

Lemma hex_digit_lower (n : Z) : (0 <= n < 16)%Z -> is_lower_hex (hex_digit n) = true.
Proof.
  intros H.
  assert (E : In n [0; 1; 2; 3; 4; 5; 6; 7; 8; 9; 10; 11; 12; 13; 14; 15]%Z).
  { cbn. lia. }
  cbn in E. repeat (destruct E as [<-|E]; [reflexivity|]). contradiction.
Qed.

Lemma hex_lower (b : bytes) :
  Forall (fun o => (0 <= o < 256)%Z) b ->
  Forall (fun a => is_lower_hex a = true) (list_ascii_of_string (hex b)).
Proof.
  induction 1 as [|o b Ho _ IH]; [constructor|].
  cbn [hex list_ascii_of_string]. constructor; [|constructor; [|exact IH]].
  - apply hex_digit_lower. rewrite Z.shiftr_div_pow2 by lia.
    change (2 ^ 4)%Z with 16%Z. split; [apply Z.div_pos; lia|].
    apply Z.div_lt_upper_bound; lia.
  - apply hex_digit_lower. change 15%Z with (Z.ones 4). rewrite Z.land_ones by lia.
    apply Z.mod_pos_bound. reflexivity.
Qed.

(** X28.  The form of a signature.  [generate_signature] fails exactly
    when the secret or the payload cannot be encoded (it holds a lone
    surrogate); every signature it returns is 64 characters long, each of
    them one of the lower-case hexadecimal digits. *)
Theorem signature_is_64_hex_digits (self : WebhookEndpoint.t) (payload : pystr) :
  (WebhookEndpoint.generate_signature self payload = None
   <-> utf8.encode (WebhookEndpoint.secret_key self) = None \/ utf8.encode payload = None)
  /\ forall signature,
       WebhookEndpoint.generate_signature self payload = Some signature ->
       String.length signature = 64%nat
       /\ Forall (fun a => is_lower_hex a = true) (list_ascii_of_string signature).
Proof.
  unfold WebhookEndpoint.generate_signature.
  destruct (utf8.encode (WebhookEndpoint.secret_key self)) as [key|];
    [|split; [split; [now left|reflexivity]|discriminate]].
  destruct (utf8.encode payload) as [msg|];
    [|split; [split; [now right|reflexivity]|discriminate]].
  cbn [mbind option_bind]. split.
  - split; [discriminate|]. intros [H|H]; discriminate H.
  - intros signature [= <-]. unfold hmac.hexdigest, hmac.digest. split.
    + now rewrite hex_length, digest_length.
    + apply hex_lower, digest_octets.
Qed.

Lemma signature_is_64_hex_digits_witness :
  exists signature,
    WebhookEndpoint.generate_signature an_endpoint payload_1 = Some signature
    /\ String.length signature = 64%nat.
Proof.
  eexists. split; [vm_compute; reflexivity|].
  refine (proj1 (proj2 (signature_is_64_hex_digits an_endpoint payload_1) _ _)).
  vm_compute. reflexivity.
Defined.
